(** * Cybercrime report classifier: data preparation and prediction

    A shallow embedding of the data cleaning, data preparation, training
    and prediction logic of [src/src/notebook.ipynb] (class
    [CybercrimeClassifier], the static methods of [DatasetAnalyzer] and
    [clean_dataframe]) and of the text cleaner and the rare-class cell of
    [src/unnamed/part_000].

    Conventions of the embedding.
    - Python exceptions are values of [exn]; a computation that may raise
      has type [outcome A]; a computation that also mutates an object has
      type [py S A], a state-and-exception monad in which the state
      survives a raised exception, as a mutated Python object does.
    - Python [float]s are IEEE binary64 numbers, Rocq's primitive [float].
    - Python [str]s are Rocq [string]s, read as sequences of code points
      0..255 (Latin-1).
    - The NLTK tokenizer, lemmatizer and stop-word list and the fitted
      scikit-learn models are external: they are section variables or
      record fields, and may raise. *)

From Stdlib Require Import PrimFloat Ascii.
From Stdlib Require Uint63 FloatAxioms.
From stdpp Require Import gmap strings list sorting functions.
From stdpp Require pretty.

(** ** Python exceptions and effects *)

Inductive exn : Type :=
| ValueError (msg : string)
| IndexError (msg : string)
| AttributeError (msg : string)
| LibraryError (msg : string).

Inductive outcome (A : Type) : Type :=
| Ret (a : A)
| Raise (e : exn).
Arguments Ret {A} a.
Arguments Raise {A} e.

#[global] Instance outcome_ret : MRet outcome := λ A a, Ret a.
#[global] Instance outcome_bind : MBind outcome := λ A B k m,
  match m with
  | Ret a => k a
  | Raise e => Raise e
  end.
#[global] Instance outcome_fmap : FMap outcome := λ A B f m,
  match m with
  | Ret a => Ret (f a)
  | Raise e => Raise e
  end.

(** [try: body except Exception as e: handler] *)
Definition try_except {A} (body : outcome A) (handler : exn → outcome A) : outcome A :=
  match body with
  | Ret a => Ret a
  | Raise e => handler e
  end.

Definition returns {A} (m : outcome A) : Prop := ∃ a, m = Ret a.

(** [for x in xs: acc = body acc x], where the body may raise. *)
Fixpoint foldlM {A B} (body : B → A → outcome B) (acc : B) (xs : list A) : outcome B :=
  match xs with
  | [] => Ret acc
  | x :: xs' => acc' ← body acc x; foldlM body acc' xs'
  end.

(** Computations over a mutable object of type [S]. *)
Definition py (S A : Type) : Type := S → outcome A * S.

Definition py_ret {S A} (a : A) : py S A := λ s, (Ret a, s).
Definition py_raise {S A} (e : exn) : py S A := λ s, (Raise e, s).
Definition py_bind {S A B} (m : py S A) (k : A → py S B) : py S B := λ s,
  match m s with
  | (Ret a, s') => k a s'
  | (Raise e, s') => (Raise e, s')
  end.
Definition py_lift {S A} (m : outcome A) : py S A := λ s, (m, s).
Definition py_get {S} : py S S := λ s, (Ret s, s).
Definition py_modify {S} (f : S → S) : py S unit := λ s, (Ret tt, f s).
Definition py_try {S A} (body : py S A) (handler : exn → py S A) : py S A := λ s,
  match body s with
  | (Ret a, s') => (Ret a, s')
  | (Raise e, s') => handler e s'
  end.

#[global] Instance py_mret {S} : MRet (py S) := λ A, py_ret.
#[global] Instance py_mbind {S} : MBind (py S) := λ A B k m, py_bind m k.

(** [for x in xs: body x] *)
Fixpoint py_for {S A} (xs : list A) (body : A → py S unit) : py S unit :=
  match xs with
  | [] => py_ret tt
  | x :: xs' => body x;; py_for xs' body
  end.

(** ** Characters and strings *)

Definition code (c : ascii) : N := N_of_ascii c.
Definition in_range (lo hi : N) (c : ascii) : bool :=
  ((lo <=? code c) && (code c <=? hi))%N.

(** [[A-Z]], [[a-z]], [[a-zA-Z]], [\d] *)
Definition is_upper (c : ascii) : bool := in_range 65 90 c.
Definition is_lower (c : ascii) : bool := in_range 97 122 c.
Definition is_letter (c : ascii) : bool := is_lower c || is_upper c.
Definition isdigit (c : ascii) : bool := in_range 48 57 c.

(** [\s] and [str.isspace] on code points below 256: TAB..CR, FS..US,
    space, NEL and NBSP. *)
Definition isspace (c : ascii) : bool :=
  in_range 9 13 c || in_range 28 32 c || (code c =? 133)%N || (code c =? 160)%N.

(** [str.lower] on one code point below 256: A-Z and the accented capitals
    U+00C0..U+00DE (without the multiplication sign U+00D7) move up by 32. *)
Definition lower_char (c : ascii) : ascii :=
  if is_upper c || (in_range 192 222 c && negb (code c =? 215)%N)
  then ascii_of_N (code c + 32) else c.

Fixpoint string_map (f : ascii → ascii) (s : string) : string :=
  match s with
  | EmptyString => EmptyString
  | String c s' => String (f c) (string_map f s')
  end.

Fixpoint string_filter (p : ascii → bool) (s : string) : string :=
  match s with
  | EmptyString => EmptyString
  | String c s' => if p c then String c (string_filter p s') else string_filter p s'
  end.

Fixpoint string_forall (p : ascii → bool) (s : string) : bool :=
  match s with
  | EmptyString => true
  | String c s' => p c && string_forall p s'
  end.

Definition lower (s : string) : string := string_map lower_char s.

(** [str.split()] without argument: the maximal runs of non-space
    characters. [cur] is the run being read, reversed. *)
Fixpoint split_go (cur : string) (s : string) : list string :=
  match s with
  | EmptyString => if decide (cur = "") then [] else [String.rev cur]
  | String c s' =>
      if isspace c
      then (if decide (cur = "") then [] else [String.rev cur]) ++ split_go "" s'
      else split_go (String c cur) s'
  end.
Definition split (s : string) : list string := split_go "" s.

(** [sep.join(l)] *)
Definition join (sep : string) (l : list string) : string := String.concat sep l.

(** ** Text Normalizer *)

(** The argument of [preprocess_text]: a [str], or any other object, whose
    [str()] conversion may itself raise. *)
Inductive pyobj : Type :=
| PyStr (s : string)
| PyOther (str_of : outcome string).

(** [if not isinstance(text, str): text = str(text)] *)
Definition to_str (text : pyobj) : outcome string :=
  match text with
  | PyStr s => Ret s
  | PyOther str_of => str_of
  end.

(** [re.sub(r"[^a-zA-Z\s]", "", text)] *)
Definition sub_non_letters (text : string) : string :=
  string_filter (λ c, is_letter c || isspace c) text.

Module Regex.
(** The substitutions of the first [preprocess_text] definition. Every
    pattern is matched leftmost-first and greedily, as [re.sub] does. *)

Definition nonspace_at (n : nat) (s : string) : bool :=
  match String.get n s with
  | Some c => negb (isspace c)
  | None => false
  end.

(** A match of [http\S+|www\S+] starts at the head of [s]. *)
Definition url_start (s : string) : bool :=
  (String.prefix "http" s && nonspace_at 4 s) ||
  (String.prefix "www" s && nonspace_at 3 s).

(** [re.sub(r'http\S+|www\S+', '', text)]: a match runs to the end of
    the run of non-space characters it starts in. *)
Fixpoint strip_urls_go (skipping : bool) (s : string) : string :=
  match s with
  | EmptyString => EmptyString
  | String c s' =>
      if isspace c then String c (strip_urls_go false s')
      else if skipping || url_start s then strip_urls_go true s'
      else String c (strip_urls_go false s')
  end.
Definition strip_urls : string → string := strip_urls_go false.

(** Some character of [s] other than its last one is an at sign. *)
Fixpoint at_inside (s : string) : bool :=
  match s with
  | String c (String _ _ as s') => bool_decide (c = "@"%char) || at_inside s'
  | _ => false
  end.

(** [\S+@\S+] matches inside the run [w] of non-space characters; the
    leftmost greedy match is then the whole run. *)
Definition is_email_word (w : string) : bool :=
  match w with
  | String _ rest => at_inside rest
  | EmptyString => false
  end.

Definition flush_word (cur : string) : string :=
  let w := String.rev cur in if is_email_word w then "" else w.

(** [re.sub(r'\S+@\S+', '', text)] *)
Fixpoint strip_emails_go (cur : string) (s : string) : string :=
  match s with
  | EmptyString => flush_word cur
  | String c s' =>
      if isspace c then flush_word cur +:+ String c (strip_emails_go "" s')
      else strip_emails_go (String c cur) s'
  end.
Definition strip_emails : string → string := strip_emails_go "".

Fixpoint digit_run (s : string) : nat :=
  match s with
  | String c s' => if isdigit c then S (digit_run s') else 0
  | EmptyString => 0
  end.

(** [\+?] *)
Definition opt_plus (s : string) : nat * string :=
  match s with
  | String c s' => if bool_decide (c = "+"%char) then (1, s') else (0, s)
  | EmptyString => (0, s)
  end.

(** [[-\s]?] *)
Definition opt_sep (s : string) : nat * string :=
  match s with
  | String c s' => if bool_decide (c = "-"%char) || isspace c then (1, s') else (0, s)
  | EmptyString => (0, s)
  end.

(** [\d{n}] *)
Fixpoint take_digits (n : nat) (s : string) : option string :=
  match n with
  | 0 => Some s
  | S n' =>
      match s with
      | String c s' => if isdigit c then take_digits n' s' else None
      | EmptyString => None
      end
  end.

(** Length of the match of
    [\+?\d{10,}|\+?\d{3}[-\s]?\d{3}[-\s]?\d{4}] at the head of [s]. *)
Definition phone_match (s : string) : option nat :=
  let '(p, r) := opt_plus s in
  if (10 <=? digit_run r)%nat then Some (p + digit_run r)
  else
    r1 ← take_digits 3 r;
    let '(a, r2) := opt_sep r1 in
    r3 ← take_digits 3 r2;
    let '(b, r4) := opt_sep r3 in
    _ ← take_digits 4 r4;
    Some (p + 3 + a + 3 + b + 4).

(** [re.sub(<phone pattern>, '', text)]; [skip] characters of the
    current match are still to be dropped. *)
Fixpoint strip_phones_go (skip : nat) (s : string) : string :=
  match s with
  | EmptyString => EmptyString
  | String c s' =>
      match skip with
      | S k => strip_phones_go k s'
      | 0 =>
          match phone_match s with
          | Some (S k) => strip_phones_go k s'
          | _ => String c (strip_phones_go 0 s')
          end
      end
  end.
Definition strip_phones : string → string := strip_phones_go 0.

(** [re.sub(r'\s+', ' ', text)] *)
Fixpoint collapse_spaces_go (in_space : bool) (s : string) : string :=
  match s with
  | EmptyString => EmptyString
  | String c s' =>
      if isspace c
      then (if in_space then collapse_spaces_go true s'
            else String " " (collapse_spaces_go true s'))
      else String c (collapse_spaces_go false s')
  end.
Definition collapse_spaces : string → string := collapse_spaces_go false.

(** [re.sub(r'[^a-zA-Z\s!?.]', '', text)] *)
Definition sub_non_letters_punct (text : string) : string :=
  string_filter
    (λ c, is_letter c || isspace c ||
          bool_decide (c = "!"%char) || bool_decide (c = "?"%char) ||
          bool_decide (c = "."%char)) text.
End Regex.

(** [f"{tokens[i]}_{tokens[i+1]}" for i in range(len(tokens)-1)] *)
Fixpoint bigrams (tokens : list string) : list string :=
  match tokens with
  | a :: (b :: _) as rest => (a +:+ "_" +:+ b) :: bigrams rest
  | _ => []
  end.

(** [f"{tokens[i]}_{tokens[i+1]}_{tokens[i+2]}" for i in range(len(tokens)-2)] *)
Fixpoint trigrams (tokens : list string) : list string :=
  match tokens with
  | a :: (b :: c :: _) as rest => (a +:+ "_" +:+ b +:+ "_" +:+ c) :: trigrams rest
  | _ => []
  end.

Section Normalizer.
(** NLTK: [word_tokenize], [WordNetLemmatizer().lemmatize] and
    [stopwords.words("english")]. *)
Variable word_tokenize : string → outcome (list string).
Variable lemmatize : string → outcome string.
Variable english_stopwords : list string.

(** [self.stop_words], as [__init__] builds it. *)
Definition stop_words : gset string :=
  list_to_set english_stopwords ∪
  list_to_set ["please"; "help"; "thank"; "thanks"; "sir"; "madam"; "kindly"].

(** [token not in self.stop_words and len(token) > 2] *)
Definition keep_token (token : string) : Prop :=
  (token ∉ stop_words) ∧ (2 < String.length token)%nat.
#[global] Instance keep_token_dec token : Decision (keep_token token).
Proof. unfold keep_token. apply _. Defined.

(** [[self.lemmatizer.lemmatize(token) for token in tokens if ...]] *)
Definition lemmatize_tokens (tokens : list string) : outcome (list string) :=
  mapM lemmatize (filter keep_token tokens).

(** The tokens that survive cleaning, in the second definition. *)
Definition surviving_tokens (text : pyobj) : outcome (list string) :=
  text ← to_str text;
  tokens ← word_tokenize (sub_non_letters (lower text));
  lemmatize_tokens tokens.

(** The [try] block of the first definition (notebook line 65). *)
Definition preprocess_text_1_body (text : pyobj) : outcome string :=
  text ← to_str text;
  let text := lower text in
  let text := Regex.strip_urls text in
  let text := Regex.strip_emails text in
  let text := Regex.strip_phones text in
  let text := Regex.collapse_spaces text in
  let text := Regex.sub_non_letters_punct text in
  tokens ← word_tokenize text;
  tokens ← lemmatize_tokens tokens;
  let processed_text := join " " (tokens ++ bigrams tokens ++ trigrams tokens) in
  if (length (split processed_text) <? 3)%nat then Ret "" else Ret processed_text.

Definition preprocess_text_1 (text : pyobj) : outcome string :=
  try_except (preprocess_text_1_body text) (λ e, Ret "").

(** The [try] block of the second definition (notebook line 199). *)
Definition preprocess_text_2_body (text : pyobj) : outcome string :=
  text ← to_str text;
  let text := lower text in
  let text := sub_non_letters text in
  tokens ← word_tokenize text;
  tokens ← lemmatize_tokens tokens;
  Ret (join " " tokens).

Definition preprocess_text_2 (text : pyobj) : outcome string :=
  try_except (preprocess_text_2_body text) (λ e, Ret "").

(** The [def] statements of the body of [class CybercrimeClassifier], in
    source order, each with the notebook line it starts at. *)
Definition class_body : list (string * nat) :=
  [("__init__", 36); ("preprocess_text", 65); ("build_model", 115);
   ("analyze_class_distribution", 162); ("filter_rare_classes", 178);
   ("preprocess_text", 199); ("prepare_data", 228); ("train", 269);
   ("_perform_error_analysis", 346); ("predict", 366);
   ("_get_unknown_prediction", 402)].

(** Executing the class body binds each name in turn in the class
    namespace; a later [def] of a name replaces the earlier one. *)
Definition class_namespace : gmap string nat :=
  foldl (λ ns d, <[d.1 := d.2]> ns) ∅ class_body.

(** [self.preprocess_text]: the attribute found in the class namespace. *)
Definition preprocess_text (text : pyobj) : outcome string :=
  match class_namespace !! "preprocess_text" with
  | Some 65 => preprocess_text_1 text
  | Some 199 => preprocess_text_2 text
  | _ => Raise (AttributeError "preprocess_text")
  end.
End Normalizer.

(** ** Data model *)

(** A record of the dataset: [crimeaditionalinfo], [category],
    [sub_category]. Labels are strings: [clean_dataframe] replaces a
    missing label by 'Unknown' before the data is prepared. *)
Record row : Type := Row {
  crimeaditionalinfo : pyobj;
  category : string;
  sub_category : string;
}.

(** The two label columns, iterated as [['category', 'sub_category']]. *)
Inductive column : Type := Category | SubCategory.
#[global] Instance column_eq_dec : EqDecision column.
Proof. solve_decision. Defined.

Definition column_name (c : column) : string :=
  match c with
  | Category => "category"
  | SubCategory => "sub_category"
  end.

Definition label_columns : list column := [Category; SubCategory].

(** [row[column]] and [df[column]] *)
Definition label (c : column) (r : row) : string :=
  match c with
  | Category => category r
  | SubCategory => sub_category r
  end.
Definition column_values (c : column) (df : list row) : list string := label c <$> df.

(** [row[column] = v] *)
Definition set_label (c : column) (v : string) (r : row) : row :=
  match c with
  | Category => Row (crimeaditionalinfo r) v (sub_category r)
  | SubCategory => Row (crimeaditionalinfo r) (category r) v
  end.

(** ** Class Filter *)

(** [Series.value_counts()]: the number of occurrences of every value
    that occurs. *)
Definition value_counts (col : list string) : gmap string nat :=
  foldr (λ l counts, <[l := S (default 0 (counts !! l))]> counts) ∅ col.

(** [counts[counts >= threshold].index] *)
Definition valid_classes (threshold : Z) (counts : gmap string nat) : gset string :=
  dom (filter (λ kv, (threshold ≤ Z.of_nat kv.2)%Z) counts).

(** [df[df[column].isin(valid)]] *)
Definition keep_valid (c : column) (valid : gset string) (df : list row) : list row :=
  filter (λ r, label c r ∈ valid) df.

(** The number of records of [df] that carry [l] in column [c]. *)
Definition support (c : column) (l : string) (df : list row) : nat :=
  length (filter (λ r, label c r = l) df).

(** One pass of the loop of [filter_rare_classes]. *)
Definition filter_column (threshold : Z) (df : list row) (c : column) : list row :=
  let counts := value_counts (column_values c df) in
  let valid := valid_classes threshold counts in
  keep_valid c valid df.

(** [CybercrimeClassifier.filter_rare_classes], with
    [self.min_samples_per_class] as [threshold]. *)
Definition filter_rare_classes (threshold : Z) (df : list row) : outcome (list row) :=
  let df := foldl (filter_column threshold) df label_columns in
  let filtered_len := length df in
  if decide (filtered_len = 0)
  then Raise (ValueError "No samples remaining after filtering rare classes. Consider lowering min_samples_per_class.")
  else Ret df.

(** The rare-class cell of [src/unnamed/part_000]: both sets of valid
    classes are computed on [combined_df], and a record is kept when both
    of its labels are valid. The cell sets [min_instances = 5]; here the
    threshold is an argument. *)
Definition min_instances : Z := 5.
Definition filtered_df (min_instances : Z) (combined_df : list row) : list row :=
  let category_counts := value_counts (column_values Category combined_df) in
  let sub_category_counts := value_counts (column_values SubCategory combined_df) in
  let valid_categories := valid_classes min_instances category_counts in
  let valid_sub_categories := valid_classes min_instances sub_category_counts in
  filter (λ r, category r ∈ valid_categories ∧ sub_category r ∈ valid_sub_categories)
    combined_df.

(** ** Label Encoder *)

(** scikit-learn's [LabelEncoder]; [classes_] exists once it is fitted. *)
Record LabelEncoder : Type := { classes_ : option (list string) }.

Definition unfitted : LabelEncoder := {| classes_ := None |}.

(** [np.unique]: the distinct values, sorted. *)
Definition np_unique (y : list string) : list string :=
  merge_sort String.le (remove_dups y).

(** [LabelEncoder.fit(y)] *)
Definition fit (y : list string) : LabelEncoder := {| classes_ := Some (np_unique y) |}.

Definition get_classes (enc : LabelEncoder) : outcome (list string) :=
  match classes_ enc with
  | Some classes => Ret classes
  | None => Raise (AttributeError "'LabelEncoder' object has no attribute 'classes_'")
  end.

(** The id of one class name: its position in [classes_]. *)
Definition encode (classes : list string) (name : string) : outcome Z :=
  match list_find (λ x, x = name) classes with
  | Some (i, _) => Ret (Z.of_nat i)
  | None => Raise (ValueError "y contains previously unseen labels")
  end.

(** [LabelEncoder.transform(y)] *)
Definition transform (enc : LabelEncoder) (y : list string) : outcome (list Z) :=
  classes ← get_classes enc;
  mapM (encode classes) y.

(** [a[i]] on a NumPy array or list: a negative index counts from the
    end, an index outside [-n..n-1] raises [IndexError]. *)
Definition np_index {A} (a : list A) (i : Z) : outcome A :=
  let n := Z.of_nat (length a) in
  let j := if (i <? 0)%Z then (i + n)%Z else i in
  match (if (0 <=? j)%Z then a !! Z.to_nat j else None) with
  | Some x => Ret x
  | None => Raise (IndexError "index is out of bounds")
  end.

(** Decoding as the classifier does it: [encoder.classes_[prediction]]
    in [predict], [class_names[i]] in [_perform_error_analysis]. *)
Definition decode (enc : LabelEncoder) (id : Z) : outcome string :=
  classes ← get_classes enc;
  np_index classes id.

(** [LabelEncoder.inverse_transform(y)]: an empty [y] gives an empty
    result; an id that is not one of 0..n-1 raises; otherwise
    [classes_[y]]. *)
Definition inverse_transform (enc : LabelEncoder) (y : list Z) : outcome (list string) :=
  classes ← get_classes enc;
  if decide (y = []) then Ret []
  else if decide (Forall (λ id, (0 ≤ id < Z.of_nat (length classes))%Z) y)
  then mapM (np_index classes) y
  else Raise (ValueError "y contains previously unseen labels").

(** ** The classifier object *)

(** A fitted pipeline, as [predict] uses it:
    [model.predict_proba([text])[0]] and [model.predict([text])[0]]. *)
Record Model : Type := {
  predict_proba : string → outcome (list float);
  model_predict : string → outcome Z;
}.

Record CybercrimeClassifier : Type := {
  label_encoders : column → LabelEncoder;
  models : column → option Model;
  min_samples_per_class : Z;
}.

(** [CybercrimeClassifier.__init__] *)
Definition init (min_samples_per_class : Z) : CybercrimeClassifier :=
  {| label_encoders := λ _, unfitted;
     models := λ _, None;
     min_samples_per_class := min_samples_per_class |}.

Definition set_encoder (c : column) (enc : LabelEncoder)
    (self : CybercrimeClassifier) : CybercrimeClassifier :=
  {| label_encoders := <[c := enc]> (label_encoders self);
     models := models self;
     min_samples_per_class := min_samples_per_class self |}.

(** A record of a prepared dataset: the raw record, [processed_text] and
    the [category_encoded] and [sub_category_encoded] columns present so
    far. *)
Record prepared_row : Type := Prepared {
  raw : row;
  processed_text : string;
  encoded : list (column * Z);
}.

(** [df[f'{column}_encoded'] = ids] *)
Definition assign_encoded (c : column) (ids : list Z) (df : list prepared_row)
    : list prepared_row :=
  zip_with (λ r id, Prepared (raw r) (processed_text r) (encoded r ++ [(c, id)])) df ids.

Definition raw_rows (df : list prepared_row) : list row := raw <$> df.

(** [for ... : acc = body acc x] in the [py] monad. *)
Fixpoint py_fold {S A B} (body : B → A → py S B) (acc : B) (xs : list A) : py S B :=
  match xs with
  | [] => mret acc
  | x :: xs' => acc' ← body acc x; py_fold body acc' xs'
  end.

(** [df.iloc[0]] *)
Definition iloc0 (df : list row) : outcome row :=
  match df with
  | r :: _ => Ret r
  | [] => Raise (IndexError "single positional indexer is out-of-bounds")
  end.

(** One pass of the first loop of [CybercrimeClassifier.prepare_data]. *)
Definition add_unknown (df : list row) (c : column) : outcome (list row) :=
  if decide ("Unknown" ∉ remove_dups (column_values c df)) then
    unknown_row ← iloc0 df;
    let unknown_row := set_label c "Unknown" unknown_row in
    let unknown_row :=
      Row (PyStr "unknown case") (category unknown_row) (sub_category unknown_row) in
    Ret (df ++ [unknown_row])
  else Ret df.

(** The dataset [prepare_data] hands to [filter_rare_classes]. *)
Definition with_unknown_rows (df : list row) : outcome (list row) :=
  foldlM add_unknown df label_columns.

Section Pipeline.
Variable word_tokenize : string → outcome (list string).
Variable lemmatize : string → outcome string.
Variable english_stopwords : list string.

Abbreviation preprocess := (preprocess_text word_tokenize lemmatize english_stopwords).

(** ** Data preparation *)

(** [df['processed_text'] = [self.preprocess_text(text) for text in
    df['crimeaditionalinfo']]] *)
Definition add_processed_text (df : list row) : outcome (list prepared_row) :=
  mapM (λ r, text ← preprocess (crimeaditionalinfo r); mret (Prepared r text [])) df.

(** [df[df['processed_text'].str.len() > 0]] *)
Definition drop_empty (df : list prepared_row) : list prepared_row :=
  filter (λ r, (0 < String.length (processed_text r))%nat) df.

(** [self.label_encoders[column].fit_transform(y)] *)
Definition fit_transform (c : column) (y : list string)
    : py CybercrimeClassifier (list Z) :=
  py_modify (set_encoder c (fit y));;
  self ← py_get;
  py_lift (transform (label_encoders self c) y).

(** The last loop of [CybercrimeClassifier.prepare_data]. *)
Definition encode_labels (df : list prepared_row)
    : py CybercrimeClassifier (list prepared_row) :=
  py_fold (λ df c,
    ids ← fit_transform c (column_values c (raw_rows df));
    mret (assign_encoded c ids df)) df label_columns.

(** [CybercrimeClassifier.prepare_data]. The two calls of
    [analyze_class_distribution] only print. *)
Definition prepare_data (df : list row) : py CybercrimeClassifier (list prepared_row) :=
  df ← py_lift (with_unknown_rows df);
  self ← py_get;
  df ← py_lift (filter_rare_classes (min_samples_per_class self) df);
  df ← py_lift (add_processed_text df);
  let df := drop_empty df in
  encode_labels df.

(** ** Predictor *)

(** The values of the result dictionary. *)
Inductive pyval : Type :=
| VStr (s : string)
| VFloat (f : float).

(** [f"{column}_confidence"] *)
Definition confidence_key (c : column) : string := column_name c +:+ "_confidence".

(** [_get_unknown_prediction(column)]; [None] is the default argument. *)
Definition _get_unknown_prediction (c : option column) : gmap string pyval :=
  match c with
  | Some c =>
      <[confidence_key c := VFloat 0]> (<[column_name c := VStr "Unknown"]> ∅)
  | None =>
      <["sub_category_confidence" := VFloat 0]>
        (<["sub_category" := VStr "Unknown"]>
          (<["category_confidence" := VFloat 0]>
            (<["category" := VStr "Unknown"]> ∅)))
  end.

(** The builtin [max] on a sequence of floats: the first element that
    no later element exceeds; an empty sequence raises. *)
Definition py_max (xs : list float) : outcome float :=
  match xs with
  | [] => Raise (ValueError "max() arg is an empty sequence")
  | x :: xs' => Ret (foldl (λ maxitem item, if (maxitem <? item)%float then item else maxitem) x xs')
  end.

(** The confidence threshold [0.3], the binary64 number nearest to 3/10. *)
Definition confidence_threshold : float := 0x1.3333333333333p-2%float.

(** [results[key] = v] *)
Definition setitem (key : string) (v : pyval) : py (gmap string pyval) unit :=
  py_modify (λ results, <[key := v]> results).

(** The inner [try] block of [predict] for one column. *)
Definition predict_column_body (self : CybercrimeClassifier) (model : Model)
    (processed_text : string) (c : column) : py (gmap string pyval) unit :=
  probas ← py_lift (predict_proba model processed_text);
  max_proba ← py_lift (py_max probas);
  prediction ← py_lift (model_predict model processed_text);
  if (max_proba <? confidence_threshold)%float then
    setitem (column_name c) (VStr "Unknown");;
    setitem (confidence_key c) (VFloat 0)
  else
    name ← py_lift (decode (label_encoders self c) prediction);
    setitem (column_name c) (VStr name);;
    setitem (confidence_key c) (VFloat max_proba).

(** One pass of the loop of [predict]. *)
Definition predict_column (self : CybercrimeClassifier) (processed_text : string)
    (c : column) : py (gmap string pyval) unit :=
  match models self c with
  | None => py_raise (ValueError ("Model for " +:+ column_name c +:+ " is not trained"))
  | Some model =>
      py_try (predict_column_body self model processed_text c)
        (λ e, py_modify (λ results, _get_unknown_prediction (Some c) ∪ results))
  end.

(** The outer [try] block of [predict]. *)
Definition predict_body (self : CybercrimeClassifier) (text : pyobj)
    : outcome (gmap string pyval) :=
  processed_text ← preprocess text;
  if decide (processed_text = "") then Ret (_get_unknown_prediction None)
  else
    match py_for label_columns (predict_column self processed_text) ∅ with
    | (Ret _, results) => Ret results
    | (Raise e, _) => Raise e
    end.

(** [CybercrimeClassifier.predict] *)
Definition predict (self : CybercrimeClassifier) (text : pyobj)
    : outcome (gmap string pyval) :=
  try_except (predict_body self text) (λ e, Ret (_get_unknown_prediction None)).

(** For the proofs: the label and the confidence that the inner [try]
    block stores for one column, as a function without state
    ([predict_column_body_entries] below relates the two), and the two
    stores. *)
Definition column_entries (self : CybercrimeClassifier) (model : Model)
    (processed_text : string) (c : column) : outcome (string * float) :=
  probas ← predict_proba model processed_text;
  max_proba ← py_max probas;
  prediction ← model_predict model processed_text;
  if (max_proba <? confidence_threshold)%float then Ret ("Unknown", 0%float)
  else
    name ← decode (label_encoders self c) prediction;
    Ret (name, max_proba).

Definition store (c : column) (entry : string * float) (results : gmap string pyval)
    : gmap string pyval :=
  <[confidence_key c := VFloat entry.2]> (<[column_name c := VStr entry.1]> results).

(** What one pass of the loop leaves for its column: the entries of the
    block, or the Unknown entries when the block raised. *)
Definition column_result (self : CybercrimeClassifier) (model : Model)
    (processed_text : string) (c : column) : string * float :=
  match column_entries self model processed_text c with
  | Ret entry => entry
  | Raise _ => ("Unknown", 0%float)
  end.
End Pipeline.

(** ** Sample data

    Stand-ins for NLTK on plain lower-case English words: the tokenizer
    splits at white space, the lemmatizer leaves a word as it is. *)
Module Sample.
Definition word_tokenize (text : string) : outcome (list string) := Ret (split text).
Definition lemmatize (token : string) : outcome string := Ret token.
Definition english_stopwords : list string :=
  ["the"; "and"; "was"; "for"; "from"; "with"; "this"; "that"].

Definition preprocess_text : pyobj → outcome string :=
  preprocess_text word_tokenize lemmatize english_stopwords.

(** Four reports: both categories occur twice, one sub-category three
    times and the other once. *)
Definition upi1 : row :=
  Row (PyStr "bank fraud money transfer") "Financial Fraud" "UPI Fraud".
Definition card1 : row :=
  Row (PyStr "card cloned cash withdrawn") "Financial Fraud" "Card Fraud".
Definition upi2 : row :=
  Row (PyStr "fake profile money request") "Social Media Crime" "UPI Fraud".
Definition upi3 : row :=
  Row (PyStr "hacked account money request") "Social Media Crime" "UPI Fraud".
Definition reports : list row := [upi1; card1; upi2; upi3].

(** A report whose text has no letters: its normalization is empty. *)
Definition digits_only : row :=
  Row (PyStr "1234 5678 9012 3456 7890") "Financial Fraud" "UPI Fraud".
Definition upi4 : row :=
  Row (PyStr "stolen phone money request") "Social Media Crime" "UPI Fraud".

(** Five reports of one sub-category, two of the first category and three
    of the second. *)
Definition upi_reports : list row := [upi1; digits_only; upi2; upi3; upi4].

(** Fitted models that answer every text alike: one sure of class 0,
    one undecided between four classes, one whose calls raise. *)
Definition sure_model : Model :=
  {| predict_proba := λ _, Ret [0.75%float; 0.25%float];
     model_predict := λ _, Ret 0%Z |}.
Definition undecided_model : Model :=
  {| predict_proba := λ _, Ret [0.25%float; 0.25%float; 0.25%float; 0.25%float];
     model_predict := λ _, Ret 0%Z |}.
Definition broken_model : Model :=
  {| predict_proba := λ _, Raise (LibraryError "NotFittedError");
     model_predict := λ _, Raise (LibraryError "NotFittedError") |}.

Definition encoders (c : column) : LabelEncoder := fit (column_values c reports).

(** Classifiers after training, with both models or with one. *)
Definition trained : CybercrimeClassifier :=
  {| label_encoders := encoders;
     models := λ c, match c with
                    | Category => Some sure_model
                    | SubCategory => Some undecided_model
                    end;
     min_samples_per_class := 2 |}.
Definition category_broken : CybercrimeClassifier :=
  {| label_encoders := encoders;
     models := λ c, match c with
                    | Category => Some broken_model
                    | SubCategory => Some sure_model
                    end;
     min_samples_per_class := 2 |}.
Definition category_only : CybercrimeClassifier :=
  {| label_encoders := encoders;
     models := λ c, match c with
                    | Category => Some sure_model
                    | SubCategory => None
                    end;
     min_samples_per_class := 2 |}.

Definition predict : CybercrimeClassifier → pyobj → outcome (gmap string pyval) :=
  predict word_tokenize lemmatize english_stopwords.

Definition prepare_data : list row → py CybercrimeClassifier (list prepared_row) :=
  prepare_data word_tokenize lemmatize english_stopwords.
End Sample.

(** ** Dataset analysis *)

(** [DatasetAnalyzer.analyze_class_distribution]: the value counts of the
    two label columns, as dictionaries. *)
Definition DatasetAnalyzer_analyze_class_distribution (df : list row)
    : gmap string (gmap string nat) :=
  <["sub_category" := value_counts (column_values SubCategory df)]>
    (<["category" := value_counts (column_values Category df)]> ∅).

(** A record as the last loop of [CybercrimeClassifier.prepare_data]
    leaves it: its normalized text is not empty and is the normalization
    of its raw text, and it has the two encoded columns, whose ids decode
    to its labels. *)
Definition well_prepared
    (word_tokenize : string → outcome (list string))
    (lemmatize : string → outcome string)
    (english_stopwords : list string)
    (self' : CybercrimeClassifier) (p : prepared_row) : Prop :=
  processed_text p ≠ "" ∧
  preprocess_text word_tokenize lemmatize english_stopwords
    (crimeaditionalinfo (raw p)) = Ret (processed_text p) ∧
  ∃ i j, encoded p = [(Category, i); (SubCategory, j)] ∧
    decode (label_encoders self' Category) i = Ret (category (raw p)) ∧
    decode (label_encoders self' SubCategory) j = Ret (sub_category (raw p)).

(** ** Error analysis *)

(** The list [errors] of [_perform_error_analysis]: the validation
    records whose true and predicted ids name different classes, each as
    (true name, predicted name, text). *)
Definition misclassified (X_val : list string) (y_true y_pred : list Z)
    (class_names : list string) : outcome (list (string * string * string)) :=
  y_true_names ← mapM (np_index class_names) y_true;
  y_pred_names ← mapM (np_index class_names) y_pred;
  Ret (filter (λ e, e.1.1 ≠ e.1.2) (zip (zip y_true_names y_pred_names) X_val)).

(** [_perform_error_analysis]; what it prints is left out. *)
Definition _perform_error_analysis (X_val : list string) (y_true y_pred : list Z)
    (class_names : list string) (c : column) : outcome unit :=
  errors ← misclassified X_val y_true y_pred class_names;
  Ret tt.

(** ** Words *)

(** A word: a string that is not empty and has no white space, as NLTK's
    tokens and WordNet's lemmas are. *)
Definition is_word_token (w : string) : Prop :=
  w ≠ "" ∧ string_forall (λ c, negb (isspace c)) w = true.

(** The text the first [preprocess_text] definition hands to the
    tokenizer. *)
Definition clean_1 (text : string) : string :=
  Regex.sub_non_letters_punct
    (Regex.collapse_spaces
       (Regex.strip_phones (Regex.strip_emails (Regex.strip_urls (lower text))))).


(** ** Text cleaner of [part_000] *)

(** [\w] on code points below 256: the ASCII letters, digits and the
    underscore, and the code points for which [str.isalnum] holds: the
    ordinal indicators, the micro sign, the superscript digits, the
    fractions and the accented letters (without the multiplication and
    division signs). *)
Definition isword (c : ascii) : bool :=
  is_letter c || isdigit c || (code c =? 95)%N ||
  (code c =? 170)%N || (code c =? 178)%N || (code c =? 179)%N ||
  (code c =? 181)%N || (code c =? 185)%N || (code c =? 186)%N ||
  in_range 188 190 c ||
  (in_range 192 255 c && negb (code c =? 215)%N && negb (code c =? 247)%N).

(** [re.sub(r'[^\w\s]', ' ', text)] *)
Definition sub_non_word_space (text : string) : string :=
  string_map (λ c, if isword c || isspace c then c else " "%char) text.

(** [re.sub(r'\d+', ' ', text)]: every maximal run of digits becomes one
    space. *)
Fixpoint sub_digit_runs_go (in_run : bool) (s : string) : string :=
  match s with
  | EmptyString => EmptyString
  | String c s' =>
      if isdigit c
      then (if in_run then sub_digit_runs_go true s'
            else String " " (sub_digit_runs_go true s'))
      else String c (sub_digit_runs_go false s')
  end.
Definition sub_digit_runs : string → string := sub_digit_runs_go false.

(** [str.lstrip()], [str.rstrip()], [str.strip()] *)
Fixpoint lstrip (s : string) : string :=
  match s with
  | EmptyString => EmptyString
  | String c s' => if isspace c then lstrip s' else s
  end.
Fixpoint rstrip (s : string) : string :=
  match s with
  | EmptyString => EmptyString
  | String c s' =>
      let r := rstrip s' in
      if isspace c && bool_decide (r = "") then "" else String c r
  end.
Definition strip (s : string) : string := rstrip (lstrip s).

(** A cell of a pandas column: a missing value ([None] or [NaN]), for
    which [pd.isna] holds, or a scalar that is not missing. *)
Inductive cell : Type :=
| NaN
| Value (o : pyobj).

Module TextCleaner.
(** [TextCleaner.clean_text] *)
Definition clean_text (text : cell) : outcome string :=
  match text with
  | NaN => Ret ""
  | Value o =>
      text ← to_str o;
      let text := lower text in
      let text := sub_non_word_space text in
      let text := sub_digit_runs text in
      let text := join " " (split text) in
      Ret (strip text)
  end.

(** [TextCleaner.transform]: [X.apply(self.clean_text)] *)
Definition transform (X : list cell) : outcome (list string) := mapM clean_text X.
End TextCleaner.

(** A character [clean_text] leaves inside a word: a word character that
    is no ASCII digit and that [str.lower] does not change. *)
Definition clean_char (c : ascii) : bool :=
  isword c && negb (isdigit c) && bool_decide (lower_char c = c).

(** A word of cleaned text. *)
Definition clean_word (w : string) : Prop :=
  w ≠ "" ∧ string_forall clean_char w = true.

(** ** Data cleaning *)

(** A record of a frame as [pd.read_csv] gives it when the three columns
    hold text: each cell is a [str] or is missing ([NaN]). *)
Record raw_row : Type := RawRow {
  raw_crimeaditionalinfo : option string;
  raw_category : option string;
  raw_sub_category : option string;
}.

#[global] Instance raw_row_eq_dec : EqDecision raw_row.
Proof. solve_decision. Defined.

(** [x.assign(crimeaditionalinfo=f(x['crimeaditionalinfo']))], for an
    [f] that works cell by cell. *)
Definition assign_text (f : option string → option string) (r : raw_row) : raw_row :=
  RawRow (f (raw_crimeaditionalinfo r)) (raw_category r) (raw_sub_category r).

(** The characters the pattern [[^\w\s.,!?@#$%&*()]] does not match. *)
Definition is_plain (c : ascii) : bool :=
  isword c || isspace c ||
  bool_decide (c ∈ ["."; ","; "!"; "?"; "@"; "#"; "$"; "%"; "&"; "*"; "("; ")"]%char).

(** The dtype of the text column of the frame [clean_dataframe] is given:
    [object] when the column holds strings, with or without missing
    cells; a numeric dtype when [pd.read_csv] found only numbers in it, or
    no value at all. The cells of a numeric column are not strings; they
    are never read, see [str_accessor]. *)
Inductive dtype : Type := object | numeric.

(** [x['crimeaditionalinfo'].str]: only a column of dtype [object] has
    the accessor. *)
Definition str_accessor (text_dtype : dtype) : outcome unit :=
  match text_dtype with
  | object => Ret tt
  | numeric => Raise (AttributeError "Can only use .str accessor with string values!")
  end.

(** [x[x['crimeaditionalinfo'].str.strip() != '']]: the stripped text of
    a missing cell is missing, and differs from ['']. *)
Definition remove_empty_texts (text_dtype : dtype) (x : list raw_row)
    : outcome (list raw_row) :=
  str_accessor text_dtype;;
  Ret (filter (λ r, strip <$> raw_crimeaditionalinfo r ≠ Some "") x).

(** [x.fillna({'category': 'Unknown', 'sub_category': 'Unknown',
    'crimeaditionalinfo': ''})] *)
Definition fillna (r : raw_row) : raw_row :=
  RawRow (Some (default "" (raw_crimeaditionalinfo r)))
         (Some (default "Unknown" (raw_category r)))
         (Some (default "Unknown" (raw_sub_category r))).

(** [.astype(str)] on a cell *)
Definition astype_str (t : option string) : option string :=
  Some (default "nan" t).

(** [.str.replace(r'[^\w\s.,!?@#$%&*()]', ' ', regex=True)] on a string *)
Definition replace_special (s : string) : string :=
  string_map (λ c, if is_plain c then c else " "%char) s.

(** [x.drop_duplicates(subset='crimeaditionalinfo')]: of the records
    with the same text the first one is kept. *)
Fixpoint drop_duplicates_go (seen : list (option string)) (x : list raw_row)
    : list raw_row :=
  match x with
  | [] => []
  | r :: x' =>
      if bool_decide (raw_crimeaditionalinfo r ∈ seen) then drop_duplicates_go seen x'
      else r :: drop_duplicates_go (raw_crimeaditionalinfo r :: seen) x'
  end.
Definition drop_duplicates : list raw_row → list raw_row := drop_duplicates_go [].

(** [x['crimeaditionalinfo'].str.len() >= 20]: the length of a missing
    cell is missing, and the comparison is then false. *)
Definition long_enough (r : raw_row) : Prop :=
  match raw_crimeaditionalinfo r with
  | Some s => (20 ≤ String.length s)%nat
  | None => False
  end.
#[global] Instance long_enough_dec r : Decision (long_enough r).
Proof. unfold long_enough. destruct (raw_crimeaditionalinfo r); apply _. Defined.

Record cleaning_step : Type := CleaningStep {
  step_name : string;
  step_func : list raw_row → outcome (list raw_row);
  step_desc : string;
}.

(** The list [cleaning_steps]. The second step is the only one that
    uses the [.str] accessor on the column as it was given; from the
    fourth step on the column has been converted by [astype(str)]. *)
Definition cleaning_steps (text_dtype : dtype) (is_training : bool) : list cleaning_step :=
  [CleaningStep "Initial shape" (λ x, Ret x) "Initial dataset loaded";
   CleaningStep "Remove empty texts" (remove_empty_texts text_dtype) "Removed empty texts";
   CleaningStep "Fill missing values" (λ x, Ret (fillna <$> x)) "Filled missing values";
   CleaningStep "Convert to string" (λ x, Ret (assign_text astype_str <$> x))
     "Converted text to string";
   CleaningStep "Clean special characters"
     (λ x, Ret (assign_text (fmap replace_special) <$> x)) "Cleaned special characters"]
  ++ (if is_training then
        [CleaningStep "Remove duplicates" (λ x, Ret (drop_duplicates x))
           "Removed duplicate texts";
         CleaningStep "Remove very short texts" (λ x, Ret (filter long_enough x))
           "Removed very short texts"]
      else []).

(** An entry of the cleaning report. *)
Record report_entry : Type := ReportEntry {
  step : string;
  description : string;
  rows_before : Z;
  rows_after : Z;
  rows_removed : Z;
}.

(** One pass of the loop of [clean_dataframe]. *)
Definition run_step (acc : list raw_row * list report_entry) (s : cleaning_step)
    : outcome (list raw_row * list report_entry) :=
  let '(df, cleaning_report) := acc in
  let initial_shape := Z.of_nat (length df) in
  df ← step_func s df;
  let final_shape := Z.of_nat (length df) in
  Ret (df, cleaning_report ++
             [ReportEntry (step_name s) (step_desc s) initial_shape final_shape
                (initial_shape - final_shape)]).

(** [clean_dataframe], for a frame given by the dtype of its text column
    and its records. *)
Definition clean_dataframe (text_dtype : dtype) (df : list raw_row) (is_training : bool)
    : outcome (list raw_row * list report_entry) :=
  foldlM run_step (df, []) (cleaning_steps text_dtype is_training).

(** The records the step 'Remove empty texts' keeps: those whose text is
    missing or has a character that is no white space. *)
Abbreviation keeps_text := (λ r : raw_row, strip <$> raw_crimeaditionalinfo r ≠ Some "").

(** The record [clean_dataframe] makes of a record it keeps. *)
Definition cleaned_row (r : raw_row) : raw_row :=
  assign_text (fmap replace_special) (assign_text astype_str (fillna r)).

(** The text column of a frame without missing texts. *)
Definition texts (df : list raw_row) : list string :=
  (λ r, default "" (raw_crimeaditionalinfo r)) <$> df.

(** [Series.duplicated()]: an entry is marked when an earlier entry is
    equal to it. *)
Fixpoint duplicated_go (seen l : list string) : list bool :=
  match l with
  | [] => []
  | s :: l' => bool_decide (s ∈ seen) :: duplicated_go (s :: seen) l'
  end.
Definition duplicated : list string → list bool := duplicated_go [].

(** [int(mask.sum())] *)
Definition count_true (mask : list bool) : Z := Z.of_nat (length (filter Is_true mask)).

(** [DatasetAnalyzer.detect_potential_issues], on the text column
    [df['crimeaditionalinfo']] of a frame without missing texts. *)
Definition detect_potential_issues (text_column : list string) : gmap string Z :=
  {[ "duplicate_texts" := count_true (duplicated text_column);
     "very_short_texts" :=
       count_true ((λ s, bool_decide (String.length s < 20)%nat) <$> text_column);
     "very_long_texts" :=
       count_true ((λ s, bool_decide (1000 < String.length s)%nat) <$> text_column);
     "potential_noise" :=
       count_true ((λ s, negb (string_forall is_plain s)) <$> text_column) ]}.

(** ** Model building *)

(** [np.unique] on an array of ids: the distinct ids, ascending. *)
Definition np_unique_ids (y : list Z) : list Z := merge_sort Z.le (remove_dups y).

(** [np.bincount(x)]: for each of 0..max(x), the number of its
    occurrences in [x]; a negative entry raises. *)
Definition bincount (x : list Z) : outcome (list Z) :=
  if bool_decide (Exists (λ i, (i < 0)%Z) x)
  then Raise (ValueError "'list' argument must have no negative elements")
  else Ret ((λ i, Z.of_nat (length (filter (λ j, j = i) x)))
              <$> seqZ 0 (foldr Z.max (-1)%Z x + 1)).

(** The binary64 value of an integer below 2^63, and NumPy's true
    division of two such integers: both operands are converted, a zero
    divisor gives an infinity or a NaN and raises nothing. *)
Definition float_of_int (z : Z) : float := PrimFloat.of_uint63 (Uint63.of_Z z).
Definition true_divide (a b : Z) : float := PrimFloat.div (float_of_int a) (float_of_int b).

(** [dict(pairs)]: a later pair replaces an earlier one with its key. *)
Definition dict {V} (pairs : list (Z * V)) : gmap Z V :=
  foldl (λ d kv, <[kv.1 := kv.2]> d) ∅ pairs.

(** The grid search [build_model] returns; of its parameters only the
    class weights of the random forest depend on the labels. *)
Record GridSearchCV : Type := { class_weight : option (gmap Z float) }.

(** [CybercrimeClassifier.build_model] *)
Definition build_model (class_labels : list Z) : outcome GridSearchCV :=
  let n_samples := Z.of_nat (length class_labels) in
  let n_classes := Z.of_nat (length (np_unique_ids class_labels)) in
  class_weights ←
    (if bool_decide (1 < n_classes)%Z then
       counts ← bincount class_labels;
       Ret (Some (dict (zip (np_unique_ids class_labels)
                            ((λ count, true_divide n_samples (n_classes * count))
                               <$> counts))))
     else Ret None);
  Ret {| class_weight := class_weights |}.

(** ** Training *)

(** [self.models[column] = model] *)
Definition set_model (c : column) (model : Model) (self : CybercrimeClassifier)
    : CybercrimeClassifier :=
  {| label_encoders := label_encoders self;
     models := <[c := Some model]> (models self);
     min_samples_per_class := min_samples_per_class self |}.

(** The grid search of [build_model] before [fit]: its methods raise. *)
Definition not_fitted : Model :=
  {| predict_proba := λ _, Raise (LibraryError "NotFittedError");
     model_predict := λ _, Raise (LibraryError "NotFittedError") |}.

(** [row[f'{column}_encoded']]: the value assigned last. *)
Definition encoded_value (c : column) (r : prepared_row) : outcome Z :=
  match list_find (λ e, e.1 = c) (reverse (encoded r)) with
  | Some (_, e) => Ret e.2
  | None => Raise (LibraryError "KeyError")
  end.

(** [df[f'{column}_encoded']] *)
Definition encoded_column (c : column) (df : list prepared_row) : outcome (list Z) :=
  mapM (encoded_value c) df.

(** The entries of [X_train], [X_val], [y_train_dict] and [y_val_dict]
    for one column. *)
Record data_split : Type := DataSplit {
  X_train : list string;
  X_val : list string;
  y_train : list Z;
  y_val : list Z;
}.

(** [d[column]] on the four dictionaries. *)
Definition getitem (splits : column → option data_split) (c : column) : outcome data_split :=
  match splits c with
  | Some s => Ret s
  | None => Raise (LibraryError "KeyError")
  end.

Section Training.
Variable word_tokenize : string → outcome (list string).
Variable lemmatize : string → outcome string.
Variable english_stopwords : list string.
(** scikit-learn: [train_test_split(X, y, test_size=0.2, random_state=42,
    stratify=y)]; [fit] on the grid search of [build_model], which gives
    the fitted model; [predict] of a fitted model on a column of texts;
    [classification_report], of which only the printing is left out. Each
    of them may raise. *)
Variable train_test_split : list string → list Z → outcome data_split.
Variable GridSearchCV_fit : GridSearchCV → list string → list Z → outcome Model.
Variable predict_all : Model → list string → outcome (list Z).
Variable classification_report : list Z → list Z → list string → outcome unit.

(** One pass of the last loop of [train]. *)
Definition train_column (splits : column → option data_split) (c : column)
    : py CybercrimeClassifier unit :=
  s ← py_lift (getitem splits c);
  model ← py_lift (build_model (y_train s));
  py_modify (set_model c not_fitted);;
  fitted ← py_lift (GridSearchCV_fit model (X_train s) (y_train s));
  py_modify (set_model c fitted);;
  y_pred ← py_lift (predict_all fitted (X_val s));
  self ← py_get;
  class_names ← py_lift (get_classes (label_encoders self c));
  py_lift (classification_report (y_val s) y_pred class_names);;
  py_lift (_perform_error_analysis (X_val s) (y_val s) y_pred class_names c).

(** The [try] block of [train]. *)
Definition train_body (train_df : list row) (test_df : option (list row))
    : py CybercrimeClassifier bool :=
  prepared_train_df ← prepare_data word_tokenize lemmatize english_stopwords train_df;
  self ← py_get;
  if bool_decide (Z.of_nat (length prepared_train_df) < min_samples_per_class self * 2)%Z
  then py_raise (ValueError ("Not enough samples for training. Need at least "
                             +:+ pretty.pretty (min_samples_per_class self * 2)%Z +:+ " samples."))
  else
    let X := processed_text <$> prepared_train_df in
    splits ←
      match test_df with
      | None =>
          py_lift (foldlM (λ splits c,
            y ← encoded_column c prepared_train_df;
            s ← train_test_split X y;
            Ret (<[c := Some s]> splits)) (λ _, None) label_columns)
      | Some test_df =>
          prepared_test_df ←
            prepare_data word_tokenize lemmatize english_stopwords test_df;
          let X_val := processed_text <$> prepared_test_df in
          py_lift (
            y_val_category ← encoded_column Category prepared_test_df;
            y_val_sub_category ← encoded_column SubCategory prepared_test_df;
            y_train_category ← encoded_column Category prepared_train_df;
            y_train_sub_category ← encoded_column SubCategory prepared_train_df;
            Ret (λ c, Some (match c with
                            | Category => DataSplit X X_val y_train_category y_val_category
                            | SubCategory =>
                                DataSplit X X_val y_train_sub_category y_val_sub_category
                            end)))
      end;
    py_for label_columns (train_column splits);;
    mret true.

(** [CybercrimeClassifier.train]: the handler logs the exception and
    raises it again. *)
Definition train (train_df : list row) (test_df : option (list row))
    : py CybercrimeClassifier bool :=
  py_try (train_body train_df test_df) (λ e, py_raise e).
End Training.

(** ** Sample training run

    Stand-ins for scikit-learn: the grid search memorizes its training
    data (the fitted model answers a training text with the id it had
    there and any other text with id 0, and is sure of its answer);
    [classification_report] raises, as the library does, when the number
    of distinct ids differs from the number of target names. *)
Module SampleTraining.
Definition lookup_text (X : list string) (y : list Z) (text : string) : Z :=
  match list_find (λ e, e.1 = text) (zip X y) with
  | Some (_, e) => e.2
  | None => 0%Z
  end.

Definition one_hot (n : nat) (id : Z) : list float :=
  (λ i, if bool_decide (Z.of_nat i = id) then 1%float else 0%float) <$> seq 0 n.

Definition GridSearchCV_fit (model : GridSearchCV) (X : list string) (y : list Z)
    : outcome Model :=
  Ret {| predict_proba := λ text,
           Ret (one_hot (length (np_unique_ids y)) (lookup_text X y text));
         model_predict := λ text, Ret (lookup_text X y text) |}.

Definition predict_all (model : Model) (X : list string) : outcome (list Z) :=
  mapM (model_predict model) X.

Definition train_test_split (X : list string) (y : list Z) : outcome data_split :=
  Ret (DataSplit X X y y).

Definition classification_report (y_true y_pred : list Z) (target_names : list string)
    : outcome unit :=
  if decide (length (np_unique_ids (y_true ++ y_pred)) = length target_names)
  then Ret tt
  else Raise (ValueError "Number of classes does not match size of target_names").

Definition train : list row → option (list row) → py CybercrimeClassifier bool :=
  train Sample.word_tokenize Sample.lemmatize Sample.english_stopwords
    train_test_split GridSearchCV_fit predict_all classification_report.

(** Six training reports of three categories, and four validation
    reports, with other texts, of two of them. *)
Definition train_df : list row :=
  [Row (PyStr "bank fraud money transfer") "Financial Fraud" "UPI Fraud";
   Row (PyStr "loan scam money taken") "Financial Fraud" "UPI Fraud";
   Row (PyStr "email account hacked yesterday") "Hacking" "UPI Fraud";
   Row (PyStr "server password stolen remotely") "Hacking" "UPI Fraud";
   Row (PyStr "fake profile money request") "Social Media Crime" "UPI Fraud";
   Row (PyStr "hacked account money request") "Social Media Crime" "UPI Fraud"].
Definition val_df : list row :=
  [Row (PyStr "laptop breached overnight") "Hacking" "UPI Fraud";
   Row (PyStr "website defaced badly") "Hacking" "UPI Fraud";
   Row (PyStr "fake profile created") "Social Media Crime" "UPI Fraud";
   Row (PyStr "abusive messages received") "Social Media Crime" "UPI Fraud"].
End SampleTraining.

(** ** Result entries *)

(** The Unknown result of one column in the dictionary [results]. *)
Definition unknown_entries (c : column) (results : gmap string pyval) : Prop :=
  results !! column_name c = Some (VStr "Unknown") ∧
  results !! confidence_key c = Some (VFloat 0).

(** * Verification *)

(** ** Text Normalizer *)

Lemma try_except_returns {A} (body : outcome A) (handler : exn → outcome A) :
  (∀ e, returns (handler e)) → returns (try_except body handler).
Proof. intros Hh. destruct body as [a|e]; simpl; [by exists a | apply Hh]. Qed.

Lemma lower_char_not_upper c : is_upper (lower_char c) = false.
Proof. by destruct c as [[] [] [] [] [] [] [] []]. Qed.

Lemma lower_clean c :
  is_letter (lower_char c) || isspace (lower_char c) =
  is_lower (lower_char c) || isspace (lower_char c).
Proof. unfold is_letter. by rewrite lower_char_not_upper, orb_false_r. Qed.

(** After lowercasing and [sub_non_letters] only the letters a-z and
    white space are left. *)
Lemma sub_non_letters_lower_chars s :
  string_forall (λ c, is_lower c || isspace c) (sub_non_letters (lower s)) = true.
Proof.
  unfold sub_non_letters, lower. induction s as [|c s IH]; simpl; [done|].
  destruct (is_letter (lower_char c) || isspace (lower_char c)) eqn:E; [|done].
  simpl. by rewrite <-lower_clean, E, IH.
Qed.

Lemma lower_char_fixed c : is_lower c || isspace c = true → lower_char c = c.
Proof. by destruct c as [[] [] [] [] [] [] [] []]. Qed.

(** Text made of the letters a-z and white space reaches the tokenizer of
    the second definition unchanged. *)
Lemma sub_non_letters_lower_fixed s :
  string_forall (λ c, is_lower c || isspace c) s = true →
  sub_non_letters (lower s) = s.
Proof.
  unfold sub_non_letters, lower. induction s as [|c s IH]; simpl; [done|].
  intros [Hc Hs]%andb_true_iff. rewrite (lower_char_fixed c Hc).
  assert (is_letter c || isspace c = true) as ->.
  { unfold is_letter. destruct (is_lower c); simpl in *; [done|].
    by rewrite Hc, orb_true_r. }
  by rewrite (IH Hs).
Qed.

Lemma namespace_preprocess_text : class_namespace !! "preprocess_text" = Some 199.
Proof. by vm_compute. Qed.

Lemma join_one_or_two_nonempty (toks : list string) :
  (∃ t, toks = [t] ∧ t ≠ "") ∨ (∃ t1 t2, toks = [t1; t2]) → join " " toks ≠ "".
Proof.
  intros [(t & -> & Ht)|(t1 & t2 & ->)]; unfold join; simpl; [done|].
  by destruct t1.
Qed.

Section NormalizerFacts.
Variable word_tokenize : string → outcome (list string).
Variable lemmatize : string → outcome string.
Variable english_stopwords : list string.

Abbreviation preprocess := (preprocess_text word_tokenize lemmatize english_stopwords).
Abbreviation body2 := (preprocess_text_2_body word_tokenize lemmatize english_stopwords).
Abbreviation surviving := (surviving_tokens word_tokenize lemmatize english_stopwords).

Lemma preprocess_text_is_second text :
  preprocess text = preprocess_text_2 word_tokenize lemmatize english_stopwords text.
Proof. unfold preprocess_text. by rewrite namespace_preprocess_text. Qed.

Lemma body2_surviving text : body2 text = (join " " <$> surviving text).
Proof.
  unfold preprocess_text_2_body, surviving_tokens.
  destruct (to_str text) as [s|e]; simpl; [|done].
  destruct (word_tokenize _) as [tokens|e]; simpl; [|done].
  by destruct (lemmatize_tokens _ _ _) as [toks|e].
Qed.

Lemma preprocess_text_returns text : returns (preprocess text).
Proof.
  rewrite preprocess_text_is_second. apply try_except_returns.
  intros _. by exists "".
Qed.

Lemma preprocess_text_surviving text toks :
  surviving text = Ret toks → preprocess text = Ret (join " " toks).
Proof.
  intros H. rewrite preprocess_text_is_second. unfold preprocess_text_2.
  by rewrite body2_surviving, H.
Qed.

Lemma preprocess_text_raise text e :
  body2 text = Raise e → preprocess text = Ret "".
Proof.
  intros H. rewrite preprocess_text_is_second. unfold preprocess_text_2.
  by rewrite H.
Qed.
End NormalizerFacts.

(** The two definitions differ on web addresses, mail addresses and phone
    numbers, and on n-grams: the first strips the former and adds the
    latter, the second, which is in effect, keeps their letters. *)
Example definitions_differ :
  let text := PyStr "visit wwwbankexample today or mail helpdesk@bank" in
  preprocess_text_1 Sample.word_tokenize Sample.lemmatize Sample.english_stopwords text
    = Ret "visit today mail visit_today today_mail visit_today_mail" ∧
  Sample.preprocess_text text = Ret "visit wwwbankexample today mail helpdeskbank".
Proof. by vm_compute. Qed.

(** Even the first definition returns a non-empty string when two tokens
    survive: their bigram is the third entry of the joined string. *)
Example first_definition_two_tokens :
  preprocess_text_1 Sample.word_tokenize Sample.lemmatize Sample.english_stopwords
    (PyStr "bank fraud") = Ret "bank fraud bank_fraud".
Proof. by vm_compute. Qed.

(** C2, as stated, fails: on the text "bank fraud" two tokens survive the
    cleaning steps, fewer than three, and [preprocess_text] returns the
    non-empty string "bank fraud". *)
Lemma preprocess_text_two_tokens_counterexample :
  let text := PyStr "bank fraud" in
  surviving_tokens Sample.word_tokenize Sample.lemmatize Sample.english_stopwords text
    = Ret ["bank"; "fraud"] ∧
  Sample.preprocess_text text = Ret "bank fraud" ∧
  Sample.preprocess_text text ≠ Ret "".
Proof. by vm_compute. Qed.

(** C2, amended: for every input [preprocess_text] returns, and never
    raises; what it returns is the surviving tokens joined by single
    spaces; it is the empty string whenever a step of the [try] block
    raises and whenever no token survives. *)
Theorem preprocess_text_never_raises
    (word_tokenize : string → outcome (list string))
    (lemmatize : string → outcome string)
    (english_stopwords : list string) (text : pyobj) :
  (∃ out, preprocess_text word_tokenize lemmatize english_stopwords text = Ret out) ∧
  (∀ toks, surviving_tokens word_tokenize lemmatize english_stopwords text = Ret toks →
     preprocess_text word_tokenize lemmatize english_stopwords text = Ret (join " " toks)) ∧
  (∀ e, preprocess_text_2_body word_tokenize lemmatize english_stopwords text = Raise e →
     preprocess_text word_tokenize lemmatize english_stopwords text = Ret "") ∧
  (surviving_tokens word_tokenize lemmatize english_stopwords text = Ret [] →
     preprocess_text word_tokenize lemmatize english_stopwords text = Ret "").
Proof.
  split; [apply preprocess_text_returns|].
  split; [apply preprocess_text_surviving|].
  split; [apply preprocess_text_raise|].
  intros H. by rewrite (preprocess_text_surviving _ _ _ _ _ H).
Qed.

Lemma mapM_outcome_Forall2_2 {A B} (f : A → outcome B) (l : list A) (k : list B) :
  Forall2 (λ x y, f x = Ret y) l k → mapM f l = Ret k.
Proof.
  induction 1 as [|x y l k Hx _ IH]; [done|].
  simpl. rewrite Hx. simpl. by rewrite IH.
Qed.
Lemma mapM_outcome_Raise {A B} (f : A → outcome B) (l : list A) (x : A) (e : exn) :
  x ∈ l → f x = Raise e → ∃ e', mapM f l = Raise e'.
Proof.
  intros Hin Hx. induction l as [|a l IH]; [by apply elem_of_nil in Hin|].
  simpl. destruct (f a) as [b|e'] eqn:Ha; [|by exists e'].
  apply elem_of_cons in Hin as [->|Hin]; [congruence|].
  destruct (IH Hin) as [e' He']. simpl. rewrite He'. by exists e'.
Qed.

(** C8: the class body binds [preprocess_text] twice and the second
    definition (line 199) is the one in effect. It hands to the tokenizer
    the lowercased text without its characters that are neither letters
    nor white space, so only a-z and white space, and nothing else is
    stripped: text of letters a-z and white space arrives as it is. Of the
    tokens it keeps those that are no stop word and have more than two
    characters, lemmatizes each, and returns the lemmas joined by spaces,
    however few they are: no n-gram is added and no minimum count applies,
    so one non-empty lemma, or two lemmas, give a non-empty result. When
    the tokenizer raises, or the lemmatizer does on a token that is kept,
    the result is the empty string. *)
Theorem preprocess_text_second_definition_in_effect
    (word_tokenize : string → outcome (list string))
    (lemmatize : string → outcome string)
    (english_stopwords : list string) (text : pyobj) :
  class_namespace !! "preprocess_text" = Some 199 ∧
  preprocess_text word_tokenize lemmatize english_stopwords text
    = preprocess_text_2 word_tokenize lemmatize english_stopwords text ∧
  (∀ s, to_str text = Ret s →
     let cleaned := string_filter (λ c, is_letter c || isspace c) (lower s) in
     let kept tokens :=
       filter (λ token,
                 (token ∉ english_stopwords ++
                          ["please"; "help"; "thank"; "thanks"; "sir"; "madam"; "kindly"]) ∧
                 (2 < String.length token)%nat) tokens in
     string_forall (λ c, is_lower c || isspace c) cleaned = true ∧
     (string_forall (λ c, is_lower c || isspace c) s = true → cleaned = s) ∧
     (∀ e, word_tokenize cleaned = Raise e →
        preprocess_text word_tokenize lemmatize english_stopwords text = Ret "") ∧
     (∀ tokens lemmas,
        word_tokenize cleaned = Ret tokens →
        Forall2 (λ token lemma, lemmatize token = Ret lemma) (kept tokens) lemmas →
        preprocess_text word_tokenize lemmatize english_stopwords text
          = Ret (join " " lemmas) ∧
        ((∃ t, lemmas = [t] ∧ t ≠ "") ∨ (∃ t1 t2, lemmas = [t1; t2]) →
         join " " lemmas ≠ "")) ∧
     (∀ tokens token e,
        word_tokenize cleaned = Ret tokens →
        token ∈ kept tokens → lemmatize token = Raise e →
        preprocess_text word_tokenize lemmatize english_stopwords text = Ret "")).
Proof.
  split; [apply namespace_preprocess_text|].
  split; [apply preprocess_text_is_second|].
  intros s Hs cleaned kept.
  assert (∀ tokens, filter (keep_token english_stopwords) tokens = kept tokens) as Hkept.
  { intros tokens. apply list_filter_iff. intros token.
    unfold keep_token, stop_words.
    rewrite not_elem_of_union, !elem_of_list_to_set, not_elem_of_app. tauto. }
  assert (∀ out,
    preprocess_text_2_body word_tokenize lemmatize english_stopwords text = out →
    preprocess_text word_tokenize lemmatize english_stopwords text
      = try_except out (λ _, Ret "")) as Hbody.
  { intros out <-. by rewrite preprocess_text_is_second. }
  assert (preprocess_text_2_body word_tokenize lemmatize english_stopwords text =
          (tokens ← word_tokenize cleaned;
           lemmas ← mapM lemmatize (kept tokens);
           Ret (join " " lemmas))) as Hrun.
  { unfold preprocess_text_2_body. rewrite Hs. cbn [mbind outcome_bind]. cbv zeta.
    fold cleaned. unfold sub_non_letters. fold cleaned.
    destruct (word_tokenize cleaned) as [tokens|e]; [|done].
    cbn [mbind outcome_bind]. unfold lemmatize_tokens. by rewrite Hkept. }
  split; [apply sub_non_letters_lower_chars|].
  split; [apply sub_non_letters_lower_fixed|].
  split; [|split].
  - intros e He. rewrite (Hbody _ Hrun), He. done.
  - intros tokens lemmas Htok Hlem. split; [|apply join_one_or_two_nonempty].
    rewrite (Hbody _ Hrun), Htok. cbn [mbind outcome_bind].
    by rewrite (mapM_outcome_Forall2_2 _ _ _ Hlem).
  - intros tokens token e Htok Hin He.
    rewrite (Hbody _ Hrun), Htok. cbn [mbind outcome_bind].
    destruct (mapM_outcome_Raise _ _ _ _ Hin He) as [e' ->]. done.
Qed.

(** The normalization in effect on a sample text: capitals are lowered,
    digits and punctuation dropped, the stop word and the short token
    removed; the web address keeps its letters. *)
Example preprocess_text_sample :
  Sample.preprocess_text (PyStr "The BANK fraud, at www.pay.example: Rs 5000 lost!!")
    = Ret "bank fraud wwwpayexample lost".
Proof. by vm_compute. Qed.

(** ** Class Filter *)

Lemma filter_eq_absent (l : string) (col : list string) :
  l ∉ col → filter (λ x, x = l) col = [].
Proof.
  induction col as [|x col IH]; intros Hl; [done|].
  rewrite filter_cons_False by set_solver. apply IH. set_solver.
Qed.

Lemma value_counts_lookup (col : list string) (l : string) :
  value_counts col !! l =
    if decide (l ∈ col) then Some (length (filter (λ x, x = l) col)) else None.
Proof.
  induction col as [|x col IH].
  - change (value_counts []) with (∅ : gmap string nat). rewrite lookup_empty.
    by rewrite decide_False by apply not_elem_of_nil.
  - change (value_counts (x :: col))
      with (<[x := S (default 0 (value_counts col !! x))]> (value_counts col)).
    destruct (decide (x = l)) as [->|Hne].
    + rewrite lookup_insert_eq, IH, filter_cons_True by done.
      rewrite (decide_True (P := l ∈ l :: col)) by set_solver.
      simpl. case_decide as Hl; simpl; [done|]. by rewrite filter_eq_absent.
    + rewrite lookup_insert_ne, IH, filter_cons_False by done.
      apply decide_ext. rewrite elem_of_cons.
      split; [by right | by intros [?|?]; [congruence|]].
Qed.

Lemma support_column_values c l df :
  support c l df = length (filter (λ x, x = l) (column_values c df)).
Proof.
  unfold support, column_values. induction df as [|r df IH]; simpl; [done|].
  rewrite !filter_cons. destruct (decide (label c r = l)); simpl; by rewrite IH.
Qed.

Lemma support_pos c (r : row) df : r ∈ df → (0 < support c (label c r) df)%nat.
Proof.
  intros Hr. unfold support.
  assert (r ∈ filter (λ r', label c r' = label c r) df) as H
    by by apply list_elem_of_filter.
  destruct (filter _ df); [by apply elem_of_nil in H | simpl; lia].
Qed.

Lemma elem_of_valid_classes threshold c df l :
  l ∈ valid_classes threshold (value_counts (column_values c df)) ↔
  l ∈ column_values c df ∧ (threshold ≤ Z.of_nat (support c l df))%Z.
Proof.
  unfold valid_classes. rewrite elem_of_dom. unfold is_Some.
  setoid_rewrite map_lookup_filter_Some. setoid_rewrite value_counts_lookup.
  rewrite support_column_values. split.
  - intros (n & Hn & Hle). case_decide; [|done]. by simplify_eq/=.
  - intros [Hl Hle]. eexists. rewrite decide_True by done. done.
Qed.

(** A record passes one pass of the filter exactly when its label has
    enough support in the dataset the pass starts from. *)
Lemma elem_of_filter_column threshold df c r :
  r ∈ filter_column threshold df c ↔
  r ∈ df ∧ (threshold ≤ Z.of_nat (support c (label c r) df))%Z.
Proof.
  unfold filter_column, keep_valid.
  rewrite list_elem_of_filter, elem_of_valid_classes. split.
  - by intros [[_ ?] ?].
  - intros [Hr Hle]. repeat split; [|done..]. unfold column_values.
    by apply list_elem_of_fmap_2.
Qed.

(** Filtering on the label of column [c] keeps all records of a kept
    label, and none of a dropped one. *)
Lemma support_keep_valid c l (valid : gset string) df :
  support c l (keep_valid c valid df) =
    if decide (l ∈ valid) then support c l df else 0%nat.
Proof.
  unfold support, keep_valid. induction df as [|r df IH]; simpl; [by case_decide|].
  rewrite !filter_cons. destruct (decide (label c r ∈ valid)) as [HP|HP].
  - rewrite filter_cons. destruct (decide (label c r = l)) as [<-|]; simpl.
    + rewrite IH. by destruct (decide (label c r ∈ valid)).
    + done.
  - rewrite IH. destruct (decide (label c r = l)) as [<-|]; [|done].
    by destruct (decide (label c r ∈ valid)).
Qed.

Lemma support_filter_le c l (P : row → Prop) `{!∀ r, Decision (P r)} df :
  (support c l (filter P df) ≤ support c l df)%nat.
Proof.
  unfold support. induction df as [|r df IH]; simpl; [done|].
  rewrite !filter_cons.
  destruct (decide (P r)), (decide (label c r = l)); simpl;
    rewrite ?filter_cons; repeat case_decide; simpl; try done; lia.
Qed.

Lemma support_filter_column_same threshold df c l :
  support c l (filter_column threshold df c) =
    if decide ((threshold ≤ Z.of_nat (support c l df))%Z ∧ l ∈ column_values c df)
    then support c l df else 0%nat.
Proof.
  unfold filter_column. cbv zeta. rewrite support_keep_valid.
  apply decide_ext. rewrite elem_of_valid_classes. split; by intros [? ?].
Qed.

Lemma support_filter_column_le threshold df c c' l :
  (support c' l (filter_column threshold df c) ≤ support c' l df)%nat.
Proof. unfold filter_column, keep_valid. apply support_filter_le. Qed.

Lemma filter_column_subseteq threshold df c : filter_column threshold df c ⊆ df.
Proof. by intros r [? _]%elem_of_filter_column. Qed.

Lemma keep_valid_all c (valid : gset string) df :
  (∀ r, r ∈ df → label c r ∈ valid) → keep_valid c valid df = df.
Proof.
  unfold keep_valid. induction df as [|r df IH]; intros Hall; [done|].
  rewrite filter_cons_True by (apply Hall; left).
  f_equal. apply IH. intros r' Hr'. apply Hall. by right.
Qed.

(** A pass changes nothing when every label of its column has enough
    support. *)
Lemma filter_column_id threshold df c :
  (∀ r, r ∈ df → (threshold ≤ Z.of_nat (support c (label c r) df))%Z) →
  filter_column threshold df c = df.
Proof.
  intros Hsupp. unfold filter_column. cbv zeta. apply keep_valid_all.
  intros r Hr. apply elem_of_valid_classes. split; [|by apply Hsupp].
  unfold column_values. by apply list_elem_of_fmap_2.
Qed.

Lemma filter_rare_classes_Ret threshold df df' :
  filter_rare_classes threshold df = Ret df' →
  df' = filter_column threshold (filter_column threshold df Category) SubCategory ∧
  df' ≠ [].
Proof.
  unfold filter_rare_classes. simpl. case_decide as Hlen; [done|].
  intros [= <-]. split; [done|]. intros Hnil. by rewrite Hnil in Hlen.
Qed.

(** C3, as stated, fails. With threshold 2 on the four sample reports the
    filter drops the one "Card Fraud" record; its category "Financial
    Fraud" is left with one record in the output, fewer than 2, and a
    second application of the filter drops that record too. The cell of
    [part_000] gives the same output. *)
Lemma filter_rare_classes_counterexample :
  filter_rare_classes 2 Sample.reports = Ret [Sample.upi1; Sample.upi2; Sample.upi3] ∧
  filtered_df 2 Sample.reports = [Sample.upi1; Sample.upi2; Sample.upi3] ∧
  "Financial Fraud" ∈ column_values Category [Sample.upi1; Sample.upi2; Sample.upi3] ∧
  support Category "Financial Fraud" [Sample.upi1; Sample.upi2; Sample.upi3] = 1%nat ∧
  filter_rare_classes 2 [Sample.upi1; Sample.upi2; Sample.upi3]
    = Ret [Sample.upi2; Sample.upi3].
Proof.
  split; [by vm_compute|]. split; [by vm_compute|].
  split; [by left|]. split; by vm_compute.
Qed.

(** C3, amended: when [filter_rare_classes] returns, its output is a
    non-empty part of the input in which every sub_category value has
    support at least the threshold within the output, and every category
    value has support at least the threshold within the input; a second
    application with the same threshold returns the output unchanged
    provided every category value also has that support within the
    output. The cell of [part_000] keeps exactly the records whose two
    labels have support at least the threshold within the input. *)
Theorem filter_rare_classes_support (threshold : Z) (df : list row) :
  (∀ df', filter_rare_classes threshold df = Ret df' →
     df' ≠ [] ∧ df' ⊆ df ∧
     (∀ r, r ∈ df' →
        (threshold ≤ Z.of_nat (support SubCategory (sub_category r) df'))%Z) ∧
     (∀ r, r ∈ df' →
        (threshold ≤ Z.of_nat (support Category (category r) df))%Z) ∧
     ((∀ r, r ∈ df' →
         (threshold ≤ Z.of_nat (support Category (category r) df'))%Z) →
      filter_rare_classes threshold df' = Ret df')) ∧
  (∀ r, r ∈ filtered_df threshold df ↔
     r ∈ df ∧
     (threshold ≤ Z.of_nat (support Category (category r) df))%Z ∧
     (threshold ≤ Z.of_nat (support SubCategory (sub_category r) df))%Z).
Proof.
  split.
  - intros df' [-> Hne]%filter_rare_classes_Ret.
    set (d1 := filter_column threshold df Category) in *.
    assert (∀ r, r ∈ filter_column threshold d1 SubCategory →
      (threshold ≤ Z.of_nat (support SubCategory (sub_category r)
         (filter_column threshold d1 SubCategory)))%Z) as Hsub.
    { intros r Hr. pose proof Hr as [Hr1 Hle]%elem_of_filter_column.
      rewrite support_filter_column_same, decide_True; [done|].
      split; [done|]. unfold column_values.
      by apply (list_elem_of_fmap_2 (label SubCategory)). }
    split; [done|]. split; [|split; [done|split]].
    + etrans; apply filter_column_subseteq.
    + intros r [Hr1 _]%elem_of_filter_column.
      by apply elem_of_filter_column in Hr1 as [_ Hle].
    + intros Hcat. unfold filter_rare_classes. simpl.
      rewrite (filter_column_id _ _ Category) by exact Hcat.
      rewrite (filter_column_id _ _ SubCategory) by exact Hsub.
      case_decide as Hlen; [|done]. by destruct (filter_column threshold d1 SubCategory).
  - intros r. unfold filtered_df. cbv zeta.
    rewrite list_elem_of_filter.
    rewrite (elem_of_valid_classes threshold Category),
      (elem_of_valid_classes threshold SubCategory).
    split; [by intros [[[_ ?] [_ ?]] ?]|].
    intros (Hr & Hcat & Hsub). unfold column_values.
    repeat split; try done.
    + by apply (list_elem_of_fmap_2 (label Category)).
    + by apply (list_elem_of_fmap_2 (label SubCategory)).
Qed.

Lemma filter_rare_classes_support_witness :
  filter_rare_classes 2 Sample.reports = Ret [Sample.upi1; Sample.upi2; Sample.upi3] ∧
  (∀ r, r ∈ [Sample.upi1; Sample.upi2; Sample.upi3] →
     (2 ≤ Z.of_nat (support SubCategory (sub_category r)
        [Sample.upi1; Sample.upi2; Sample.upi3]))%Z).
Proof.
  assert (filter_rare_classes 2 Sample.reports
    = Ret [Sample.upi1; Sample.upi2; Sample.upi3]) as H by by vm_compute.
  split; [exact H|].
  exact (proj1 (proj2 (proj2
    (proj1 (filter_rare_classes_support 2 Sample.reports) _ H)))).
Defined.

(** ** Label Encoder *)

Lemma np_unique_perm y : np_unique y ≡ₚ remove_dups y.
Proof. apply merge_sort_Permutation. Qed.

Lemma elem_of_np_unique x y : x ∈ np_unique y ↔ x ∈ y.
Proof. by rewrite np_unique_perm, elem_of_remove_dups. Qed.

Lemma NoDup_np_unique y : NoDup (np_unique y).
Proof. rewrite np_unique_perm. apply NoDup_remove_dups. Qed.

(** The classes are in ascending order of their code points. *)
Lemma np_unique_sorted y : StronglySorted String.le (np_unique y).
Proof. apply (StronglySorted_merge_sort _). Qed.

Lemma encode_lookup classes (i : nat) name :
  NoDup classes → classes !! i = Some name → encode classes name = Ret (Z.of_nat i).
Proof.
  intros Hnd Hi. unfold encode.
  destruct (list_find _ classes) as [[j x]|] eqn:Hfind.
  - apply list_find_Some in Hfind as (Hj & -> & _).
    by rewrite (NoDup_lookup _ _ _ _ Hnd Hj Hi).
  - rewrite list_find_None, Forall_lookup in Hfind. by destruct (Hfind i name Hi).
Qed.

Lemma encode_elem_of classes name :
  name ∈ classes →
  ∃ i : nat, encode classes name = Ret (Z.of_nat i) ∧ classes !! i = Some name.
Proof.
  intros Hin. unfold encode.
  destruct (list_find _ classes) as [[j x]|] eqn:Hfind.
  - apply list_find_Some in Hfind as (Hj & -> & _). by exists j.
  - rewrite list_find_None, Forall_forall in Hfind.
    apply list_elem_of_In in Hin. by destruct (Hfind name Hin).
Qed.

Lemma encode_unseen classes name :
  name ∉ classes → ∃ e, encode classes name = Raise e.
Proof.
  intros Hnotin. unfold encode.
  destruct (list_find _ classes) as [[j x]|] eqn:Hfind; [|by eexists].
  apply list_find_Some in Hfind as (Hj & -> & _).
  destruct Hnotin. by eapply list_elem_of_lookup_2.
Qed.

Lemma np_index_nonneg {A} (a : list A) (i : Z) :
  (0 ≤ i)%Z →
  np_index a i = match a !! Z.to_nat i with
                 | Some x => Ret x
                 | None => Raise (IndexError "index is out of bounds")
                 end.
Proof.
  intros Hi. unfold np_index.
  destruct (i <? 0)%Z eqn:E1; [lia|]. by destruct (0 <=? i)%Z eqn:E2; [|lia].
Qed.

Lemma np_index_wrap {A} (a : list A) (i : Z) :
  (- Z.of_nat (length a) ≤ i < 0)%Z → np_index a i = np_index a (i + Z.of_nat (length a)).
Proof.
  intros Hi. rewrite (np_index_nonneg a (i + _)) by lia. unfold np_index.
  destruct (i <? 0)%Z eqn:E1; [|lia]. by destruct (0 <=? i + _)%Z eqn:E2; [|lia].
Qed.

Lemma np_index_out_of_range {A} (a : list A) (i : Z) :
  (i < - Z.of_nat (length a) ∨ Z.of_nat (length a) ≤ i)%Z →
  np_index a i = Raise (IndexError "index is out of bounds").
Proof.
  intros Hi. unfold np_index. destruct (i <? 0)%Z eqn:E1.
  - destruct (0 <=? i + _)%Z eqn:E2; [|done].
    rewrite lookup_ge_None_2; [done|lia].
  - destruct (0 <=? i)%Z eqn:E2; [|done].
    rewrite lookup_ge_None_2; [done|lia].
Qed.

Lemma transform_one enc classes name :
  classes_ enc = Some classes →
  transform enc [name] = ((λ id, [id]) <$> encode classes name).
Proof.
  intros Hc. unfold transform, get_classes. rewrite Hc. simpl.
  by destruct (encode classes name).
Qed.

Lemma encode_Ret_lookup (classes : list string) (name : string) (id : Z) :
  encode classes name = Ret id → ∃ i : nat, id = Z.of_nat i ∧ classes !! i = Some name.
Proof.
  unfold encode. destruct (list_find _ classes) as [[i x]|] eqn:Hfind; [|done].
  intros [= <-]. apply list_find_Some in Hfind as (Hi & -> & _). by exists i.
Qed.

Lemma encode_range classes name id :
  encode classes name = Ret id → (0 ≤ id < Z.of_nat (length classes))%Z.
Proof.
  unfold encode. destruct (list_find _ classes) as [[i x]|] eqn:Hfind; [|done].
  intros [= <-]. apply list_find_Some in Hfind as (Hi%lookup_lt_Some & _). lia.
Qed.

(** On ids that are in range [inverse_transform] reads [classes_] at
    each of them. *)
Lemma inverse_transform_in_range (classes : list string) (ids : list Z) (names : list string) :
  Forall2 (λ id name, (0 ≤ id)%Z ∧ classes !! Z.to_nat id = Some name) ids names →
  inverse_transform {| classes_ := Some classes |} ids = Ret names.
Proof.
  intros HF. unfold inverse_transform, get_classes. simpl.
  destruct (decide (ids = [])) as [->|Hne]; [by apply Forall2_nil_inv_l in HF as ->|].
  rewrite decide_True.
  - apply mapM_outcome_Forall2_2.
    eapply Forall2_impl; [|exact HF]. intros id name [Hid Hname]. simpl in *.
    by rewrite np_index_nonneg, Hname by lia.
  - apply Forall_forall. intros id Hin%list_elem_of_In.
    apply list_elem_of_lookup in Hin as [k Hk].
    destruct (Forall2_lookup_l _ _ _ _ _ HF Hk) as (name & _ & Hid & Hname).
    apply lookup_lt_Some in Hname. lia.
Qed.

(** C6: for an encoder fitted on the labels [y], with n classes, and the
    inverse [LabelEncoder.inverse_transform] of scikit-learn: decoding
    then encoding ids in 0..n-1 returns these ids; encoding then decoding
    names of [y] returns these names; encoding a name that is not in [y]
    fails; decoding an id outside 0..n-1 fails. *)
Theorem label_encoder_round_trip (y : list string) :
  ∃ classes, classes_ (fit y) = Some classes ∧
    (∀ ids, Forall (λ id, (0 ≤ id < Z.of_nat (length classes))%Z) ids →
       ∃ names, inverse_transform (fit y) ids = Ret names ∧
                transform (fit y) names = Ret ids) ∧
    (∀ names, Forall (λ name, name ∈ y) names →
       ∃ ids, transform (fit y) names = Ret ids ∧
              Forall (λ id, (0 ≤ id < Z.of_nat (length classes))%Z) ids ∧
              inverse_transform (fit y) ids = Ret names) ∧
    (∀ names name, name ∈ names → name ∉ y →
       ∃ msg, transform (fit y) names = Raise (ValueError msg)) ∧
    (∀ ids id, id ∈ ids → (id < 0 ∨ Z.of_nat (length classes) ≤ id)%Z →
       ∃ msg, inverse_transform (fit y) ids = Raise (ValueError msg)).
Proof.
  exists (np_unique y). split; [done|].
  pose proof (NoDup_np_unique y) as Hnd.
  change (fit y) with {| classes_ := Some (np_unique y) |}.
  assert (∀ names, transform {| classes_ := Some (np_unique y) |} names
                   = mapM (encode (np_unique y)) names) as Htransform by done.
  repeat split.
  - intros ids Hids.
    assert (∃ names, Forall2 (λ id name, (0 ≤ id)%Z ∧
              np_unique y !! Z.to_nat id = Some name) ids names) as [names HF].
    { induction Hids as [|id ids Hid _ [names IH]]; [by exists []|].
      destruct (lookup_lt_is_Some_2 (np_unique y) (Z.to_nat id)) as [name Hname]; [lia|].
      exists (name :: names). constructor; [|done]. split; [lia|done]. }
    exists names. split; [by apply inverse_transform_in_range|].
    rewrite Htransform. apply mapM_outcome_Forall2_2.
    apply Forall2_flip. eapply Forall2_impl; [|exact HF].
    intros id name [Hid Hname]. simpl.
    rewrite (encode_lookup _ _ _ Hnd Hname). f_equal. lia.
  - intros names Hnames.
    assert (∃ ids, Forall2 (λ name id, encode (np_unique y) name = Ret id) names ids)
      as [ids HF].
    { induction Hnames as [|name names Hname%elem_of_np_unique _ [ids IH]]; [by exists []|].
      destruct (encode_elem_of _ _ Hname) as (i & Henc & _).
      exists (Z.of_nat i :: ids). by constructor. }
    exists ids. split; [rewrite Htransform; by apply mapM_outcome_Forall2_2|]. split.
    + apply Forall_forall. intros id Hin%list_elem_of_In.
      apply list_elem_of_lookup in Hin as [k Hk].
      destruct (Forall2_lookup_r _ _ _ _ _ HF Hk) as (name & _ & Henc).
      by apply encode_range in Henc.
    + apply inverse_transform_in_range, Forall2_flip.
      eapply Forall2_impl; [|exact HF]. intros name id Henc. simpl.
      apply encode_Ret_lookup in Henc as (i & -> & Hi). split; [lia|].
      by rewrite Nat2Z.id.
  - intros names name Hin Hnotin. rewrite Htransform.
    assert (name ∉ np_unique y) as Hno by by rewrite elem_of_np_unique.
    clear Hnotin. induction names as [|x names IH]; [by apply elem_of_nil in Hin|].
    simpl. destruct (encode (np_unique y) x) as [id|e] eqn:Hx.
    + apply elem_of_cons in Hin as [->|Hin].
      { destruct (encode_unseen _ _ Hno) as [e He]. congruence. }
      destruct (IH Hin) as [msg Hmsg]. simpl. rewrite Hmsg. by exists msg.
    + unfold encode in Hx. destruct (list_find _ _) as [[]|]; [done|].
      injection Hx as <-. by eexists.
  - intros ids id Hin Hid. unfold inverse_transform, get_classes. simpl.
    rewrite decide_False by (by intros ->; apply elem_of_nil in Hin).
    rewrite decide_False; [by eexists|].
    intros HF. apply (proj1 (Forall_forall _ _)) with (x := id) in HF; [lia|].
    by apply list_elem_of_In.
Qed.

(** ** Data preparation *)

Lemma mapM_outcome_Ret {A B} (f : A → outcome B) (l : list A) :
  (∀ x, x ∈ l → returns (f x)) →
  ∃ k, mapM f l = Ret k ∧ Forall2 (λ x y, f x = Ret y) l k.
Proof.
  induction l as [|x l IH]; intros Hret.
  - exists []. by split; [|constructor].
  - destruct (Hret x) as [y Hy]; [by left|].
    destruct IH as (k & Hk & HF); [intros x' Hx'; apply Hret; by right|].
    exists (y :: k). split; [|by constructor].
    simpl. rewrite Hy. simpl. by rewrite Hk.
Qed.

Lemma transform_fit_members classes (l : list string) :
  (∀ x, x ∈ l → x ∈ classes) →
  ∃ ids, mapM (encode classes) l = Ret ids ∧ length ids = length l.
Proof.
  intros Hin.
  destruct (mapM_outcome_Ret (encode classes) l) as (ids & Hids & HF).
  { intros x Hx. destruct (encode_elem_of classes x (Hin x Hx)) as (i & Hi & _).
    by eexists. }
  exists ids. split; [done|]. symmetry. by eapply Forall2_length.
Qed.

(** Transforming the labels an encoder was fitted on succeeds. *)
Lemma transform_fit y :
  ∃ ids, transform (fit y) y = Ret ids ∧ length ids = length y.
Proof.
  unfold transform. simpl. apply transform_fit_members.
  intros x Hx. by apply elem_of_np_unique.
Qed.

Lemma raw_rows_assign_encoded c ids df :
  length ids = length df → raw_rows (assign_encoded c ids df) = raw_rows df.
Proof.
  unfold raw_rows, assign_encoded. revert ids.
  induction df as [|r df IH]; intros [|id ids] Hlen; simplify_eq/=; [done|].
  f_equal. by apply IH.
Qed.

Lemma set_encoder_lookup c c' enc self :
  label_encoders (set_encoder c enc self) c' =
    if decide (c = c') then enc else label_encoders self c'.
Proof.
  unfold set_encoder. simpl. case_decide as Hc.
  - subst. apply fn_lookup_insert.
  - by apply fn_lookup_insert_ne.
Qed.

Lemma py_bind_Ret {S A B} (m : py S A) (k : A → py S B) s a s' :
  m s = (Ret a, s') → py_bind m k s = k a s'.
Proof. intros H. unfold py_bind. by rewrite H. Qed.

Lemma py_bind_Raise {S A B} (m : py S A) (k : A → py S B) s e s' :
  m s = (Raise e, s') → py_bind m k s = (Raise e, s').
Proof. intros H. unfold py_bind. by rewrite H. Qed.

Section PipelineFacts.
Variable word_tokenize : string → outcome (list string).
Variable lemmatize : string → outcome string.
Variable english_stopwords : list string.

Abbreviation prepare := (prepare_data word_tokenize lemmatize english_stopwords).
Abbreviation add_text := (add_processed_text word_tokenize lemmatize english_stopwords).

Lemma add_processed_text_Ret df :
  ∃ pdf, add_text df = Ret pdf ∧ raw_rows pdf = df.
Proof.
  unfold add_processed_text.
  destruct (mapM_outcome_Ret
    (λ r, text ← preprocess_text word_tokenize lemmatize english_stopwords
                   (crimeaditionalinfo r);
          mret (Prepared r text [])) df) as (pdf & Hpdf & HF).
  - intros r _.
    destruct (preprocess_text_returns word_tokenize lemmatize english_stopwords
                (crimeaditionalinfo r)) as [text Ht].
    rewrite Ht. by eexists.
  - exists pdf. split; [exact Hpdf|].
    unfold raw_rows. clear Hpdf. induction HF as [|r p df pdf Hp _ IH]; [done|].
    rewrite fmap_cons, IH. f_equal.
    unfold mbind, outcome_bind, mret, outcome_ret in Hp.
    destruct (preprocess_text _ _ _ _); by simplify_eq.
Qed.

Lemma fit_transform_run c y self :
  ∃ ids, fit_transform c y self = (Ret ids, set_encoder c (fit y) self) ∧
         length ids = length y.
Proof.
  destruct (transform_fit y) as (ids & Hids & Hlen). exists ids. split; [|done].
  unfold fit_transform, mbind, py_mbind, py_bind, py_modify, py_get, py_lift.
  cbv beta iota. rewrite set_encoder_lookup, decide_True by done.
  by rewrite Hids.
Qed.

(** The last loop of [prepare_data] fits each encoder on its column of
    the dataset it is given, and keeps the records. *)
Lemma encode_labels_run df self :
  ∃ df', encode_labels df self =
           (Ret df',
            set_encoder SubCategory (fit (column_values SubCategory (raw_rows df)))
              (set_encoder Category (fit (column_values Category (raw_rows df))) self)) ∧
         raw_rows df' = raw_rows df.
Proof.
  unfold encode_labels, label_columns. cbn [py_fold].
  unfold mbind, py_mbind, mret, py_mret.
  destruct (fit_transform_run Category (column_values Category (raw_rows df)) self)
    as (ids1 & Hrun1 & Hlen1).
  set (df1 := assign_encoded Category ids1 df).
  assert (raw_rows df1 = raw_rows df) as Hraw1.
  { apply raw_rows_assign_encoded.
    by rewrite Hlen1; unfold column_values, raw_rows; rewrite !length_fmap. }
  destruct (fit_transform_run SubCategory (column_values SubCategory (raw_rows df1))
              (set_encoder Category (fit (column_values Category (raw_rows df))) self))
    as (ids2 & Hrun2 & Hlen2).
  exists (assign_encoded SubCategory ids2 df1). split.
  - erewrite py_bind_Ret; [|by erewrite py_bind_Ret; [|exact Hrun1]].
    fold df1.
    erewrite py_bind_Ret; [|by erewrite py_bind_Ret; [|exact Hrun2]].
    by rewrite Hraw1.
  - rewrite raw_rows_assign_encoded, Hraw1; [done|].
    by rewrite Hlen2; unfold column_values, raw_rows; rewrite !length_fmap.
Qed.

(** What a completed [prepare_data] has done. *)
Lemma prepare_data_Ret df self df' self' :
  prepare df self = (Ret df', self') →
  ∃ d0 d1 pdf,
    with_unknown_rows df = Ret d0 ∧
    filter_rare_classes (min_samples_per_class self) d0 = Ret d1 ∧
    add_text d1 = Ret pdf ∧ raw_rows pdf = d1 ∧
    raw_rows df' =
      raw_rows (drop_empty pdf) ∧
    (∀ c, label_encoders self' c = fit (column_values c (raw_rows df'))) ∧
    models self' = models self ∧
    min_samples_per_class self' = min_samples_per_class self.
Proof.
  unfold prepare_data, mbind, py_mbind, py_bind, py_lift, py_get.
  destruct (with_unknown_rows df) as [d0|e] eqn:Hd0; [|done].
  destruct (filter_rare_classes _ d0) as [d1|e] eqn:Hd1; [|done].
  destruct (add_processed_text_Ret d1) as (pdf & Hpdf & Hraw). rewrite Hpdf.
  destruct (encode_labels_run (drop_empty pdf) self)
    as (df'' & Hrun & Hraw'').
  unfold encode_labels in *. rewrite Hrun. intros [= <- <-].
  exists d0, d1, pdf. repeat split; try done.
  intros c. rewrite Hraw''. rewrite !set_encoder_lookup. by destruct c.
Qed.
End PipelineFacts.

Lemma support_absent c l df : l ∉ column_values c df → support c l df = 0%nat.
Proof. intros H. by rewrite support_column_values, filter_eq_absent. Qed.

Lemma support_app c l df1 df2 :
  support c l (df1 ++ df2) = (support c l df1 + support c l df2)%nat.
Proof. unfold support. by rewrite list.filter_app, length_app. Qed.

Lemma head_label_elem_of c r0 rest : label c r0 ∈ column_values c (r0 :: rest).
Proof. by left. Qed.

(** One pass of the injection loop on a dataset that starts with [r0]. *)
Lemma add_unknown_head df r0 c :
  head df = Some r0 →
  add_unknown df c =
    Ret (df ++ if decide ("Unknown" ∈ column_values c df) then []
               else [Row (PyStr "unknown case")
                       (category (set_label c "Unknown" r0))
                       (sub_category (set_label c "Unknown" r0))]).
Proof.
  intros Hhead. unfold add_unknown.
  assert (iloc0 df = Ret r0) as -> by (destruct df; by simplify_eq/=).
  destruct (decide ("Unknown" ∉ remove_dups (column_values c df))) as [Hno|Hyes].
  - rewrite decide_False; [done|]. intros Hin. by apply Hno, elem_of_remove_dups.
  - rewrite decide_True; [by rewrite app_nil_r|].
    by apply elem_of_remove_dups, dec_stable.
Qed.

Lemma with_unknown_rows_cons r0 rest :
  with_unknown_rows (r0 :: rest) =
    Ret ((r0 :: rest)
         ++ (if decide ("Unknown" ∈ column_values Category (r0 :: rest)) then []
             else [Row (PyStr "unknown case") "Unknown" (sub_category r0)])
         ++ (if decide ("Unknown" ∈ column_values SubCategory (r0 :: rest)) then []
             else [Row (PyStr "unknown case") (category r0) "Unknown"])).
Proof.
  unfold with_unknown_rows, label_columns. cbn [foldlM].
  rewrite (add_unknown_head _ r0) by done.
  unfold mbind, outcome_bind. rewrite (add_unknown_head _ r0) by done.
  rewrite <-app_assoc. do 3 f_equal.
  apply decide_ext. unfold column_values. rewrite fmap_app, elem_of_app.
  split; [|by left]. intros [?|Hinj]; [done|].
  case_decide; [by apply elem_of_nil in Hinj|].
  apply list_elem_of_singleton in Hinj. simpl in Hinj. rewrite Hinj. by left.
Qed.

(** When "Unknown" does not occur in a column, the dataset with the
    injected records has exactly one record with that label. *)
Lemma support_unknown_injected c r0 rest d0 :
  with_unknown_rows (r0 :: rest) = Ret d0 →
  "Unknown" ∉ column_values c (r0 :: rest) →
  support c "Unknown" d0 = 1%nat.
Proof.
  rewrite with_unknown_rows_cons. intros Hd0 Hno.
  assert (∀ x y : list row, Ret x = Ret y → x = y) as Hinj by congruence.
  apply Hinj in Hd0 as <-. clear Hinj.
  pose proof (head_label_elem_of c r0 rest) as Hhead.
  assert (label c r0 ≠ "Unknown") as Hne by (intros Heq; by rewrite Heq in Hhead).
  rewrite !support_app, (support_absent _ _ _ Hno).
  destruct c; simpl in Hne.
  - rewrite (decide_False (P := "Unknown" ∈ column_values Category _)) by done.
    case_decide; unfold support; simpl;
      rewrite ?filter_cons, ?filter_nil; simpl;
      repeat case_decide; simpl; congruence.
  - rewrite (decide_False (P := "Unknown" ∈ column_values SubCategory _)) by done.
    case_decide; unfold support; simpl;
      rewrite ?filter_cons, ?filter_nil; simpl;
      repeat case_decide; simpl; congruence.
Qed.

(** Every label that leaves [filter_rare_classes] had enough support in
    the dataset that entered it. *)
Lemma filter_rare_classes_input_support threshold d0 d1 c r :
  filter_rare_classes threshold d0 = Ret d1 → r ∈ d1 →
  (threshold ≤ Z.of_nat (support c (label c r) d0))%Z.
Proof.
  intros [-> _]%filter_rare_classes_Ret [Hr1 Hsub]%elem_of_filter_column.
  apply elem_of_filter_column in Hr1 as [_ Hcat]. destruct c; [done|].
  pose proof (support_filter_column_le threshold d0 Category SubCategory
                (label SubCategory r)). lia.
Qed.

Lemma drop_empty_subseteq pdf : drop_empty pdf ⊆ pdf.
Proof. apply list_subseteq_filter. Qed.

(** C9: on a dataset with first record [r0], [prepare_data] hands to the
    class filter the dataset followed by one record per label column in
    which "Unknown" does not occur; that record is a copy of [r0] with the
    label "Unknown" in that column and the text 'unknown case'. The run
    goes on from this dataset: if the filter raises on it, so does
    [prepare_data]; if [prepare_data] completes, its records are those the
    filter returned for it, without the ones whose normalized text is
    empty. If [min_samples_per_class] exceeds 1 and "Unknown" does not
    occur in column [c], the injected record is the only one of its label,
    the filter removes it, and "Unknown" is neither in column [c] of the
    prepared dataset nor among the classes of the encoder of [c]. *)
Theorem prepare_data_unknown_removed
    (word_tokenize : string → outcome (list string))
    (lemmatize : string → outcome string)
    (english_stopwords : list string)
    (self : CybercrimeClassifier) (r0 : row) (rest : list row) :
  let df := r0 :: rest in
  let injected :=
    df ++ (if decide ("Unknown" ∈ column_values Category df) then []
           else [Row (PyStr "unknown case") "Unknown" (sub_category r0)])
       ++ (if decide ("Unknown" ∈ column_values SubCategory df) then []
           else [Row (PyStr "unknown case") (category r0) "Unknown"]) in
  with_unknown_rows df = Ret injected ∧
  (∀ e, filter_rare_classes (min_samples_per_class self) injected = Raise e →
     prepare_data word_tokenize lemmatize english_stopwords df self = (Raise e, self)) ∧
  ∀ df' self',
    prepare_data word_tokenize lemmatize english_stopwords df self = (Ret df', self') →
    ∃ filtered prepared,
      filter_rare_classes (min_samples_per_class self) injected = Ret filtered ∧
      add_processed_text word_tokenize lemmatize english_stopwords filtered
        = Ret prepared ∧
      raw_rows prepared = filtered ∧
      raw_rows df' = raw_rows (drop_empty prepared) ∧
      ∀ c, (1 < min_samples_per_class self)%Z →
        "Unknown" ∉ column_values c df →
        support c "Unknown" injected = 1%nat ∧
        ("Unknown" ∉ column_values c filtered) ∧
        ("Unknown" ∉ column_values c (raw_rows df')) ∧
        ∃ classes, classes_ (label_encoders self' c) = Some classes ∧
                   "Unknown" ∉ classes.
Proof.
  intros df injected.
  pose proof (with_unknown_rows_cons r0 rest) as Hinj. fold df injected in Hinj.
  split; [exact Hinj|]. split.
  - intros e He. unfold prepare_data, mbind, py_mbind, py_bind, py_lift, py_get.
    by rewrite Hinj, He.
  - intros df' self' Hrun.
    apply prepare_data_Ret in Hrun
      as (d0 & d1 & pdf & Hd0 & Hd1 & Hpdf & Hraw & Hraw' & Henc & _ & _).
    fold df in Hd0. rewrite Hinj in Hd0. injection Hd0 as <-.
    exists d1, pdf. repeat (split; [done|]).
    intros c Hmin Hno.
    pose proof (support_unknown_injected c r0 rest injected Hinj Hno) as Hone.
    assert ("Unknown" ∉ column_values c d1) as Hd1no.
    { unfold column_values. intros (r & Hl & Hr)%list_elem_of_fmap.
      pose proof (filter_rare_classes_input_support _ _ _ c r Hd1 Hr) as Hle.
      rewrite <-Hl, Hone in Hle. lia. }
    assert ("Unknown" ∉ column_values c (raw_rows df')) as Hno'.
    { rewrite Hraw'. unfold column_values, raw_rows.
      intros (r & Hl & (p & -> & Hp)%list_elem_of_fmap)%list_elem_of_fmap.
      apply Hd1no. rewrite <-Hraw. unfold column_values, raw_rows.
      rewrite Hl. apply list_elem_of_fmap_2, list_elem_of_fmap_2.
      by apply drop_empty_subseteq. }
    repeat (split; [done|]).
    exists (np_unique (column_values c (raw_rows df'))). rewrite Henc. split; [done|].
    by rewrite elem_of_np_unique.
Qed.

Lemma prepare_data_unknown_removed_witness :
  ∃ classes,
    classes_ (label_encoders (Sample.prepare_data Sample.reports (init 2)).2 Category)
      = Some classes ∧ "Unknown" ∉ classes.
Proof.
  destruct (Sample.prepare_data Sample.reports (init 2)) as [o self'] eqn:Hrun.
  assert (∃ df', o = Ret df') as [df' ->].
  { replace o with (Sample.prepare_data Sample.reports (init 2)).1 by by rewrite Hrun.
    eexists. vm_compute. reflexivity. }
  destruct (proj2 (proj2
    (prepare_data_unknown_removed Sample.word_tokenize Sample.lemmatize
       Sample.english_stopwords (init 2) Sample.upi1
       [Sample.card1; Sample.upi2; Sample.upi3])) df' self' Hrun)
    as (filtered & prepared & _ & _ & _ & _ & Hc).
  destruct (Hc Category) as (_ & _ & _ & Hclasses); [simpl; lia| |exact Hclasses].
  apply (bool_decide_unpack _). by vm_compute.
Defined.

(** The injection shows in the result. With [min_samples_per_class] 2,
    the first of these three reports is the only one of its category; it
    is kept all the same, because its copy, injected for the sub_category
    column, counts for its category in the first pass of the filter. The
    filter alone removes it. *)
Example prepare_data_injection_observable :
  filter_rare_classes 2 [Sample.upi1; Sample.upi2; Sample.upi3]
    = Ret [Sample.upi2; Sample.upi3] ∧
  raw_rows <$> (Sample.prepare_data [Sample.upi1; Sample.upi2; Sample.upi3] (init 2)).1
    = Ret [Sample.upi1; Sample.upi2; Sample.upi3].
Proof. split; by vm_compute. Qed.

(** What does hold when [prepare_data] completes: the classes of each
    encoder are the labels that occur in the prepared dataset. *)
Lemma prepare_data_classes_occur
    (word_tokenize : string → outcome (list string))
    (lemmatize : string → outcome string)
    (english_stopwords : list string)
    (self : CybercrimeClassifier) (df : list row) df' self' (c : column) :
  prepare_data word_tokenize lemmatize english_stopwords df self = (Ret df', self') →
  ∃ classes, classes_ (label_encoders self' c) = Some classes ∧
    ∀ l, l ∈ classes ↔ (0 < support c l (raw_rows df'))%nat.
Proof.
  intros (d0 & d1 & pdf & _ & _ & _ & _ & _ & Henc & _)%prepare_data_Ret.
  exists (np_unique (column_values c (raw_rows df'))). rewrite Henc. split; [done|].
  intros l. rewrite elem_of_np_unique, support_column_values. split.
  - intros Hl. destruct (decide (0 < length (filter (λ x, x = l)
      (column_values c (raw_rows df'))))%nat) as [|Hz]; [done|].
    assert (l ∈ filter (λ x, x = l) (column_values c (raw_rows df'))) as Hin
      by by apply list_elem_of_filter.
    destruct (filter _ _); [by apply elem_of_nil in Hin | simpl in Hz; lia].
  - intros Hpos. destruct (decide (l ∈ column_values c (raw_rows df'))) as [|Hno]; [done|].
    rewrite filter_eq_absent in Hpos by done. simpl in Hpos. lia.
Qed.

(** And every class of an encoder had enough support in the dataset that
    entered the class filter, that is, before the filter passes and before
    the records with an empty normalized text were dropped. *)
Lemma prepare_data_classes_filtered
    (word_tokenize : string → outcome (list string))
    (lemmatize : string → outcome string)
    (english_stopwords : list string)
    (self : CybercrimeClassifier) (df : list row) df' self' (c : column) :
  prepare_data word_tokenize lemmatize english_stopwords df self = (Ret df', self') →
  ∃ d0 classes,
    with_unknown_rows df = Ret d0 ∧
    classes_ (label_encoders self' c) = Some classes ∧
    ∀ l, l ∈ classes →
      (min_samples_per_class self ≤ Z.of_nat (support c l d0))%Z.
Proof.
  intros (d0 & d1 & pdf & Hd0 & Hd1 & _ & Hraw & Hraw' & Henc & _)%prepare_data_Ret.
  exists d0, (np_unique (column_values c (raw_rows df'))). rewrite Henc.
  split; [done|]. split; [done|].
  intros l. rewrite elem_of_np_unique, Hraw'. unfold column_values, raw_rows.
  intros (r & -> & (p & -> & Hp)%list_elem_of_fmap)%list_elem_of_fmap.
  apply (filter_rare_classes_input_support _ _ d1); [done|].
  rewrite <-Hraw. unfold raw_rows. by apply list_elem_of_fmap_2, drop_empty_subseteq.
Qed.

(** C4 fails on the code. With [min_samples_per_class] 2 and the five
    reports [upi_reports]: every category and sub-category has two records
    or more, so all five pass the class filter; the record without letters
    is dropped afterwards because its normalized text is empty, and the
    encoders are fitted on the four records left, so "Financial Fraud" is
    a class of the category encoder with support 1 in the prepared
    dataset. *)
Theorem prepare_data_support_below_minimum :
  ∃ df' self',
    Sample.prepare_data Sample.upi_reports (init 2) = (Ret df', self') ∧
    min_samples_per_class self' = 2%Z ∧
    classes_ (label_encoders self' Category)
      = Some ["Financial Fraud"; "Social Media Crime"] ∧
    raw_rows df' = [Sample.upi1; Sample.upi2; Sample.upi3; Sample.upi4] ∧
    support Category "Financial Fraud" (raw_rows df') = 1%nat.
Proof.
  destruct (Sample.prepare_data Sample.upi_reports (init 2)) as [o self'] eqn:Hrun.
  assert (o = (Sample.prepare_data Sample.upi_reports (init 2)).1)
    as Ho by by rewrite Hrun.
  assert (self' = (Sample.prepare_data Sample.upi_reports (init 2)).2)
    as Hs by by rewrite Hrun.
  vm_compute in Ho. subst o. eexists _, self'. split; [done|].
  subst self'. repeat split; by vm_compute.
Qed.

(** ** Predictor *)

Lemma np_index_elem_of {A} (a : list A) (i : Z) (x : A) : np_index a i = Ret x → x ∈ a.
Proof.
  unfold np_index.
  destruct (if (0 <=? _)%Z then _ else _) as [y|] eqn:Hy; [|done].
  intros [= <-]. destruct (0 <=? _)%Z; [|done]. by eapply list_elem_of_lookup_2.
Qed.

Lemma decode_elem_of enc id name :
  decode enc id = Ret name → ∃ classes, classes_ enc = Some classes ∧ name ∈ classes.
Proof.
  unfold decode, get_classes. destruct (classes_ enc) as [classes|]; [|done].
  intros Hidx%np_index_elem_of. by exists classes.
Qed.

Lemma column_name_inj c c' : column_name c = column_name c' → c = c'.
Proof. by destruct c, c'. Qed.

Lemma confidence_key_inj c c' : confidence_key c = confidence_key c' → c = c'.
Proof. by destruct c, c'. Qed.

Lemma column_name_confidence_key c c' : column_name c ≠ confidence_key c'.
Proof. by destruct c, c'. Qed.

Lemma store_lookup_label c entry results :
  store c entry results !! column_name c = Some (VStr entry.1).
Proof.
  unfold store. rewrite lookup_insert_ne by (symmetry; apply column_name_confidence_key).
  apply lookup_insert_eq.
Qed.

Lemma store_lookup_confidence c entry results :
  store c entry results !! confidence_key c = Some (VFloat entry.2).
Proof. unfold store. apply lookup_insert_eq. Qed.

Lemma store_lookup_other_label c c' entry results :
  c ≠ c' → store c entry results !! column_name c' = results !! column_name c'.
Proof.
  intros Hne. unfold store.
  rewrite lookup_insert_ne by (symmetry; apply column_name_confidence_key).
  apply lookup_insert_ne. by intros ?%column_name_inj.
Qed.

Lemma store_lookup_other_confidence c c' entry results :
  c ≠ c' → store c entry results !! confidence_key c' = results !! confidence_key c'.
Proof.
  intros Hne. unfold store.
  rewrite lookup_insert_ne by by intros ?%confidence_key_inj.
  apply lookup_insert_ne, column_name_confidence_key.
Qed.

(** [results.update(self._get_unknown_prediction(column))] stores the
    Unknown entries of the column. *)
Lemma unknown_update c (results : gmap string pyval) :
  _get_unknown_prediction (Some c) ∪ results = store c ("Unknown", 0%float) results.
Proof.
  unfold _get_unknown_prediction, store. simpl.
  by rewrite <-!insert_union_l, (left_id_L ∅ (∪)).
Qed.

Lemma unknown_all_is_store :
  _get_unknown_prediction None =
    store SubCategory ("Unknown", 0%float) (store Category ("Unknown", 0%float) ∅).
Proof. done. Qed.

(** The inner [try] block stores the entries of its column, or raises and
    leaves [results] as it was. *)
Lemma predict_column_body_entries self model processed_text c results :
  predict_column_body self model processed_text c results =
    match column_entries self model processed_text c with
    | Ret entry => (Ret tt, store c entry results)
    | Raise e => (Raise e, results)
    end.
Proof.
  unfold predict_column_body, column_entries, store.
  unfold mbind, py_mbind, py_bind, py_lift, outcome_bind, setitem, py_modify.
  destruct (predict_proba model processed_text) as [probas|e]; [|done].
  destruct (py_max probas) as [max_proba|e]; [|done].
  destruct (model_predict model processed_text) as [prediction|e]; [|done].
  destruct (max_proba <? confidence_threshold)%float; [done|].
  by destruct (decode (label_encoders self c) prediction) as [name|e].
Qed.

Lemma predict_column_trained self processed_text c model results :
  models self c = Some model →
  predict_column self processed_text c results =
    (Ret tt, store c (column_result self model processed_text c) results).
Proof.
  intros Hm. unfold predict_column, py_try, column_result. rewrite Hm.
  rewrite predict_column_body_entries.
  destruct (column_entries self model processed_text c) as [entry|e]; [done|].
  unfold py_modify. by rewrite unknown_update.
Qed.

Lemma predict_column_untrained self processed_text c results :
  models self c = None →
  predict_column self processed_text c results =
    (Raise (ValueError ("Model for " +:+ column_name c +:+ " is not trained")), results).
Proof. intros Hm. unfold predict_column. by rewrite Hm. Qed.

Lemma predict_loop_trained self processed_text m1 m2 :
  models self Category = Some m1 → models self SubCategory = Some m2 →
  py_for label_columns (predict_column self processed_text) ∅ =
    (Ret tt,
     store SubCategory (column_result self m2 processed_text SubCategory)
       (store Category (column_result self m1 processed_text Category) ∅)).
Proof.
  intros H1 H2. unfold label_columns. cbn [py_for].
  unfold mbind, py_mbind.
  erewrite py_bind_Ret by by apply predict_column_trained.
  by erewrite py_bind_Ret by by apply predict_column_trained.
Qed.

Lemma predict_loop_untrained self processed_text c :
  models self c = None →
  ∃ c0 results,
    models self c0 = None ∧
    py_for label_columns (predict_column self processed_text) ∅ =
      (Raise (ValueError ("Model for " +:+ column_name c0 +:+ " is not trained")), results).
Proof.
  intros Hc. unfold label_columns. cbn [py_for]. unfold mbind, py_mbind.
  destruct (models self Category) as [m1|] eqn:H1.
  - assert (models self SubCategory = None) as H2 by (destruct c; congruence).
    exists SubCategory. eexists. split; [done|].
    erewrite py_bind_Ret by by apply predict_column_trained.
    by erewrite py_bind_Raise by by apply predict_column_untrained.
  - exists Category. eexists. split; [done|].
    by erewrite py_bind_Raise by by apply predict_column_untrained.
Qed.

Section PredictorFacts.
Variable word_tokenize : string → outcome (list string).
Variable lemmatize : string → outcome string.
Variable english_stopwords : list string.

Abbreviation normalize := (preprocess_text word_tokenize lemmatize english_stopwords).
Abbreviation predict_text := (predict word_tokenize lemmatize english_stopwords).
Abbreviation predict_text_body :=
  (predict_body word_tokenize lemmatize english_stopwords).

Lemma predict_empty self text : normalize text = Ret "" →
  predict_text self text = Ret (_get_unknown_prediction None).
Proof. intros H. unfold predict, predict_body. by rewrite H. Qed.

Lemma predict_body_trained self text processed_text m1 m2 :
  normalize text = Ret processed_text → processed_text ≠ "" →
  models self Category = Some m1 → models self SubCategory = Some m2 →
  predict_text_body self text =
    Ret (store SubCategory (column_result self m2 processed_text SubCategory)
           (store Category (column_result self m1 processed_text Category) ∅)).
Proof.
  intros Hp Hne H1 H2. unfold predict_body. rewrite Hp.
  unfold mbind, outcome_bind. cbv beta iota.
  rewrite decide_False by done. by rewrite (predict_loop_trained _ _ m1 m2).
Qed.

Lemma predict_trained self text processed_text m1 m2 :
  normalize text = Ret processed_text → processed_text ≠ "" →
  models self Category = Some m1 → models self SubCategory = Some m2 →
  predict_text self text =
    Ret (store SubCategory (column_result self m2 processed_text SubCategory)
           (store Category (column_result self m1 processed_text Category) ∅)).
Proof.
  intros Hp Hne H1 H2. unfold predict.
  by rewrite (predict_body_trained _ _ _ m1 m2 Hp Hne H1 H2).
Qed.

Lemma predict_body_untrained self text processed_text c :
  normalize text = Ret processed_text → processed_text ≠ "" →
  models self c = None →
  ∃ c0, models self c0 = None ∧
    predict_text_body self text =
      Raise (ValueError ("Model for " +:+ column_name c0 +:+ " is not trained")).
Proof.
  intros Hp Hne Hc. unfold predict_body. rewrite Hp.
  unfold mbind, outcome_bind. cbv beta iota.
  rewrite decide_False by done.
  destruct (predict_loop_untrained self processed_text c Hc) as (c0 & r & Hc0 & ->).
  by exists c0.
Qed.

Lemma predict_untrained self text c :
  models self c = None → predict_text self text = Ret (_get_unknown_prediction None).
Proof.
  intros Hc.
  destruct (preprocess_text_returns word_tokenize lemmatize english_stopwords text)
    as [processed_text Hp].
  destruct (decide (processed_text = "")) as [->|Hne]; [by apply predict_empty|].
  destruct (predict_body_untrained self text processed_text c Hp Hne Hc) as (c0 & _ & Hb).
  unfold predict. by rewrite Hb.
Qed.

(** Every call of [predict] returns, and what it returns is the
    all-Unknown result or the entries the two passes stored. *)
Lemma predict_cases self text :
  predict_text self text = Ret (_get_unknown_prediction None) ∨
  ∃ processed_text m1 m2,
    normalize text = Ret processed_text ∧ processed_text ≠ "" ∧
    models self Category = Some m1 ∧ models self SubCategory = Some m2 ∧
    predict_text self text =
      Ret (store SubCategory (column_result self m2 processed_text SubCategory)
             (store Category (column_result self m1 processed_text Category) ∅)).
Proof.
  destruct (models self Category) as [m1|] eqn:H1; [|left; by eapply predict_untrained].
  destruct (models self SubCategory) as [m2|] eqn:H2; [|left; by eapply predict_untrained].
  destruct (preprocess_text_returns word_tokenize lemmatize english_stopwords text)
    as [processed_text Hp].
  destruct (decide (processed_text = "")) as [->|Hne]; [left; by apply predict_empty|].
  right. exists processed_text, m1, m2. repeat split; try done.
  by apply predict_trained.
Qed.
End PredictorFacts.

Lemma stored_lookup (e1 e2 : string * float) (c : column) :
  let entry := match c with Category => e1 | SubCategory => e2 end in
  store SubCategory e2 (store Category e1 ∅) !! column_name c = Some (VStr entry.1) ∧
  store SubCategory e2 (store Category e1 ∅) !! confidence_key c = Some (VFloat entry.2).
Proof.
  destruct c; cbv zeta.
  - rewrite store_lookup_other_label, store_lookup_other_confidence by done.
    by rewrite store_lookup_label, store_lookup_confidence.
  - by rewrite store_lookup_label, store_lookup_confidence.
Qed.

Lemma unknown_all_lookup (c : column) :
  _get_unknown_prediction None !! column_name c = Some (VStr "Unknown") ∧
  _get_unknown_prediction None !! confidence_key c = Some (VFloat 0).
Proof.
  rewrite unknown_all_is_store.
  destruct (stored_lookup ("Unknown", 0%float) ("Unknown", 0%float) c) as [H1 H2].
  by destruct c.
Qed.

(** A pass leaves the Unknown entries, or a name that decoding the
    prediction gave together with the maximum probability. *)
Lemma column_result_cases self model processed_text c :
  column_result self model processed_text c = ("Unknown", 0%float) ∨
  ∃ name probas max_proba prediction,
    column_result self model processed_text c = (name, max_proba) ∧
    predict_proba model processed_text = Ret probas ∧
    py_max probas = Ret max_proba ∧
    (max_proba <? confidence_threshold)%float = false ∧
    model_predict model processed_text = Ret prediction ∧
    decode (label_encoders self c) prediction = Ret name.
Proof.
  unfold column_result, column_entries, mbind, outcome_bind.
  destruct (predict_proba model processed_text) as [probas|e]; [|by left].
  destruct (py_max probas) as [max_proba|e] eqn:Hmax; [|by left].
  destruct (model_predict model processed_text) as [prediction|e]; [|by left].
  destruct (max_proba <? confidence_threshold)%float eqn:Hlt; [by left|].
  destruct (decode (label_encoders self c) prediction) as [name|e] eqn:Hdec; [|by left].
  right. by exists name, probas, max_proba, prediction.
Qed.

(** Predicting on the empty string gives the all-Unknown result. *)
Example predict_empty_string :
  Sample.predict Sample.trained (PyStr "") = Ret (_get_unknown_prediction None).
Proof. by apply predict_empty. Qed.

(** C7: for every classifier and every input, [predict] returns a
    dictionary, and never raises; the dictionary has, for both label
    columns, a string under the column's name and a float under its
    confidence key. *)
Theorem predict_well_formed
    (word_tokenize : string → outcome (list string))
    (lemmatize : string → outcome string)
    (english_stopwords : list string)
    (self : CybercrimeClassifier) (text : pyobj) :
  ∃ results,
    predict word_tokenize lemmatize english_stopwords self text = Ret results ∧
    ∀ c, ∃ l conf,
      results !! column_name c = Some (VStr l) ∧
      results !! confidence_key c = Some (VFloat conf).
Proof.
  destruct (predict_cases word_tokenize lemmatize english_stopwords self text)
    as [Hr|(p & m1 & m2 & _ & _ & _ & _ & Hr)]; rewrite Hr; eexists; (split; [done|]);
    intros c.
  - destruct (unknown_all_lookup c). by eexists _, _.
  - edestruct (stored_lookup) as [H1 H2]. eexists _, _. split; [exact H1|exact H2].
Qed.

(** C10: when the model of a column is [None], [predict] returns the
    all-Unknown result, in which both labels are "Unknown" and both
    confidences 0.0; if the normalized text is not empty, the body of the
    outer [try] raises the untrained-model [ValueError], which the handler
    of the inner [try] has not caught, and the outer handler turns it into
    that result. *)
Theorem predict_untrained_all_unknown
    (word_tokenize : string → outcome (list string))
    (lemmatize : string → outcome string)
    (english_stopwords : list string)
    (self : CybercrimeClassifier) (text : pyobj) (c : column) :
  models self c = None →
  predict word_tokenize lemmatize english_stopwords self text
    = Ret (_get_unknown_prediction None) ∧
  (∀ c', _get_unknown_prediction None !! column_name c' = Some (VStr "Unknown") ∧
         _get_unknown_prediction None !! confidence_key c' = Some (VFloat 0)) ∧
  (∀ processed_text,
     preprocess_text word_tokenize lemmatize english_stopwords text = Ret processed_text →
     processed_text ≠ "" →
     ∃ c0, models self c0 = None ∧
       predict_body word_tokenize lemmatize english_stopwords self text =
         Raise (ValueError ("Model for " +:+ column_name c0 +:+ " is not trained"))).
Proof.
  intros Hc. split; [by eapply predict_untrained|].
  split; [apply unknown_all_lookup|].
  intros p Hp Hne. by eapply predict_body_untrained.
Qed.

Lemma predict_untrained_all_unknown_witness :
  models Sample.category_only SubCategory = None ∧
  Sample.predict Sample.category_only (PyStr "bank fraud money transfer")
    = Ret (_get_unknown_prediction None).
Proof.
  split; [reflexivity|].
  apply (predict_untrained_all_unknown Sample.word_tokenize Sample.lemmatize
           Sample.english_stopwords Sample.category_only
           (PyStr "bank fraud money transfer") SubCategory).
  reflexivity.
Defined.

(** C5, as stated, fails for the exception that the loop raises itself.
    The classifier [category_only] has a category model and no
    sub_category model. The pass for category stores "Financial Fraud"
    with confidence 0.75; the pass for sub_category raises the
    untrained-model error; [predict] then returns the Unknown result for
    category as well. *)
Lemma predict_untrained_column_counterexample :
  let text := "bank fraud money transfer" in
  Sample.preprocess_text (PyStr text) = Ret text ∧
  (∃ results,
     predict_column Sample.category_only text Category ∅ = (Ret tt, results) ∧
     results !! "category" = Some (VStr "Financial Fraud") ∧
     results !! "category_confidence" = Some (VFloat 0.75)) ∧
  (∀ results, ∃ e,
     predict_column Sample.category_only text SubCategory results = (Raise e, results)) ∧
  (∃ results,
     Sample.predict Sample.category_only (PyStr text) = Ret results ∧
     results !! "category" = Some (VStr "Unknown") ∧
     results !! "category_confidence" = Some (VFloat 0)).
Proof.
  split; [by vm_compute|]. split; [|split].
  - eexists. split; [by rewrite (predict_column_trained _ _ _ Sample.sure_model)|].
    split; by vm_compute.
  - intros results. eexists. by apply predict_column_untrained.
  - eexists. split; [by apply (predict_untrained _ _ _ _ _ SubCategory)|].
    split; by vm_compute.
Qed.

(** C5, amended: when both models are there and the normalized text is
    not empty, an exception raised in the inner [try] block of column [c]
    is replaced by the Unknown result for [c] only: [predict] returns a
    dictionary with "Unknown" and 0.0 for [c], and with, for the other
    column, the entries that the pass for that column stores. (The
    untrained-model error is raised before the inner [try] block and is
    not treated per column.) *)
Theorem predict_column_failure_isolated
    (word_tokenize : string → outcome (list string))
    (lemmatize : string → outcome string)
    (english_stopwords : list string)
    (self : CybercrimeClassifier) (text : pyobj) (processed_text : string)
    (c : column) (model : Model) (e : exn) (results0 results1 : gmap string pyval) :
  preprocess_text word_tokenize lemmatize english_stopwords text = Ret processed_text →
  processed_text ≠ "" →
  (∀ c', models self c' ≠ None) →
  models self c = Some model →
  predict_column_body self model processed_text c results0 = (Raise e, results1) →
  ∃ results,
    predict word_tokenize lemmatize english_stopwords self text = Ret results ∧
    results !! column_name c = Some (VStr "Unknown") ∧
    results !! confidence_key c = Some (VFloat 0) ∧
    ∀ c', c' ≠ c →
      results !! column_name c' =
        (predict_column self processed_text c' ∅).2 !! column_name c' ∧
      results !! confidence_key c' =
        (predict_column self processed_text c' ∅).2 !! confidence_key c'.
Proof.
  intros Hp Hne Hall Hm Hraise.
  destruct (models self Category) as [m1|] eqn:H1; [|by destruct (Hall Category)].
  destruct (models self SubCategory) as [m2|] eqn:H2; [|by destruct (Hall SubCategory)].
  assert (column_result self model processed_text c = ("Unknown", 0%float)) as Hres.
  { rewrite predict_column_body_entries in Hraise. unfold column_result.
    by destruct (column_entries self model processed_text c). }
  eexists. split; [by apply (predict_trained _ _ _ _ _ processed_text m1 m2)|].
  destruct c; simplify_eq.
  - rewrite store_lookup_other_label, store_lookup_other_confidence by done.
    rewrite store_lookup_label, store_lookup_confidence, Hres.
    repeat split; try done; destruct c'; try done;
      rewrite (predict_column_trained _ _ _ m2) by done; simpl;
      by rewrite ?store_lookup_label, ?store_lookup_confidence.
  - rewrite store_lookup_label, store_lookup_confidence, Hres.
    repeat split; try done; destruct c'; try done;
      rewrite (predict_column_trained _ _ _ m1) by done; simpl;
      rewrite ?store_lookup_other_label, ?store_lookup_other_confidence by done;
      by rewrite ?store_lookup_label, ?store_lookup_confidence.
Qed.

Lemma predict_column_failure_isolated_witness :
  ∃ results,
    Sample.predict Sample.category_broken (PyStr "bank fraud money transfer")
      = Ret results ∧
    results !! "category" = Some (VStr "Unknown") ∧
    results !! "category_confidence" = Some (VFloat 0) ∧
    results !! "sub_category" = Some (VStr "Card Fraud") ∧
    results !! "sub_category_confidence" = Some (VFloat 0.75).
Proof.
  destruct (predict_column_failure_isolated Sample.word_tokenize Sample.lemmatize
    Sample.english_stopwords Sample.category_broken
    (PyStr "bank fraud money transfer") "bank fraud money transfer"
    Category Sample.broken_model (LibraryError "NotFittedError") ∅ ∅)
    as (results & Hr & Hl & Hc & Hother).
  - by vm_compute.
  - done.
  - by intros [].
  - reflexivity.
  - reflexivity.
  - exists results. split; [exact Hr|]. split; [exact Hl|]. split; [exact Hc|].
    destruct (Hother SubCategory) as [Ha Hb]; [done|].
    split; (etrans; [eassumption|by vm_compute]).
Defined.

(** The builtin [max] returns an element of its argument. *)
Lemma py_max_elem_of (xs : list float) (m : float) : py_max xs = Ret m → m ∈ xs.
Proof.
  destruct xs as [|x xs]; [done|]. simpl. intros [= <-].
  assert (∀ acc, foldl (λ maxitem item, if (maxitem <? item)%float then item else maxitem)
                   acc xs ∈ acc :: xs) as Hfold.
  { induction xs as [|y ys IH]; intros acc; simpl; [by left|].
    specialize (IH (if (acc <? y)%float then y else acc)).
    apply elem_of_cons in IH as [->|IH].
    - destruct (acc <? y)%float; [right; by left | by left].
    - by do 2 right. }
  apply Hfold.
Qed.

(** ** Order of binary64 numbers *)

Lemma SFltb_irrefl (a : SpecFloat.spec_float) : SpecFloat.SFltb a a = false.
Proof.
  unfold SpecFloat.SFltb. destruct a as [[]|[]| |[] m e]; simpl; try done;
    rewrite Z.compare_refl;
    change (Pos.compare_cont Eq m m) with (Pos.compare m m);
    by rewrite Pos.compare_refl.
Qed.

Lemma SFltb_trans (a b c : SpecFloat.spec_float) :
  SpecFloat.SFltb a b = true → SpecFloat.SFltb b c = true → SpecFloat.SFltb a c = true.
Proof.
  unfold SpecFloat.SFltb.
  destruct a as [[]|[]| |[] ma ea], b as [[]|[]| |[] mb eb], c as [[]|[]| |[] mc ec];
    simpl; try done;
    change (Pos.compare_cont Eq ma mb) with (Pos.compare ma mb);
    change (Pos.compare_cont Eq mb mc) with (Pos.compare mb mc);
    change (Pos.compare_cont Eq ma mc) with (Pos.compare ma mc);
    destruct (Z.compare_spec ea eb), (Z.compare_spec eb ec), (Z.compare_spec ea ec);
    try done; try lia;
    destruct (Pos.compare_spec ma mb), (Pos.compare_spec mb mc), (Pos.compare_spec ma mc);
    simpl; try done; try lia.
Qed.

Lemma ltb_irrefl (a : float) : (a <? a)%float = false.
Proof. rewrite FloatAxioms.ltb_spec. apply SFltb_irrefl. Qed.

Lemma ltb_trans (a b c : float) :
  (a <? b)%float = true → (b <? c)%float = true → (a <? c)%float = true.
Proof. rewrite !FloatAxioms.ltb_spec. apply SFltb_trans. Qed.

(** The builtin [max] returns an entry of its argument that no entry
    exceeds. *)
Lemma py_max_greatest (xs : list float) (m : float) :
  py_max xs = Ret m → m ∈ xs ∧ ∀ x, x ∈ xs → (m <? x)%float = false.
Proof.
  destruct xs as [|x0 xs]; [done|]. simpl. intros [= <-].
  assert (∀ acc seen,
    acc ∈ seen → (∀ x, x ∈ seen → (acc <? x)%float = false) →
    let m := foldl (λ maxitem item, if (maxitem <? item)%float then item else maxitem)
               acc xs in
    m ∈ seen ++ xs ∧ ∀ x, x ∈ seen ++ xs → (m <? x)%float = false) as Hfold.
  { induction xs as [|y ys IH]; intros acc seen Hacc Hseen; cbn [foldl].
    - rewrite app_nil_r. by split.
    - replace (seen ++ y :: ys) with ((seen ++ [y]) ++ ys)
        by by rewrite <-app_assoc.
      apply IH.
      + destruct (acc <? y)%float; apply elem_of_app; [right; by left|by left].
      + intros x [Hx|Hx%list_elem_of_singleton]%elem_of_app; [|subst x].
        * destruct (acc <? y)%float eqn:Hlt; [|by apply Hseen].
          destruct (y <? x)%float eqn:Hyx; [|done].
          pose proof (Hseen x Hx) as Hax.
          by rewrite (ltb_trans _ _ _ Hlt Hyx) in Hax.
        * destruct (acc <? y)%float eqn:Hlt; [apply ltb_irrefl|done]. }
  apply (Hfold x0 [x0]); [by left|].
  intros x Hx%list_elem_of_singleton. subst x. apply ltb_irrefl.
Qed.

(** C1, as stated, fails: the columns are not handled independently. The
    classifier [category_only] has no sub_category model. For the text
    below the category model gives a probability vector with maximum 0.75,
    not below 0.3, and a prediction that decodes to "Financial Fraud", yet
    [predict] returns "Unknown" with confidence 0.0 for category. *)
Lemma predict_confident_column_unknown_counterexample :
  let text := "bank fraud money transfer" in
  Sample.preprocess_text (PyStr text) = Ret text ∧
  models Sample.category_only Category = Some Sample.sure_model ∧
  predict_proba Sample.sure_model text = Ret [0.75%float; 0.25%float] ∧
  py_max [0.75%float; 0.25%float] = Ret 0.75%float ∧
  (0.75 <? confidence_threshold)%float = false ∧
  model_predict Sample.sure_model text = Ret 0%Z ∧
  decode (label_encoders Sample.category_only Category) 0 = Ret "Financial Fraud" ∧
  ∃ results,
    Sample.predict Sample.category_only (PyStr text) = Ret results ∧
    results !! "category" = Some (VStr "Unknown") ∧
    results !! "category_confidence" = Some (VFloat 0).
Proof.
  repeat (split; [by vm_compute|]).
  eexists. split; [by apply (predict_untrained _ _ _ _ _ SubCategory)|].
  split; by vm_compute.
Qed.

(** C1, amended. The label [predict] returns for a column is "Unknown",
    with confidence 0.0, or a class of that column's encoder. When a model
    is missing, the column gets "Unknown" and 0.0. When both models are
    there and the normalized text is not empty, the column's entries
    follow from the probability vector its model gives: the maximum is an
    entry of the vector that no entry exceeds; if it is below 0.3 the
    column gets "Unknown" and 0.0; otherwise it gets the class name that
    the model's prediction decodes to, which is a class of the encoder,
    with the maximum as confidence. The column gets "Unknown" and 0.0 as
    well when the model gives no vector or an empty one, and, with a
    maximum not below 0.3, when the prediction or its decoding raises. *)
Theorem predict_confidence_threshold
    (word_tokenize : string → outcome (list string))
    (lemmatize : string → outcome string)
    (english_stopwords : list string)
    (self : CybercrimeClassifier) (text : pyobj) (c : column) :
  (∃ results l conf,
     predict word_tokenize lemmatize english_stopwords self text = Ret results ∧
     results !! column_name c = Some (VStr l) ∧
     results !! confidence_key c = Some (VFloat conf) ∧
     ((l = "Unknown" ∧ conf = 0%float) ∨
      ∃ classes, classes_ (label_encoders self c) = Some classes ∧ l ∈ classes)) ∧
  (∀ c', models self c' = None →
     ∃ results,
       predict word_tokenize lemmatize english_stopwords self text = Ret results ∧
       unknown_entries c results) ∧
  (∀ processed_text model,
     preprocess_text word_tokenize lemmatize english_stopwords text = Ret processed_text →
     processed_text ≠ "" →
     (∀ c', models self c' ≠ None) →
     models self c = Some model →
     ∃ results,
       predict word_tokenize lemmatize english_stopwords self text = Ret results ∧
       match predict_proba model processed_text with
       | Ret (p :: probas) =>
           ∃ max_proba,
             max_proba ∈ p :: probas ∧
             (∀ q, q ∈ p :: probas → (max_proba <? q)%float = false) ∧
             if (max_proba <? confidence_threshold)%float
             then unknown_entries c results
             else
               match model_predict model processed_text with
               | Ret prediction =>
                   match decode (label_encoders self c) prediction with
                   | Ret name =>
                       results !! column_name c = Some (VStr name) ∧
                       results !! confidence_key c = Some (VFloat max_proba) ∧
                       ∃ classes, classes_ (label_encoders self c) = Some classes ∧
                                  name ∈ classes
                   | Raise _ => unknown_entries c results
                   end
               | Raise _ => unknown_entries c results
               end
       | Ret [] | Raise _ => unknown_entries c results
       end).
Proof.
  split; [|split].
  - destruct (predict_cases word_tokenize lemmatize english_stopwords self text)
      as [Hr|(p & m1 & m2 & _ & _ & _ & _ & Hr)]; rewrite Hr.
    + destruct (unknown_all_lookup c). eexists _, _, _. repeat split; try done.
      by left.
    + edestruct (stored_lookup) as [Hl Hc].
      eexists _, _, _. split; [done|]. split; [exact Hl|]. split; [exact Hc|].
      destruct c.
      * destruct (column_result_cases self m1 p Category)
          as [->|(name & ? & ? & ? & -> & _ & _ & _ & _ & Hdec)]; [by left|].
        right. by eapply decode_elem_of.
      * destruct (column_result_cases self m2 p SubCategory)
          as [->|(name & ? & ? & ? & -> & _ & _ & _ & _ & Hdec)]; [by left|].
        right. by eapply decode_elem_of.
  - intros c' Hnone. eexists. split; [by eapply predict_untrained|].
    apply unknown_all_lookup.
  - intros p model Hp Hne Hall Hm.
    destruct (models self Category) as [m1|] eqn:H1; [|by destruct (Hall Category)].
    destruct (models self SubCategory) as [m2|] eqn:H2; [|by destruct (Hall SubCategory)].
    eexists. split; [by apply (predict_trained _ _ _ _ _ p m1 m2)|].
    unfold unknown_entries.
    edestruct (stored_lookup) as [Hl Hc]. rewrite Hl, Hc. clear Hl Hc.
    assert (column_result self model p c =
      match c with
      | Category => column_result self m1 p Category
      | SubCategory => column_result self m2 p SubCategory
      end) as <- by (destruct c; by simplify_eq).
    unfold column_result, column_entries, mbind, outcome_bind.
    destruct (predict_proba model p) as [[|q probas]|e]; [done| |done].
    destruct (py_max (q :: probas)) as [max_proba|e] eqn:Hmax; [|done].
    apply py_max_greatest in Hmax as [Hin Hgreatest].
    exists max_proba. split; [done|]. split; [done|].
    destruct (model_predict model p) as [prediction|e];
      destruct (max_proba <? confidence_threshold)%float; try done.
    destruct (decode (label_encoders self c) prediction) as [name|e] eqn:Hdec; [|done].
    repeat split; try done. by eapply decode_elem_of.
Qed.

Lemma predict_confidence_threshold_witness :
  ∃ results,
    Sample.predict Sample.trained (PyStr "bank fraud money transfer") = Ret results ∧
    results !! "category" = Some (VStr "Financial Fraud") ∧
    results !! "category_confidence" = Some (VFloat 0.75) ∧
    results !! "sub_category" = Some (VStr "Unknown") ∧
    results !! "sub_category_confidence" = Some (VFloat 0).
Proof.
  destruct (proj2 (proj2 (predict_confidence_threshold Sample.word_tokenize
    Sample.lemmatize Sample.english_stopwords Sample.trained
    (PyStr "bank fraud money transfer") Category))
    "bank fraud money transfer" Sample.sure_model)
    as (results & Hr & max1 & Hin1 & Hmax1 & H1);
    [by vm_compute|done|by intros []|reflexivity|].
  destruct (proj2 (proj2 (predict_confidence_threshold Sample.word_tokenize
    Sample.lemmatize Sample.english_stopwords Sample.trained
    (PyStr "bank fraud money transfer") SubCategory))
    "bank fraud money transfer" Sample.undecided_model)
    as (results' & Hr' & max2 & Hin2 & _ & H2);
    [by vm_compute|done|by intros []|reflexivity|].
  assert (results' = results) as -> by congruence.
  exists results. split; [exact Hr|].
  assert (max1 = 0.75%float) as ->.
  { apply elem_of_cons in Hin1 as [->|Hin1]; [done|].
    apply list_elem_of_singleton in Hin1 as ->.
    by specialize (Hmax1 0.75%float ltac:(by left)). }
  assert (max2 = 0.25%float) as ->.
  { repeat (apply elem_of_cons in Hin2 as [->|Hin2]; [done|]).
    by apply elem_of_nil in Hin2. }
  cbn in H1, H2. destruct H1 as (Hl1 & Hc1 & _). destruct H2 as [Hl2 Hc2].
  by repeat split.
Defined.

(** * Further properties of the code *)

(** ** Value counts and the class filter *)

Lemma support_eq_zero c l df : support c l df = 0%nat ↔ l ∉ column_values c df.
Proof.
  split; [|apply support_absent].
  intros Hz (r & -> & Hr)%list_elem_of_fmap.
  pose proof (support_pos c r df Hr). lia.
Qed.

Lemma value_counts_support c df l :
  value_counts (column_values c df) !! l =
    if decide (0 < support c l df)%nat then Some (support c l df) else None.
Proof.
  rewrite value_counts_lookup, <-support_column_values.
  destruct (decide (l ∈ column_values c df)) as [Hin|Hno].
  - rewrite decide_True; [done|].
    destruct (support c l df) eqn:E; [by apply support_eq_zero in E|lia].
  - rewrite decide_False; [done|]. apply support_eq_zero in Hno. lia.
Qed.

(** X1: the dictionary of [DatasetAnalyzer.analyze_class_distribution]
    has, under each column name, the labels that occur in that column,
    each with the number of records that carry it; a label that does not
    occur is not listed. *)
Theorem analyze_class_distribution_counts (df : list row) (c : column) :
  ∃ counts,
    DatasetAnalyzer_analyze_class_distribution df !! column_name c = Some counts ∧
    (∀ l, counts !! l =
       if decide (0 < support c l df)%nat then Some (support c l df) else None) ∧
    (∀ l, l ∈ dom counts ↔ l ∈ column_values c df).
Proof.
  exists (value_counts (column_values c df)). split; [|split].
  - unfold DatasetAnalyzer_analyze_class_distribution. by destruct c.
  - apply value_counts_support.
  - intros l. rewrite elem_of_dom, value_counts_lookup.
    case_decide; [by split; [|eexists]|]. split; [by intros [? ?]|done].
Qed.

Lemma filter_sublist_mono {A} (P Q : A → Prop)
    `{!∀ x, Decision (P x)} `{!∀ x, Decision (Q x)} (l1 l2 : list A) :
  l1 `sublist_of` l2 → (∀ x, x ∈ l1 → P x → Q x) →
  filter P l1 `sublist_of` filter Q l2.
Proof.
  induction 1 as [|x l1 l2 Hsub IH|x l1 l2 Hsub IH]; intros Himp.
  - constructor.
  - rewrite !filter_cons.
    assert (∀ y, y ∈ l1 → P y → Q y) as Himp' by (intros y Hy; apply Himp; by right).
    destruct (decide (P x)) as [HP|HP].
    + rewrite decide_True by (apply Himp; [by left|done]). constructor. by apply IH.
    + destruct (decide (Q x)); [apply sublist_cons|]; by apply IH.
  - rewrite (filter_cons Q). destruct (decide (Q x)); [apply sublist_cons|]; by apply IH.
Qed.

Lemma support_sublist c l df1 df2 :
  df1 `sublist_of` df2 → (support c l df1 ≤ support c l df2)%nat.
Proof.
  intros Hsub. unfold support. apply sublist_length.
  by apply filter_sublist_mono.
Qed.

Lemma filter_column_sublist threshold df c : filter_column threshold df c `sublist_of` df.
Proof. unfold filter_column, keep_valid. apply sublist_filter. Qed.

(** A pass with a higher threshold on a part of the dataset keeps a part
    of what the pass with the lower threshold keeps. *)
Lemma filter_column_mono t1 t2 df1 df2 c :
  (t1 ≤ t2)%Z → df1 `sublist_of` df2 →
  filter_column t2 df1 c `sublist_of` filter_column t1 df2 c.
Proof.
  intros Ht Hsub. unfold filter_column, keep_valid. cbv zeta.
  apply filter_sublist_mono; [done|].
  intros r Hr. rewrite !elem_of_valid_classes. intros [Hin Hle]. split.
  - unfold column_values in *. apply list_elem_of_fmap_2.
    by apply (sublist_subseteq _ _ Hsub).
  - pose proof (support_sublist c (label c r) _ _ Hsub). lia.
Qed.

(** X2: with a threshold of 1 or less the class filter removes no
    record that has its two labels: applied to a dataset that is not
    empty and in which no label is missing, it returns that dataset. *)
Theorem filter_rare_classes_threshold_one (threshold : Z) (df : list row) :
  (threshold ≤ 1)%Z → df ≠ [] → filter_rare_classes threshold df = Ret df.
Proof.
  intros Ht Hne. unfold filter_rare_classes, label_columns. cbn [foldl].
  assert (∀ d c, filter_column threshold d c = d) as Hid.
  { intros d c. apply filter_column_id. intros r Hr.
    pose proof (support_pos c r d Hr). lia. }
  rewrite !Hid. cbv zeta. case_decide as Hlen; [|done]. by destruct df.
Qed.

Lemma filter_rare_classes_threshold_one_witness :
  filter_rare_classes 1 Sample.reports = Ret Sample.reports.
Proof. apply filter_rare_classes_threshold_one; [lia|done]. Defined.

(** X3: the class filter fails with a [ValueError] on an empty dataset,
    whatever the threshold, and on any dataset when the threshold exceeds
    the number of its records. *)
Theorem filter_rare_classes_too_few_records (threshold : Z) (df : list row) :
  df = [] ∨ (Z.of_nat (length df) < threshold)%Z →
  ∃ msg, filter_rare_classes threshold df = Raise (ValueError msg).
Proof.
  intros Hlen. unfold filter_rare_classes, label_columns. cbn [foldl].
  assert (filter_column threshold df Category = []) as ->.
  { destruct Hlen as [->|Hlen]; [done|].
    destruct (filter_column threshold df Category) as [|r d] eqn:E; [done|].
    assert (r ∈ filter_column threshold df Category) as Hr by (rewrite E; by left).
    apply elem_of_filter_column in Hr as [_ Hle].
    pose proof (length_filter (λ r', label Category r' = label Category r) df) as Hf.
    unfold support in Hle. lia. }
  cbv zeta. rewrite decide_True by done. by eexists.
Qed.

Lemma filter_rare_classes_too_few_records_witness :
  ∃ msg, filter_rare_classes 5 Sample.reports = Raise (ValueError msg).
Proof. apply filter_rare_classes_too_few_records. right. simpl. lia. Defined.

(** X4: the class filter keeps the records in their order, and a higher
    threshold keeps fewer of them: if it returns with threshold [t2], it
    also returns with any lower threshold [t1], and the result for [t2] is
    a sublist of the result for [t1], which is a sublist of the input. *)
Theorem filter_rare_classes_monotone (t1 t2 : Z) (df df2 : list row) :
  (t1 ≤ t2)%Z →
  filter_rare_classes t2 df = Ret df2 →
  ∃ df1, filter_rare_classes t1 df = Ret df1 ∧
         df2 `sublist_of` df1 ∧ df1 `sublist_of` df.
Proof.
  intros Ht [-> Hne]%filter_rare_classes_Ret.
  assert (filter_column t2 (filter_column t2 df Category) SubCategory
          `sublist_of` filter_column t1 (filter_column t1 df Category) SubCategory) as Hsub.
  { apply filter_column_mono; [done|]. by apply filter_column_mono. }
  eexists. split; [|split; [exact Hsub|]].
  - unfold filter_rare_classes, label_columns. cbn [foldl]. cbv zeta.
    case_decide as Hlen; [|done].
    destruct (filter_column t1 _ SubCategory); [|done].
    by apply sublist_nil_r in Hsub.
  - etrans; apply filter_column_sublist.
Qed.

Lemma filter_rare_classes_monotone_witness :
  ∃ df1, filter_rare_classes 1 Sample.reports = Ret df1 ∧
         [Sample.upi1; Sample.upi2; Sample.upi3] `sublist_of` df1 ∧
         df1 `sublist_of` Sample.reports.
Proof.
  apply (filter_rare_classes_monotone 1 2); [lia|]. by vm_compute.
Defined.

(** X5: the class filter of the classifier is at least as strict as the
    rare-class cell of [part_000]: with the same threshold, every record
    the former returns is kept by the latter. *)
Theorem filter_rare_classes_within_cell (threshold : Z) (df df' : list row) :
  filter_rare_classes threshold df = Ret df' →
  df' `sublist_of` filtered_df threshold df.
Proof.
  intros [-> _]%filter_rare_classes_Ret.
  unfold filtered_df, filter_column at 1, keep_valid. cbv zeta.
  apply filter_sublist_mono; [apply filter_column_sublist|].
  intros r Hr Hsub.
  apply elem_of_filter_column in Hr as [Hr Hcat].
  apply elem_of_valid_classes in Hsub as [_ Hsub].
  rewrite (elem_of_valid_classes threshold Category),
    (elem_of_valid_classes threshold SubCategory).
  unfold column_values. repeat split.
  - by apply (list_elem_of_fmap_2 (label Category)).
  - done.
  - by apply (list_elem_of_fmap_2 (label SubCategory)).
  - pose proof (support_filter_column_le threshold df Category SubCategory
                  (label SubCategory r)). simpl in *. lia.
Qed.

Lemma filter_rare_classes_within_cell_witness :
  [Sample.upi1; Sample.upi2; Sample.upi3] `sublist_of` filtered_df 2 Sample.reports.
Proof. apply filter_rare_classes_within_cell. by vm_compute. Defined.

(** ** Label Encoder *)

Lemma StronglySorted_lookup_le {A} (R : relation A) `{!Reflexive R} (l : list A)
    (i j : nat) (x y : A) :
  StronglySorted R l → l !! i = Some x → l !! j = Some y → (i ≤ j)%nat → R x y.
Proof.
  intros Hs. revert i j. induction Hs as [|a l Hs IH Hall]; intros i j Hi Hj Hle.
  - by rewrite lookup_nil in Hi.
  - destruct i as [|i], j as [|j]; simplify_eq/=; [done| |lia|].
    + rewrite Forall_forall in Hall. apply Hall.
      apply list_elem_of_In. by eapply list_elem_of_lookup_2.
    + apply (IH i j); [done..|lia].
Qed.

(** X6: the classes of a fitted encoder are in ascending order without
    repetition, and they depend only on which labels occur: two label
    columns with the same values, in any order and multiplicity, give the
    same encoder. *)
Theorem fit_depends_on_label_set (y1 y2 : list string) :
  (∀ x, x ∈ y1 ↔ x ∈ y2) →
  fit y1 = fit y2 ∧
  ∃ classes, classes_ (fit y1) = Some classes ∧
    StronglySorted String.le classes ∧ NoDup classes ∧
    ∀ x, x ∈ classes ↔ x ∈ y1.
Proof.
  intros Hsame. split.
  - unfold fit. assert (np_unique y1 = np_unique y2) as ->; [|done].
    apply (StronglySorted_unique String.le); [apply np_unique_sorted..|].
    apply NoDup_Permutation; [apply NoDup_np_unique..|].
    intros x. by rewrite !elem_of_np_unique.
  - exists (np_unique y1). split; [done|]. split; [apply np_unique_sorted|].
    split; [apply NoDup_np_unique|]. intros x. apply elem_of_np_unique.
Qed.

Lemma fit_depends_on_label_set_witness :
  fit ["Spam"; "Fraud"; "Spam"] = fit ["Fraud"; "Spam"].
Proof.
  apply (fit_depends_on_label_set ["Spam"; "Fraud"; "Spam"] ["Fraud"; "Spam"]).
  intros x. rewrite !elem_of_cons, !elem_of_nil. tauto.
Defined.

(** X7: the ids follow the order of the class names: for two labels seen
    at fit time, the id of the first is at most the id of the second
    exactly when the first name is at most the second in the order of
    code points. *)
Theorem transform_order_preserving (y : list string) (a b : string) :
  a ∈ y → b ∈ y →
  ∃ i j, transform (fit y) [a; b] = Ret [i; j] ∧
         ((i ≤ j)%Z ↔ String.le a b).
Proof.
  intros Ha%elem_of_np_unique Hb%elem_of_np_unique.
  destruct (encode_elem_of _ _ Ha) as (i & Hi & Hia).
  destruct (encode_elem_of _ _ Hb) as (j & Hj & Hjb).
  exists (Z.of_nat i), (Z.of_nat j). split.
  - unfold transform. simpl. rewrite Hi. simpl. by rewrite Hj.
  - pose proof (np_unique_sorted y) as Hs. split.
    + intros Hle. eapply (StronglySorted_lookup_le String.le); [done..|lia].
    + intros Hab. destruct (decide (i ≤ j)%nat) as [|Hgt]; [lia|].
      assert (String.le b a) as Hba
        by (eapply (StronglySorted_lookup_le String.le); [done..|lia]).
      assert (a = b) as -> by by apply (anti_symm String.le).
      pose proof (NoDup_lookup _ _ _ _ (NoDup_np_unique y) Hia Hjb). lia.
Qed.

Lemma transform_order_preserving_witness :
  ∃ i j, transform (fit ["Spam"; "Fraud"; "Spam"]) ["Fraud"; "Spam"] = Ret [i; j] ∧
         ((i ≤ j)%Z ↔ String.le "Fraud" "Spam").
Proof.
  apply transform_order_preserving; rewrite !elem_of_cons; tauto.
Defined.

Lemma mapM_encode_Forall2 classes (l : list string) (ids : list Z) :
  mapM (encode classes) l = Ret ids → Forall2 (λ name id, encode classes name = Ret id) l ids.
Proof.
  revert ids. induction l as [|x l IH]; intros ids; simpl.
  - intros [= <-]. constructor.
  - destruct (encode classes x) as [i|e] eqn:Hx; simpl; [|done].
    destruct (mapM (encode classes) l) as [k|e] eqn:Hl; simpl; [|done].
    intros [= <-]. constructor; [done|]. by apply IH.
Qed.

Lemma mapM_encode_unseen classes (l : list string) (x : string) :
  x ∈ l → x ∉ classes → ∃ e, mapM (encode classes) l = Raise e.
Proof.
  intros Hx Hno. induction l as [|a l IH]; [by apply elem_of_nil in Hx|].
  simpl. destruct (encode classes a) as [i|e] eqn:Ha; simpl; [|by eexists].
  apply elem_of_cons in Hx as [->|Hx].
  - destruct (encode_unseen classes a Hno) as [e He]. congruence.
  - destruct (IH Hx) as [e ->]. by eexists.
Qed.


(** X8: transforming a column with a fitted encoder gives one id per
    label, each in 0..n-1, when every label was seen at fit time, and
    fails when some label was not; an encoder that was never fitted fails
    on every column. *)
Theorem transform_column (y l : list string) :
  ((∀ x, x ∈ l → x ∈ y) →
     ∃ ids, transform (fit y) l = Ret ids ∧ length ids = length l ∧
       Forall (λ id, ∃ classes, classes_ (fit y) = Some classes ∧
                 (0 ≤ id < Z.of_nat (length classes))%Z) ids) ∧
  (∀ x, x ∈ l → x ∉ y → ∃ e, transform (fit y) l = Raise e) ∧
  (∃ e, transform unfitted l = Raise e).
Proof.
  split; [|split].
  - intros Hin.
    destruct (transform_fit_members (np_unique y) l) as (ids & Hids & Hlen).
    { intros x Hx. by apply elem_of_np_unique, Hin. }
    exists ids. unfold transform. simpl. split; [done|]. split; [done|].
    apply mapM_encode_Forall2 in Hids. clear Hlen Hin.
    induction Hids as [|name id l ids Hid _ IH]; constructor; [|done].
    exists (np_unique y). split; [done|]. by eapply encode_range.
  - intros x Hx Hno. unfold transform. simpl.
    apply (mapM_encode_unseen _ _ x); [done|]. by rewrite elem_of_np_unique.
  - by eexists.
Qed.

(** ** Data preparation, record by record *)

Lemma mapM_outcome_Forall2 {A B} (f : A → outcome B) (l : list A) (k : list B) :
  mapM f l = Ret k → Forall2 (λ x y, f x = Ret y) l k.
Proof.
  revert k. induction l as [|x l IH]; intros k; simpl.
  - intros [= <-]. constructor.
  - destruct (f x) as [y|e] eqn:Hx; simpl; [|done].
    destruct (mapM f l) as [k'|e] eqn:Hl; simpl; [|done].
    intros [= <-]. constructor; [done|]. by apply IH.
Qed.

Lemma encode_decode classes name id :
  encode classes name = Ret id → np_index classes id = Ret name.
Proof.
  unfold encode. destruct (list_find _ classes) as [[i x]|] eqn:Hfind; [|done].
  intros [= <-]. apply list_find_Some in Hfind as (Hi & -> & _).
  by rewrite np_index_nonneg, Nat2Z.id, Hi by lia.
Qed.

Lemma assign_encoded_lookup c ids df (k : nat) p :
  assign_encoded c ids df !! k = Some p ↔
  ∃ p0 id, df !! k = Some p0 ∧ ids !! k = Some id ∧
           p = Prepared (raw p0) (processed_text p0) (encoded p0 ++ [(c, id)]).
Proof.
  unfold assign_encoded. rewrite lookup_zip_with_Some.
  split.
  - intros (p0 & id & -> & ? & ?). by exists p0, id.
  - intros (p0 & id & ? & ? & ->). by exists p0, id.
Qed.

Lemma fit_transform_eq c y self :
  fit_transform c y self = (transform (fit y) y, set_encoder c (fit y) self).
Proof.
  unfold fit_transform, mbind, py_mbind, py_bind, py_modify, py_get, py_lift.
  cbv beta iota. rewrite set_encoder_lookup, decide_True by done.
  by destruct (transform (fit y) y).
Qed.

(** Every record that [fit_transform] encodes gets the id that decodes to
    its label. *)
Lemma fit_transform_ids c y self ids :
  fit_transform c y self = (Ret ids, set_encoder c (fit y) self) →
  Forall2 (λ name id, decode (fit y) id = Ret name) y ids.
Proof.
  rewrite fit_transform_eq. intros [= Hids].
  change (mapM (encode (np_unique y)) y = Ret ids) in Hids.
  apply mapM_encode_Forall2 in Hids.
  eapply Forall2_impl; [|exact Hids]. intros name id Henc. by apply encode_decode.
Qed.

Section PrepareRows.
Variable word_tokenize : string → outcome (list string).
Variable lemmatize : string → outcome string.
Variable english_stopwords : list string.

Abbreviation prepare_rows := (prepare_data word_tokenize lemmatize english_stopwords).
Abbreviation normalized := (preprocess_text word_tokenize lemmatize english_stopwords).

Lemma add_processed_text_rows df pdf :
  add_processed_text word_tokenize lemmatize english_stopwords df = Ret pdf →
  Forall (λ p, normalized (crimeaditionalinfo (raw p)) = Ret (processed_text p) ∧
               encoded p = []) pdf.
Proof.
  intros HF%mapM_outcome_Forall2. induction HF as [|r p df pdf Hp _ IH]; constructor; [|done].
  unfold mbind, outcome_bind, mret, outcome_ret in Hp.
  destruct (preprocess_text _ _ _ _) as [text|e] eqn:Ht; by simplify_eq/=.
Qed.

Lemma encode_labels_rows (df : list prepared_row) self df' self' :
  encode_labels df self = (Ret df', self') →
  ∀ k p, df' !! k = Some p →
    ∃ p0 i j, df !! k = Some p0 ∧
      p = Prepared (raw p0) (processed_text p0)
            (encoded p0 ++ [(Category, i)] ++ [(SubCategory, j)]) ∧
      decode (label_encoders self' Category) i = Ret (category (raw p0)) ∧
      decode (label_encoders self' SubCategory) j = Ret (sub_category (raw p0)).
Proof.
  unfold encode_labels, label_columns. cbn [py_fold].
  unfold mbind, py_mbind, mret, py_mret.
  destruct (fit_transform_run Category (column_values Category (raw_rows df)) self)
    as (ids1 & Hrun1 & Hlen1).
  set (df1 := assign_encoded Category ids1 df).
  assert (raw_rows df1 = raw_rows df) as Hraw1.
  { apply raw_rows_assign_encoded.
    by rewrite Hlen1; unfold column_values, raw_rows; rewrite !length_fmap. }
  destruct (fit_transform_run SubCategory (column_values SubCategory (raw_rows df1))
              (set_encoder Category (fit (column_values Category (raw_rows df))) self))
    as (ids2 & Hrun2 & Hlen2).
  erewrite py_bind_Ret; [|by erewrite py_bind_Ret; [|exact Hrun1]].
  fold df1.
  erewrite py_bind_Ret; [|by erewrite py_bind_Ret; [|exact Hrun2]].
  intros [= <- <-] k p Hp.
  apply assign_encoded_lookup in Hp as (p1 & j & Hp1 & Hj & ->).
  apply assign_encoded_lookup in Hp1 as (p0 & i & Hp0 & Hi & ->).
  exists p0, i, j. split; [done|]. split; [simpl; by rewrite <-app_assoc|].
  rewrite !set_encoder_lookup. simpl.
  apply fit_transform_ids in Hrun1, Hrun2. rewrite Hraw1 in Hrun2 |- *. split.
  - apply (Forall2_lookup_lr _ _ _ k _ _ Hrun1); [|done].
    unfold column_values, raw_rows. by rewrite !list_lookup_fmap, Hp0.
  - apply (Forall2_lookup_lr _ _ _ k _ _ Hrun2); [|done].
    unfold column_values, raw_rows. by rewrite !list_lookup_fmap, Hp0.
Qed.

(** X10: in the dataset a completed [prepare_data] returns, every record
    has a normalized text that is not empty and is the normalization of
    its raw text, and carries exactly the two encoded columns, whose ids
    decode with the fitted encoders to the record's own category and
    sub-category. *)
Theorem prepare_data_rows_well_prepared (self : CybercrimeClassifier) (df : list row)
    (df' : list prepared_row) (self' : CybercrimeClassifier) :
  prepare_rows df self = (Ret df', self') →
  ∀ p, p ∈ df' →
    well_prepared word_tokenize lemmatize english_stopwords self' p.
Proof.
  unfold prepare_data, mbind, py_mbind, py_bind, py_lift, py_get.
  destruct (with_unknown_rows df) as [d0|e] eqn:Hd0; [|done].
  destruct (filter_rare_classes _ d0) as [d1|e] eqn:Hd1; [|done].
  destruct (add_processed_text _ _ _ d1) as [pdf|e] eqn:Hpdf; [|done].
  intros Hrun p (k & Hk)%list_elem_of_lookup.
  destruct (encode_labels_rows _ _ _ _ Hrun k p Hk)
    as (p0 & i & j & Hp0 & -> & Hi & Hj).
  apply list_elem_of_lookup_2 in Hp0.
  apply list_elem_of_filter in Hp0 as [Hlen Hp0].
  pose proof (add_processed_text_rows _ _ Hpdf) as Hrows.
  rewrite Forall_forall in Hrows. apply list_elem_of_In, Hrows in Hp0 as [Hnorm Henc].
  split; [|split].
  - simpl. intros Hempty. rewrite Hempty in Hlen. simpl in Hlen. lia.
  - done.
  - exists i, j. simpl. by rewrite Henc.
Qed.
End PrepareRows.

Lemma prepare_data_rows_well_prepared_witness :
  ∃ df', (Sample.prepare_data Sample.reports (init 2)).1 = Ret df' ∧ df' ≠ [] ∧
    ∀ p, p ∈ df' →
      well_prepared Sample.word_tokenize Sample.lemmatize Sample.english_stopwords
        (Sample.prepare_data Sample.reports (init 2)).2 p.
Proof.
  destruct (Sample.prepare_data Sample.reports (init 2)) as [o self'] eqn:Hrun.
  assert (∃ df', o = Ret df' ∧ df' ≠ []) as (df' & -> & Hne).
  { replace o with (Sample.prepare_data Sample.reports (init 2)).1 by by rewrite Hrun.
    eexists. split; [vm_compute; reflexivity|done]. }
  exists df'. split; [done|]. split; [done|].
  exact (prepare_data_rows_well_prepared Sample.word_tokenize Sample.lemmatize
           Sample.english_stopwords (init 2) Sample.reports df' self' Hrun).
Defined.

Section PrepareOutcome.
Variable word_tokenize : string → outcome (list string).
Variable lemmatize : string → outcome string.
Variable english_stopwords : list string.

Abbreviation prepare_run := (prepare_data word_tokenize lemmatize english_stopwords).

(** X9: on an empty dataset [prepare_data] raises the [IndexError] of
    [df.iloc[0]], and whenever [prepare_data] raises, the classifier is as
    it was before the call: no encoder has been refitted. *)
Theorem prepare_data_failure (self : CybercrimeClassifier) :
  (∃ msg, prepare_run [] self = (Raise (IndexError msg), self)) ∧
  (∀ df e self', prepare_run df self = (Raise e, self') →
     self' = self ∧
     (df = [] ∨ ∃ d0 msg, with_unknown_rows df = Ret d0 ∧ e = ValueError msg ∧
                  filter_rare_classes (min_samples_per_class self) d0 = Raise e)).
Proof.
  split; [by eexists|].
  intros df e self'.
  unfold prepare_data, mbind, py_mbind, py_bind, py_lift, py_get.
  destruct df as [|r0 rest].
  { intros [= <- <-]. by split; [|left]. }
  rewrite with_unknown_rows_cons.
  destruct (filter_rare_classes _ _) as [d1|e1] eqn:Hd1.
  - destruct (add_processed_text_Ret word_tokenize lemmatize english_stopwords d1)
      as (pdf & -> & _).
    destruct (encode_labels_run (drop_empty pdf) self) as (df' & Hrun & _).
    by rewrite Hrun.
  - intros [= <- <-]. split; [done|]. right. eexists _, _. split; [done|].
    split; [|done]. unfold filter_rare_classes in Hd1.
    case_decide; [|done]. by injection Hd1 as <-.
Qed.

(** X11: a completed [prepare_data] changes nothing in the classifier but
    the two encoders, and the records it returns are, in their order,
    records of the dataset it was given or the injected 'Unknown' records:
    it reorders nothing and invents no other record. *)
Theorem prepare_data_frame (self : CybercrimeClassifier) (df : list row)
    (df' : list prepared_row) (self' : CybercrimeClassifier) :
  prepare_run df self = (Ret df', self') →
  models self' = models self ∧
  min_samples_per_class self' = min_samples_per_class self ∧
  ∃ d0, with_unknown_rows df = Ret d0 ∧ df `prefix_of` d0 ∧
        raw_rows df' `sublist_of` d0.
Proof.
  intros (d0 & d1 & pdf & Hd0 & Hd1 & _ & Hraw & Hraw' & _ & Hm & Hmin)%prepare_data_Ret.
  split; [done|]. split; [done|]. exists d0. split; [done|]. split.
  - destruct df as [|r0 rest].
    + apply prefix_nil.
    + rewrite with_unknown_rows_cons in Hd0. injection Hd0 as <-.
      by eexists.
  - rewrite Hraw'. apply filter_rare_classes_Ret in Hd1 as [-> _].
    etrans; [|etrans; apply filter_column_sublist].
    rewrite <-Hraw. unfold raw_rows. apply fmap_sublist, sublist_filter.
Qed.
End PrepareOutcome.

Lemma prepare_data_frame_witness :
  ∃ d0, with_unknown_rows Sample.reports = Ret d0 ∧ Sample.reports `prefix_of` d0 ∧
    match (Sample.prepare_data Sample.reports (init 2)).1 with
    | Ret df' => raw_rows df' `sublist_of` d0
    | Raise _ => False
    end.
Proof.
  destruct (Sample.prepare_data Sample.reports (init 2)) as [o self'] eqn:Hrun.
  assert (∃ df', o = Ret df') as [df' ->].
  { replace o with (Sample.prepare_data Sample.reports (init 2)).1 by by rewrite Hrun.
    eexists. vm_compute. reflexivity. }
  exact (proj2 (proj2 (prepare_data_frame Sample.word_tokenize Sample.lemmatize
           Sample.english_stopwords (init 2) Sample.reports df' self' Hrun))).
Defined.

(** ** Handlers that raise again *)

Lemma py_try_reraise {S A} (m : py S A) (s : S) : py_try m (λ e, py_raise e) s = m s.
Proof. unfold py_try, py_raise. by destruct (m s) as [[a|e] s']. Qed.

(** ** Predictor: keys and confidence *)

Lemma dom_store c entry (results : gmap string pyval) :
  dom (store c entry results) = {[confidence_key c]} ∪ ({[column_name c]} ∪ dom results).
Proof. unfold store. by rewrite !dom_insert_L. Qed.

(** X14: the dictionary [predict] returns has the four keys 'category',
    'category_confidence', 'sub_category' and 'sub_category_confidence'
    and no other key. *)
Theorem predict_result_keys
    (word_tokenize : string → outcome (list string))
    (lemmatize : string → outcome string)
    (english_stopwords : list string)
    (self : CybercrimeClassifier) (text : pyobj) :
  ∃ results,
    predict word_tokenize lemmatize english_stopwords self text = Ret results ∧
    dom results =
      {["category"; "category_confidence"; "sub_category"; "sub_category_confidence"]} ∧
    size results = 4%nat.
Proof.
  assert (∀ e1 e2, dom (store SubCategory e2 (store Category e1 ∅)) =
    ({["category"; "category_confidence"; "sub_category"; "sub_category_confidence"]}
       : gset string)) as Hdom.
  { intros e1 e2. rewrite !dom_store, dom_empty_L.
    unfold confidence_key, column_name. simpl. set_solver. }
  destruct (predict_cases word_tokenize lemmatize english_stopwords self text)
    as [Hr|(p & m1 & m2 & _ & _ & _ & _ & Hr)]; rewrite Hr;
    [rewrite unknown_all_is_store|]; eexists; (split; [done|]);
    (split; [apply Hdom|]); rewrite <-size_dom, Hdom; by vm_compute.
Qed.

(** X15: the confidence [predict] returns for a column is 0.0, or it is
    an entry of the probability vector that the column's model gave for
    the normalized text, and this entry is not below the threshold 0.3. *)
Theorem predict_confidence_range
    (word_tokenize : string → outcome (list string))
    (lemmatize : string → outcome string)
    (english_stopwords : list string)
    (self : CybercrimeClassifier) (text : pyobj) (c : column) :
  ∃ results conf,
    predict word_tokenize lemmatize english_stopwords self text = Ret results ∧
    results !! confidence_key c = Some (VFloat conf) ∧
    (conf = 0%float ∨
     ((conf <? confidence_threshold)%float = false ∧
      ∃ processed_text model probas,
        preprocess_text word_tokenize lemmatize english_stopwords text
          = Ret processed_text ∧
        models self c = Some model ∧
        predict_proba model processed_text = Ret probas ∧
        conf ∈ probas)).
Proof.
  destruct (predict_cases word_tokenize lemmatize english_stopwords self text)
    as [Hr|(p & m1 & m2 & Hp & _ & H1 & H2 & Hr)]; rewrite Hr.
  - destruct (unknown_all_lookup c) as [_ Hc]. eexists _, _. split; [done|].
    split; [exact Hc|]. by left.
  - edestruct (stored_lookup) as [_ Hc]. eexists _, _. split; [done|].
    split; [exact Hc|].
    destruct c.
    + destruct (column_result_cases self m1 p Category)
        as [->|(name & probas & mx & pr & -> & Hprobas & Hmax & Hlt & _ & _)]; [by left|].
      right. split; [done|]. exists p, m1, probas. repeat split; try done.
      by apply py_max_elem_of.
    + destruct (column_result_cases self m2 p SubCategory)
        as [->|(name & probas & mx & pr & -> & Hprobas & Hmax & Hlt & _ & _)]; [by left|].
      right. split; [done|]. exists p, m2, probas. repeat split; try done.
      by apply py_max_elem_of.
Qed.

(** ** Error analysis *)

Lemma mapM_np_index_names (class_names : list string) (ids : list Z) :
  Forall (λ i, (0 ≤ i < Z.of_nat (length class_names))%Z) ids →
  ∃ names, mapM (np_index class_names) ids = Ret names ∧
    Forall2 (λ i x, (0 ≤ i)%Z ∧ class_names !! Z.to_nat i = Some x) ids names.
Proof.
  induction 1 as [|i ids Hi _ (names & Hnames & HF)].
  - exists []. by split; [|constructor].
  - destruct (lookup_lt_is_Some_2 class_names (Z.to_nat i)) as [x Hx]; [lia|].
    exists (x :: names). split; [|constructor; [split; [lia|done]|done]].
    simpl. rewrite np_index_nonneg, Hx by lia. simpl. by rewrite Hnames.
Qed.

Lemma mapM_np_index_out_of_range (class_names : list string) (ids : list Z) (i : Z) :
  i ∈ ids →
  (i < - Z.of_nat (length class_names) ∨ Z.of_nat (length class_names) ≤ i)%Z →
  ∃ e, mapM (np_index class_names) ids = Raise e.
Proof.
  intros Hi Hout. induction ids as [|a ids IH]; [by apply elem_of_nil in Hi|].
  simpl. destruct (np_index class_names a) as [x|e] eqn:Ha; simpl; [|by eexists].
  apply elem_of_cons in Hi as [->|Hi].
  - by rewrite np_index_out_of_range in Ha.
  - destruct (IH Hi) as [e ->]. by eexists.
Qed.

Lemma misclassified_count (class_names : list string) (ts ps : list Z)
    (tn pn : list string) (xs : list string) :
  NoDup class_names →
  Forall2 (λ i x, (0 ≤ i)%Z ∧ class_names !! Z.to_nat i = Some x) ts tn →
  Forall2 (λ i x, (0 ≤ i)%Z ∧ class_names !! Z.to_nat i = Some x) ps pn →
  length (filter (λ e : string * string * string, e.1.1 ≠ e.1.2) (zip (zip tn pn) xs)) =
  length (filter (λ e : Z * Z * string, e.1.1 ≠ e.1.2) (zip (zip ts ps) xs)).
Proof.
  intros Hnd Ht. revert ps pn xs.
  induction Ht as [|t a ts tn [Ht0 Hta] _ IH]; intros ps pn xs Hp; [done|].
  destruct Hp as [|p b ps pn [Hp0 Hpb] Hp]; [done|].
  destruct xs as [|x xs]; [done|].
  simpl. rewrite !filter_cons. simpl.
  destruct (decide (a ≠ b)) as [Hab|Hab], (decide (t ≠ p)) as [Htp|Htp]; simpl;
    rewrite ?(IH ps pn xs Hp); try done.
  - apply dec_stable in Htp. subst. congruence.
  - apply dec_stable in Hab. subst.
    pose proof (NoDup_lookup _ _ _ _ Hnd Hta Hpb). destruct Htp. lia.
Qed.

(** X16: [_perform_error_analysis] raises when a true or predicted id is
    below -n or above n-1, for n class names. With ids in 0..n-1 and
    class names without repetition, as a fitted encoder has them, it
    returns, and its list of errors has one entry for every validation
    record whose predicted id differs from the true id, so none when the
    prediction is right everywhere. *)
Theorem error_analysis_counts_wrong_ids (X_val : list string) (y_true y_pred : list Z)
    (class_names : list string) (c : column) :
  (NoDup class_names →
   Forall (λ i, (0 ≤ i < Z.of_nat (length class_names))%Z) y_true →
   Forall (λ i, (0 ≤ i < Z.of_nat (length class_names))%Z) y_pred →
   _perform_error_analysis X_val y_true y_pred class_names c = Ret tt ∧
   ∃ errors,
     misclassified X_val y_true y_pred class_names = Ret errors ∧
     length errors =
       length (filter (λ e : Z * Z * string, e.1.1 ≠ e.1.2)
                 (zip (zip y_true y_pred) X_val)) ∧
     Forall (λ e : string * string * string, e.1.1 ≠ e.1.2) errors ∧
     (y_pred = y_true → errors = [])) ∧
  (∀ i, i ∈ y_true ++ y_pred →
     (i < - Z.of_nat (length class_names) ∨ Z.of_nat (length class_names) ≤ i)%Z →
     ∃ e, _perform_error_analysis X_val y_true y_pred class_names c = Raise e).
Proof.
  split.
  - intros Hnd Ht Hp.
    destruct (mapM_np_index_names class_names y_true Ht) as (tn & Htn & HFt).
    destruct (mapM_np_index_names class_names y_pred Hp) as (pn & Hpn & HFp).
    assert (misclassified X_val y_true y_pred class_names =
            Ret (filter (λ e, e.1.1 ≠ e.1.2) (zip (zip tn pn) X_val))) as Hmis.
    { unfold misclassified. rewrite Htn. simpl. by rewrite Hpn. }
    split; [unfold _perform_error_analysis; by rewrite Hmis|].
    eexists. split; [exact Hmis|]. split; [by apply (misclassified_count class_names)|]. split.
    + apply Forall_forall. intros e He%list_elem_of_In. by apply list_elem_of_filter in He as [? _].
    + intros ->. rewrite Htn in Hpn. injection Hpn as <-.
      clear. revert X_val. induction tn as [|a tn IH]; intros [|x xs]; try done.
      simpl. rewrite filter_cons_False by (simpl; by intros ?). apply IH.
  - intros i Hi Hout. unfold _perform_error_analysis, misclassified.
    apply elem_of_app in Hi as [Hi|Hi].
    + destruct (mapM_np_index_out_of_range class_names y_true i Hi Hout) as [e ->].
      by eexists.
    + destruct (mapM (np_index class_names) y_true) as [tn|e]; simpl; [|by eexists].
      destruct (mapM_np_index_out_of_range class_names y_pred i Hi Hout) as [e ->].
      by eexists.
Qed.

(** ** Splitting and joining *)

Lemma append_cons (c : ascii) (s t : string) : String c s +:+ t = String c (s +:+ t).
Proof. reflexivity. Qed.

Lemma append_nil_r (s : string) : s +:+ "" = s.
Proof. induction s as [|c s IH]; [done|]. by rewrite append_cons, IH. Qed.

Lemma string_forall_app p (s1 s2 : string) :
  string_forall p (s1 +:+ s2) = string_forall p s1 && string_forall p s2.
Proof.
  induction s1 as [|c s1 IH]; [done|]. rewrite append_cons. simpl.
  rewrite IH. by rewrite andb_assoc.
Qed.

Lemma rev_app_rev_app (w acc acc' : string) :
  String.rev_app (String.rev_app w acc) acc' = String.rev_app acc (w +:+ acc').
Proof.
  revert acc acc'. induction w as [|c w IH]; intros acc acc'; [done|].
  rewrite append_cons. simpl. by rewrite IH.
Qed.

Lemma rev_rev_app (w : string) : String.rev (String.rev_app w "") = w.
Proof. unfold String.rev. rewrite rev_app_rev_app. simpl. apply append_nil_r. Qed.

Lemma rev_app_nonempty (w acc : string) : acc ≠ "" → String.rev_app w acc ≠ "".
Proof. revert acc. induction w as [|c w IH]; intros acc Hacc; [done|]. simpl. by apply IH. Qed.

Lemma string_forall_rev_app p (w acc : string) :
  string_forall p (String.rev_app w acc) = string_forall p w && string_forall p acc.
Proof.
  revert acc. induction w as [|c w IH]; intros acc; [done|].
  simpl. rewrite IH. simpl. by destruct (p c), (string_forall p w).
Qed.

(** Reading a word moves it, reversed, into the accumulator. *)
Lemma split_go_word (w cur s : string) :
  string_forall (λ c, negb (isspace c)) w = true →
  split_go cur (w +:+ s) = split_go (String.rev_app w cur) s.
Proof.
  revert cur. induction w as [|c w IH]; intros cur Hw; [done|].
  rewrite append_cons. simpl in *. apply andb_true_iff in Hw as [Hc Hw].
  destruct (isspace c); [done|]. by apply IH.
Qed.

Lemma split_word (w : string) : is_word_token w → split w = [w].
Proof.
  intros [Hne Hw]. unfold split. rewrite <-(append_nil_r w) at 1.
  rewrite split_go_word by done. simpl.
  rewrite decide_False, rev_rev_app; [done|].
  destruct w as [|c w]; [done|]. simpl. by apply rev_app_nonempty.
Qed.

Lemma split_word_space (w s : string) :
  is_word_token w → split (w +:+ String " " s) = w :: split s.
Proof.
  intros [Hne Hw]. unfold split. rewrite split_go_word by done. simpl.
  rewrite decide_False, rev_rev_app; [done|].
  destruct w as [|c w]; [done|]. simpl. by apply rev_app_nonempty.
Qed.

(** Joining words with single spaces and splitting the result at
    white space gives the words back. *)
Lemma split_join_words (ws : list string) :
  Forall is_word_token ws → split (join " " ws) = ws.
Proof.
  unfold join. induction 1 as [|w ws Hw Hws IH]; [done|].
  destruct ws as [|w2 ws].
  - simpl. by apply split_word.
  - change (String.concat " " (w :: w2 :: ws))
      with (w +:+ String " " (String.concat " " (w2 :: ws))).
    rewrite split_word_space by done. by rewrite IH.
Qed.

(** ** The first definition of [preprocess_text] *)

Lemma length_bigrams (tokens : list string) : length (bigrams tokens) = (length tokens - 1)%nat.
Proof.
  induction tokens as [|a [|b rest] IH]; [done..|].
  change (bigrams (a :: b :: rest)) with ((a +:+ "_" +:+ b) :: bigrams (b :: rest)).
  simpl in *. rewrite IH. lia.
Qed.

Lemma length_trigrams (tokens : list string) :
  length (trigrams tokens) = (length tokens - 2)%nat.
Proof.
  induction tokens as [|a [|b [|c rest]] IH]; [done..|].
  change (trigrams (a :: b :: c :: rest))
    with ((a +:+ "_" +:+ b +:+ "_" +:+ c) :: trigrams (b :: c :: rest)).
  simpl in *. rewrite IH. lia.
Qed.

Lemma is_word_token_glue (a b : string) :
  is_word_token a → is_word_token b → is_word_token (a +:+ "_" +:+ b).
Proof.
  intros [Ha Hsa] [Hb Hsb]. split.
  - destruct a; [done|]. by rewrite append_cons.
  - rewrite !string_forall_app, Hsa, Hsb. done.
Qed.

Lemma bigrams_words (tokens : list string) :
  Forall is_word_token tokens → Forall is_word_token (bigrams tokens).
Proof.
  induction 1 as [|a rest Ha Hrest IH]; [constructor|].
  destruct Hrest as [|b rest Hb Hrest]; [constructor|].
  change (bigrams (a :: b :: rest)) with ((a +:+ "_" +:+ b) :: bigrams (b :: rest)).
  constructor; [by apply is_word_token_glue|done].
Qed.

Lemma trigrams_words (tokens : list string) :
  Forall is_word_token tokens → Forall is_word_token (trigrams tokens).
Proof.
  induction 1 as [|a rest Ha Hrest IH]; [constructor|].
  destruct Hrest as [|b rest Hb Hrest]; [constructor|].
  destruct Hrest as [|c rest Hc Hrest]; [constructor|].
  change (trigrams (a :: b :: c :: rest))
    with ((a +:+ "_" +:+ b +:+ "_" +:+ c) :: trigrams (b :: c :: rest)).
  constructor; [|done].
  apply is_word_token_glue; [done|]. by apply is_word_token_glue.
Qed.

(** X17: when the surviving lemmas are words, the first definition
    returns the empty string if fewer than two survive, and otherwise the
    lemmas, their [n-1] bigrams and their [n-2] trigrams joined by
    spaces, in this order. *)
Theorem preprocess_text_1_ngrams
    (word_tokenize : string → outcome (list string))
    (lemmatize : string → outcome string)
    (english_stopwords : list string) (text : pyobj) (s : string)
    (tokens toks : list string) :
  to_str text = Ret s →
  word_tokenize (clean_1 s) = Ret tokens →
  lemmatize_tokens lemmatize english_stopwords tokens = Ret toks →
  Forall is_word_token toks →
  length (bigrams toks) = (length toks - 1)%nat ∧
  length (trigrams toks) = (length toks - 2)%nat ∧
  preprocess_text_1 word_tokenize lemmatize english_stopwords text =
    Ret (if decide (length toks < 2)%nat then ""
         else join " " (toks ++ bigrams toks ++ trigrams toks)).
Proof.
  intros Hs Htok Hlem Hwords.
  split; [apply length_bigrams|]. split; [apply length_trigrams|].
  unfold preprocess_text_1, preprocess_text_1_body, try_except, mbind, outcome_bind.
  rewrite Hs. unfold clean_1 in Htok. rewrite Htok, Hlem. cbv zeta.
  rewrite split_join_words.
  - rewrite !length_app, length_bigrams, length_trigrams.
    destruct (decide (length toks < 2)%nat) as [Hlt|Hge].
    + assert ((length toks + (length toks - 1 + (length toks - 2)) <? 3)%nat = true) as ->
        by (apply Nat.ltb_lt; lia). done.
    + assert ((length toks + (length toks - 1 + (length toks - 2)) <? 3)%nat = false) as ->
        by (apply Nat.ltb_ge; lia). done.
  - rewrite !Forall_app. auto using bigrams_words, trigrams_words.
Qed.

Lemma preprocess_text_1_ngrams_witness :
  preprocess_text_1 Sample.word_tokenize Sample.lemmatize Sample.english_stopwords
    (PyStr "Bank fraud, call 9876543210") = Ret "bank fraud call bank_fraud fraud_call bank_fraud_call".
Proof.
  refine (proj2 (proj2 (preprocess_text_1_ngrams Sample.word_tokenize Sample.lemmatize
    Sample.english_stopwords (PyStr "Bank fraud, call 9876543210")
    "Bank fraud, call 9876543210" ["bank"; "fraud"; "call"] ["bank"; "fraud"; "call"]
    _ _ _ _))).
  - reflexivity.
  - by vm_compute.
  - by vm_compute.
  - repeat constructor; by vm_compute.
Defined.

(** ** Text cleaner *)

Lemma string_forall_impl (p q : ascii → bool) (s : string) :
  (∀ c, p c = true → q c = true) → string_forall p s = true → string_forall q s = true.
Proof.
  intros Hpq. induction s as [|c s IH]; [done|]. simpl.
  intros [Hc Hs]%andb_true_iff. by rewrite (Hpq _ Hc), IH.
Qed.

Lemma string_forall_map (p : ascii → bool) (f : ascii → ascii) (s : string) :
  string_forall p (string_map f s) = string_forall (λ c, p (f c)) s.
Proof. induction s as [|c s IH]; [done|]. simpl. by rewrite IH. Qed.

Lemma string_map_fixed (f : ascii → ascii) (s : string) :
  string_forall (λ c, bool_decide (f c = c)) s = true → string_map f s = s.
Proof.
  induction s as [|c s IH]; [done|]. simpl.
  intros [Hc%bool_decide_eq_true Hs]%andb_true_iff. by rewrite Hc, IH.
Qed.

Lemma string_forall_join (p : ascii → bool) (ws : list string) :
  p " "%char = true → Forall (λ w, string_forall p w = true) ws →
  string_forall p (join " " ws) = true.
Proof.
  intros Hsp. unfold join. induction 1 as [|w ws Hw Hws IH]; [done|].
  destruct ws as [|w2 ws]; [done|].
  change (String.concat " " (w :: w2 :: ws))
    with (w +:+ String " " (String.concat " " (w2 :: ws))).
  rewrite string_forall_app, Hw. cbn [string_forall andb]. by rewrite Hsp, IH.
Qed.

(** The words [str.split] returns are not empty and are made of the
    characters of the text that are no white space. *)
Lemma split_go_words (p : ascii → bool) (cur s : string) :
  string_forall (λ c, p c && negb (isspace c)) cur = true →
  string_forall (λ c, p c || isspace c) s = true →
  Forall (λ w, w ≠ "" ∧ string_forall (λ c, p c && negb (isspace c)) w = true)
    (split_go cur s).
Proof.
  assert (∀ cur, string_forall (λ c, p c && negb (isspace c)) cur = true →
    Forall (λ w, w ≠ "" ∧ string_forall (λ c, p c && negb (isspace c)) w = true)
      (if decide (cur = "") then [] else [String.rev cur])) as Hflush.
  { intros cur' Hcur. case_decide as Hne; [constructor|].
    constructor; [|constructor]. split.
    - destruct cur' as [|c cur']; [done|]. unfold String.rev. simpl.
      by apply rev_app_nonempty.
    - unfold String.rev. by rewrite string_forall_rev_app, Hcur. }
  revert cur. induction s as [|c s IH]; intros cur Hcur Hs.
  - by apply Hflush.
  - simpl in Hs. apply andb_true_iff in Hs as [Hc Hs]. simpl.
    destruct (isspace c) eqn:Hsp.
    + apply Forall_app. split; [by apply Hflush|]. by apply IH.
    + apply IH; [|done]. simpl. rewrite Hcur, Hsp.
      rewrite orb_false_r in Hc. by rewrite Hc.
Qed.

Lemma cleaned_char (c : ascii) :
  let d := lower_char c in
  let e := if isword d || isspace d then d else " "%char in
  isdigit e || clean_char e || isspace e = true.
Proof. by destruct c as [[] [] [] [] [] [] [] []]. Qed.

Lemma clean_char_nonspace (c : ascii) : clean_char c = true → isspace c = false.
Proof. by destruct c as [[] [] [] [] [] [] [] []]. Qed.

Lemma clean_char_word (c : ascii) : clean_char c = true → isword c || isspace c = true.
Proof. by destruct c as [[] [] [] [] [] [] [] []]. Qed.

Lemma string_forall_sub_digit_runs (b : bool) (s : string) :
  string_forall (λ c, isdigit c || clean_char c || isspace c) s = true →
  string_forall (λ c, clean_char c || isspace c) (sub_digit_runs_go b s) = true.
Proof.
  revert b. induction s as [|c s IH]; intros b; [done|]. simpl.
  intros [Hc Hs]%andb_true_iff. destruct (isdigit c) eqn:Hd.
  - destruct b; simpl; by rewrite ?IH.
  - simpl. rewrite IH by done. simpl in Hc. by rewrite Hc.
Qed.

Lemma sub_digit_runs_fixed (b : bool) (s : string) :
  string_forall (λ c, negb (isdigit c)) s = true → sub_digit_runs_go b s = s.
Proof.
  revert b. induction s as [|c s IH]; intros b; [done|]. simpl.
  intros [Hc Hs]%andb_true_iff. apply negb_true_iff in Hc. rewrite Hc.
  by rewrite IH.
Qed.

Lemma clean_word_token (w : string) : clean_word w → is_word_token w.
Proof.
  intros [Hne Hw]. split; [done|].
  eapply string_forall_impl; [|exact Hw].
  intros c Hc. by rewrite (clean_char_nonspace c Hc).
Qed.

Lemma join_words_nonempty (w : string) (ws : list string) :
  w ≠ "" → join " " (w :: ws) ≠ "".
Proof.
  intros Hw. unfold join. destruct ws as [|w2 ws]; [done|].
  change (String.concat " " (w :: w2 :: ws))
    with (w +:+ String " " (String.concat " " (w2 :: ws))).
  destruct w; [done|]. by rewrite append_cons.
Qed.

Lemma rstrip_cons (c : ascii) (s : string) :
  rstrip (String c s) =
  if isspace c && bool_decide (rstrip s = "") then "" else String c (rstrip s).
Proof. reflexivity. Qed.

Lemma rstrip_nonspace (w : string) :
  string_forall (λ c, negb (isspace c)) w = true → rstrip w = w.
Proof.
  induction w as [|c w IH]; [done|]. simpl.
  intros [Hc Hw]%andb_true_iff. apply negb_true_iff in Hc. rewrite Hc. simpl.
  by rewrite IH.
Qed.

Lemma rstrip_app (a t : string) : rstrip t ≠ "" → rstrip (a +:+ t) = a +:+ rstrip t.
Proof.
  intros Ht. induction a as [|c a IH]; [done|].
  rewrite !append_cons. simpl. rewrite IH.
  rewrite bool_decide_eq_false_2, andb_false_r; [done|].
  destruct a; [done|]. by rewrite append_cons.
Qed.

Lemma rstrip_join_words (ws : list string) :
  Forall is_word_token ws → rstrip (join " " ws) = join " " ws.
Proof.
  unfold join. induction 1 as [|w ws [Hne Hw] Hws IH]; [done|].
  destruct ws as [|w2 ws].
  - simpl. by apply rstrip_nonspace.
  - change (String.concat " " (w :: w2 :: ws))
      with (w +:+ String " " (String.concat " " (w2 :: ws))).
    assert (rstrip (String " " (String.concat " " (w2 :: ws))) =
            String " " (String.concat " " (w2 :: ws))) as Hr.
    { rewrite rstrip_cons, IH. rewrite bool_decide_eq_false_2; [done|].
      apply join_words_nonempty. by inversion Hws as [|?? []]. }
    rewrite rstrip_app; rewrite Hr; done.
Qed.

Lemma lstrip_join_words (ws : list string) :
  Forall is_word_token ws → lstrip (join " " ws) = join " " ws.
Proof.
  unfold join. destruct 1 as [|w ws [Hne Hw] Hws]; [done|].
  destruct w as [|c w]; [done|].
  simpl in Hw. apply andb_true_iff in Hw as [Hc Hw]. apply negb_true_iff in Hc.
  destruct ws as [|w2 ws].
  - simpl. by rewrite Hc.
  - change (String.concat " " (String c w :: w2 :: ws))
      with (String c (w +:+ String " " (String.concat " " (w2 :: ws)))).
    simpl. by rewrite Hc.
Qed.

Lemma strip_join_words (ws : list string) :
  Forall is_word_token ws → strip (join " " ws) = join " " ws.
Proof.
  intros Hws. unfold strip. by rewrite lstrip_join_words, rstrip_join_words.
Qed.

Lemma clean_text_pipeline_chars (s : string) :
  string_forall (λ c, clean_char c || isspace c)
    (sub_digit_runs (sub_non_word_space (lower s))) = true.
Proof.
  apply string_forall_sub_digit_runs.
  unfold sub_non_word_space, lower. rewrite !string_forall_map.
  induction s as [|c s IH]; [done|]. cbn [string_forall]. rewrite IH, andb_true_r.
  exact (cleaned_char c).
Qed.

Lemma clean_text_fixed (ws : list string) :
  Forall clean_word ws →
  TextCleaner.clean_text (Value (PyStr (join " " ws))) = Ret (join " " ws).
Proof.
  intros Hws.
  assert (Forall (λ w, string_forall clean_char w = true) ws) as Hchars
    by (eapply list.Forall_impl; [exact Hws|by intros ? []]).
  assert (Forall is_word_token ws) as Htok
    by (eapply list.Forall_impl; [exact Hws|apply clean_word_token]).
  unfold TextCleaner.clean_text. simpl to_str. unfold mbind, outcome_bind. cbv zeta.
  assert (lower (join " " ws) = join " " ws) as ->.
  { apply string_map_fixed, string_forall_join; [done|].
    eapply list.Forall_impl; [exact Hchars|]. intros w. apply string_forall_impl.
    intros c Hc. unfold clean_char in Hc. by apply andb_true_iff in Hc as [_ ->]. }
  assert (sub_non_word_space (join " " ws) = join " " ws) as ->.
  { apply string_map_fixed, string_forall_join; [done|].
    eapply list.Forall_impl; [exact Hchars|]. intros w. apply string_forall_impl.
    intros c Hc. by rewrite (clean_char_word c Hc), bool_decide_eq_true_2. }
  assert (sub_digit_runs (join " " ws) = join " " ws) as ->.
  { apply sub_digit_runs_fixed, string_forall_join; [done|].
    eapply list.Forall_impl; [exact Hchars|]. intros w. apply string_forall_impl.
    intros c Hc. unfold clean_char in Hc.
    by apply andb_true_iff in Hc as [[_ ->]%andb_true_iff _]. }
  by rewrite split_join_words, strip_join_words.
Qed.

(** The words [clean_text] joins. *)
Lemma clean_text_tokens_words (s : string) :
  Forall clean_word (split (sub_digit_runs (sub_non_word_space (lower s)))).
Proof.
  pose proof (split_go_words clean_char ""
    (sub_digit_runs (sub_non_word_space (lower s))) eq_refl
    (clean_text_pipeline_chars s)) as Hw.
  eapply list.Forall_impl; [exact Hw|]. intros w [Hne Hw']. split; [done|].
  eapply string_forall_impl; [|exact Hw']. by intros c [-> _]%andb_true_iff.
Qed.

Lemma clean_text_str (s : string) :
  TextCleaner.clean_text (Value (PyStr s)) =
    Ret (join " " (split (sub_digit_runs (sub_non_word_space (lower s))))).
Proof.
  unfold TextCleaner.clean_text. simpl to_str. unfold mbind, outcome_bind. cbv zeta.
  f_equal. apply strip_join_words.
  eapply list.Forall_impl; [apply clean_text_tokens_words|apply clean_word_token].
Qed.

(** X18: on a [str], [clean_text] does not raise and returns words
    joined by single spaces, without white space at either end; a word is
    not empty and is made of word characters that are no ASCII digits and
    that [str.lower] leaves as they are. *)
Theorem clean_text_words (s : string) :
  ∃ ws, TextCleaner.clean_text (Value (PyStr s)) = Ret (join " " ws) ∧
        Forall clean_word ws ∧
        strip (join " " ws) = join " " ws.
Proof.
  exists (split (sub_digit_runs (sub_non_word_space (lower s)))).
  pose proof (clean_text_tokens_words s) as Hws.
  split; [apply clean_text_str|]. split; [exact Hws|].
  apply strip_join_words.
  eapply list.Forall_impl; [exact Hws|apply clean_word_token].
Qed.

(** X19: [clean_text] is idempotent: cleaning what it returned, for a
    missing value, a string or any other scalar, returns the same text. *)
Theorem clean_text_idempotent (text : cell) (out : string) :
  TextCleaner.clean_text text = Ret out →
  TextCleaner.clean_text (Value (PyStr out)) = Ret out.
Proof.
  destruct text as [|o]; simpl.
  - by intros [= <-].
  - destruct (to_str o) as [s|e] eqn:Hs; [|done].
    unfold mbind, outcome_bind. cbv zeta. intros Hout.
    pose proof (clean_text_str s) as Hret.
    unfold TextCleaner.clean_text in Hret. simpl to_str in Hret.
    unfold mbind, outcome_bind in Hret. cbv zeta in Hret.
    rewrite Hret in Hout. injection Hout as <-.
    apply clean_text_fixed, clean_text_tokens_words.
Qed.

Lemma clean_text_idempotent_witness :
  TextCleaner.clean_text (Value (PyStr " Lost  Rs.5000 via UPI-fraud!! ")) =
    Ret "lost rs via upi fraud" ∧
  TextCleaner.clean_text (Value (PyStr "lost rs via upi fraud")) =
    Ret "lost rs via upi fraud".
Proof.
  split; [by vm_compute|].
  apply (clean_text_idempotent (Value (PyStr " Lost  Rs.5000 via UPI-fraud!! "))).
  by vm_compute.
Defined.

(** ** Data cleaning *)

Lemma clean_dataframe_run (text_dtype : dtype) (df : list raw_row) (is_training : bool) :
  let n0 := Z.of_nat (length df) in
  let d1 := filter keeps_text df in
  let n1 := Z.of_nat (length d1) in
  let d2 := cleaned_row <$> d1 in
  let d3 := drop_duplicates d2 in
  let n3 := Z.of_nat (length d3) in
  let d4 := filter long_enough d3 in
  let n4 := Z.of_nat (length d4) in
  let common_report :=
    [ReportEntry "Initial shape" "Initial dataset loaded" n0 n0 (n0 - n0);
     ReportEntry "Remove empty texts" "Removed empty texts" n0 n1 (n0 - n1);
     ReportEntry "Fill missing values" "Filled missing values" n1 n1 (n1 - n1);
     ReportEntry "Convert to string" "Converted text to string" n1 n1 (n1 - n1);
     ReportEntry "Clean special characters" "Cleaned special characters" n1 n1 (n1 - n1)] in
  clean_dataframe text_dtype df is_training =
    match str_accessor text_dtype with
    | Raise e => Raise e
    | Ret _ =>
        if is_training
        then Ret (d4, common_report ++
                   [ReportEntry "Remove duplicates" "Removed duplicate texts" n1 n3 (n1 - n3);
                    ReportEntry "Remove very short texts" "Removed very short texts"
                      n3 n4 (n3 - n4)])
        else Ret (d2, common_report)
    end.
Proof.
  intros n0 d1 n1 d2 d3 n3 d4 n4 common_report.
  assert (assign_text (fmap replace_special) <$> (assign_text astype_str <$> (fillna <$> d1))
          = d2) as Hd2.
  { unfold d2. by rewrite <-!list_fmap_compose. }
  subst n0 n1 d2 d3 n3 d4 n4 common_report. subst d1.
  unfold clean_dataframe, cleaning_steps, remove_empty_texts.
  destruct is_training;
    cbn [app foldlM run_step step_func step_name step_desc mbind outcome_bind str_accessor];
    (destruct text_dtype; [|reflexivity]);
    cbn [app foldlM run_step step_func step_name step_desc mbind outcome_bind str_accessor];
    rewrite ?length_fmap, ?Hd2; reflexivity.
Qed.

Lemma cleaned_row_eq (r : raw_row) :
  cleaned_row r =
    RawRow (Some (replace_special (default "" (raw_crimeaditionalinfo r))))
           (Some (default "Unknown" (raw_category r)))
           (Some (default "Unknown" (raw_sub_category r))).
Proof. by destruct r as [[?|] ? ?]. Qed.

Lemma replace_special_plain (s : string) : string_forall is_plain (replace_special s) = true.
Proof.
  unfold replace_special. rewrite string_forall_map.
  induction s as [|c s IH]; [done|]. cbn [string_forall]. rewrite IH, andb_true_r.
  destruct (is_plain c) eqn:Hc; [exact Hc|reflexivity].
Qed.

Lemma drop_duplicates_go_sublist (seen : list (option string)) (x : list raw_row) :
  drop_duplicates_go seen x `sublist_of` x.
Proof.
  revert seen. induction x as [|r x IH]; intros seen; simpl; [done|].
  case_bool_decide; [by apply sublist_cons|by apply sublist_skip].
Qed.

Lemma drop_duplicates_go_NoDup (seen : list (option string)) (x : list raw_row) :
  NoDup (raw_crimeaditionalinfo <$> drop_duplicates_go seen x) ∧
  ∀ r, r ∈ drop_duplicates_go seen x → raw_crimeaditionalinfo r ∉ seen.
Proof.
  revert seen. induction x as [|r x IH]; intros seen; simpl.
  - split; [constructor|]. by intros r ?%elem_of_nil.
  - case_bool_decide as Hseen; [apply IH|].
    destruct (IH (raw_crimeaditionalinfo r :: seen)) as [Hnd Hout]. split.
    + rewrite fmap_cons. constructor; [|done].
      intros (r' & Heq & Hr')%list_elem_of_fmap.
      apply (Hout r' Hr'). rewrite <-Heq. by left.
    + intros r' [->|Hr']%elem_of_cons; [done|].
      intros Hin. apply (Hout r' Hr'). by right.
Qed.

(** Every text of a frame is present. *)
Lemma texts_present (df : list raw_row) :
  Forall (λ r, is_Some (raw_crimeaditionalinfo r)) df →
  raw_crimeaditionalinfo <$> df = Some <$> texts df.
Proof.
  unfold texts. induction 1 as [|r df [t Hr] Hdf IH]; [done|].
  rewrite !fmap_cons, IH, Hr. done.
Qed.

Lemma duplicated_go_NoDup (seen l : list string) :
  NoDup l → (∀ s, s ∈ l → s ∉ seen) → count_true (duplicated_go seen l) = 0%Z.
Proof.
  unfold count_true. intros Hnd. revert seen.
  induction Hnd as [|s l Hs Hnd IH]; intros seen Hseen; [done|]. simpl.
  rewrite bool_decide_eq_false_2 by (apply Hseen; by left).
  rewrite filter_cons_False by (intros []).
  apply IH. intros s' Hs' [->|Hin]%elem_of_cons; [done|].
  apply (Hseen s'); [by right|done].
Qed.

Lemma count_true_none {A} (f : A → bool) (l : list A) :
  Forall (λ x, f x = false) l → count_true (f <$> l) = 0%Z.
Proof.
  unfold count_true. induction 1 as [|x l Hx Hl IH]; [done|].
  rewrite fmap_cons, filter_cons_False; [done|]. rewrite Hx. intros [].
Qed.

Lemma detect_potential_issues_lookup (text_column : list string) :
  detect_potential_issues text_column !! "duplicate_texts"
    = Some (count_true (duplicated text_column)) ∧
  detect_potential_issues text_column !! "very_short_texts"
    = Some (count_true ((λ s, bool_decide (String.length s < 20)%nat) <$> text_column)) ∧
  detect_potential_issues text_column !! "potential_noise"
    = Some (count_true ((λ s, negb (string_forall is_plain s)) <$> text_column)).
Proof. unfold detect_potential_issues. by repeat split; simplify_map_eq. Qed.

(** What the records of a frame cleaned for training look like. *)
Lemma training_frame_rows (df : list raw_row) :
  Forall (λ r, ∃ t c s, r = RawRow (Some t) (Some c) (Some s) ∧
                        (20 ≤ String.length t)%nat ∧ string_forall is_plain t = true)
    (filter long_enough (drop_duplicates (cleaned_row <$> df))).
Proof.
  apply Forall_forall. intros r [Hlong Hr]%list_elem_of_In%list_elem_of_filter.
  assert (r ∈ cleaned_row <$> df) as (r0 & -> & _)%list_elem_of_fmap.
  { eapply elem_of_sublist; [exact Hr|]. apply drop_duplicates_go_sublist. }
  rewrite cleaned_row_eq in *. eexists _, _, _. split; [done|].
  split; [exact Hlong|apply replace_special_plain].
Qed.

Lemma training_frame_NoDup (df : list raw_row) :
  NoDup (raw_crimeaditionalinfo <$> filter long_enough (drop_duplicates df)).
Proof.
  eapply sublist_NoDup; [apply (drop_duplicates_go_NoDup [] df)|].
  apply fmap_sublist, sublist_filter.
Qed.

(** X20: the cleaning report of [clean_dataframe] has one entry for each
    cleaning step, in order, five for test data and seven for training
    data. The row counts chain: the first entry starts from the size of
    the input, every entry starts where the one before it ended, and the
    last one ends at the size of the returned frame. No step adds a
    record, only 'Remove empty texts', 'Remove duplicates' and 'Remove
    very short texts' remove any, and the removed counts add up to the
    difference in size between the input and the result. *)
Theorem clean_dataframe_report (text_dtype : dtype) (df : list raw_row)
    (is_training : bool) (out : list raw_row) (report : list report_entry) :
  clean_dataframe text_dtype df is_training = Ret (out, report) →
  step <$> report = ["Initial shape"; "Remove empty texts"; "Fill missing values";
                     "Convert to string"; "Clean special characters"]
                    ++ (if is_training
                        then ["Remove duplicates"; "Remove very short texts"] else []) ∧
  (rows_before <$> report) ++ [Z.of_nat (length out)]
    = Z.of_nat (length df) :: (rows_after <$> report) ∧
  Forall (λ e, rows_removed e = (rows_before e - rows_after e)%Z ∧
               (0 ≤ rows_removed e)%Z ∧
               (step e ∉ ["Remove empty texts"; "Remove duplicates";
                          "Remove very short texts"] → rows_removed e = 0%Z)) report ∧
  foldr Z.add 0%Z (rows_removed <$> report)
    = (Z.of_nat (length df) - Z.of_nat (length out))%Z.
Proof.
  rewrite clean_dataframe_run. cbv zeta.
  destruct text_dtype; [|done]. cbn [str_accessor].
  set (d1 := filter keeps_text df).
  set (d3 := drop_duplicates (cleaned_row <$> d1)).
  set (d4 := filter long_enough d3).
  assert (length d1 ≤ length df)%nat as H1 by apply length_filter.
  assert (length d3 ≤ length d1)%nat as H2.
  { etrans; [apply sublist_length, drop_duplicates_go_sublist|]. by rewrite length_fmap. }
  assert (length d4 ≤ length d3)%nat as H3 by apply length_filter.
  clearbody d4. clearbody d3. clearbody d1.
  destruct is_training; intros [= <- <-];
    (split; [done|]);
    (split; [by rewrite ?length_fmap|]);
    (split; [|simpl; rewrite ?length_fmap; lia]);
    repeat (constructor; [cbn [rows_removed rows_before rows_after step]; split; [done|];
                          split; [lia|];
                          intros Hn; try lia; exfalso; apply Hn; repeat constructor|]);
    constructor.
Qed.

Lemma clean_dataframe_report_witness :
  ∃ out report,
    clean_dataframe object
      [RawRow (Some "money taken from my bank account") None (Some "UPI");
       RawRow (Some "   ") (Some "Fraud") None;
       RawRow None (Some "Fraud") (Some "UPI")] true = Ret (out, report) ∧
    foldr Z.add 0%Z (rows_removed <$> report) = (3 - Z.of_nat (length out))%Z.
Proof.
  eexists _, _. split; [by vm_compute|].
  exact (proj2 (proj2 (proj2 (clean_dataframe_report object
    [RawRow (Some "money taken from my bank account") None (Some "UPI");
     RawRow (Some "   ") (Some "Fraud") None;
     RawRow None (Some "Fraud") (Some "UPI")] true _ _ eq_refl)))).
Defined.

(** X21: [clean_dataframe] raises only when the text column has no
    [.str] accessor, and then the [AttributeError] of the accessor. For
    test data with a text column of strings it returns the cleaned forms
    of the records whose text is missing or has a character that is no
    white space, in their order: a record without text is not removed by
    'Remove empty texts', which runs before the missing values are
    filled; it stays in the test frame with the empty text, and with
    'Unknown' for a missing label. *)
Theorem clean_dataframe_test_frame (text_dtype : dtype) (df : list raw_row) :
  match clean_dataframe text_dtype df false with
  | Raise e => text_dtype = numeric ∧ ∃ msg, e = AttributeError msg
  | Ret (out, _) =>
      text_dtype = object ∧
      out = cleaned_row <$> filter keeps_text df ∧
      ∀ r, r ∈ df → raw_crimeaditionalinfo r = None →
           RawRow (Some "") (Some (default "Unknown" (raw_category r)))
                  (Some (default "Unknown" (raw_sub_category r))) ∈ out
  end.
Proof.
  rewrite clean_dataframe_run. cbv zeta.
  destruct text_dtype; cbn [str_accessor]; [|by split; [|eexists]].
  split; [done|]. split; [done|].
  intros r Hr Hnone. apply list_elem_of_fmap. exists r.
  split; [by rewrite cleaned_row_eq, Hnone|].
  apply list_elem_of_filter. split; [by rewrite Hnone|done].
Qed.

(** X22: in the frame [clean_dataframe] returns for training data no
    cell is missing, every text has 20 characters or more and only
    characters the special-character pattern does not match, no two
    records have the same text, and the records are, in their order,
    among those the same frame gives as test data. *)
Theorem clean_dataframe_training_frame (text_dtype : dtype) (df out : list raw_row)
    (report : list report_entry) :
  clean_dataframe text_dtype df true = Ret (out, report) →
  Forall (λ r, ∃ t c s, r = RawRow (Some t) (Some c) (Some s) ∧
                        (20 ≤ String.length t)%nat ∧ string_forall is_plain t = true) out ∧
  NoDup (texts out) ∧
  ∃ test_report test_out,
    clean_dataframe text_dtype df false = Ret (test_out, test_report) ∧
    out `sublist_of` test_out.
Proof.
  rewrite !clean_dataframe_run. cbv zeta.
  destruct text_dtype; cbn [str_accessor]; [|done]. intros [= <- _].
  pose proof (training_frame_rows (filter keeps_text df)) as Hrows.
  split; [exact Hrows|]. split.
  - apply (NoDup_fmap_1 Some). rewrite <-texts_present.
    + apply training_frame_NoDup.
    + eapply list.Forall_impl; [exact Hrows|].
      by intros r (t & c & s & -> & _).
  - eexists _, _. split; [done|].
    etrans; [apply sublist_filter|]. apply drop_duplicates_go_sublist.
Qed.

Lemma clean_dataframe_training_frame_witness :
  ∃ out report,
    clean_dataframe object
      [RawRow (Some "money taken from my bank account") None (Some "UPI");
       RawRow (Some "   ") (Some "Fraud") None;
       RawRow None (Some "Fraud") (Some "UPI")] true = Ret (out, report) ∧
    NoDup (texts out).
Proof.
  eexists _, _. split; [by vm_compute|].
  apply (clean_dataframe_training_frame object
    [RawRow (Some "money taken from my bank account") None (Some "UPI");
     RawRow (Some "   ") (Some "Fraud") None;
     RawRow None (Some "Fraud") (Some "UPI")] _ _ eq_refl).
Defined.

(** X23: on a frame [clean_dataframe] returned for training data,
    [detect_potential_issues] finds no duplicate text, no very short text
    and no potential noise. *)
Theorem cleaned_training_frame_issues (text_dtype : dtype) (df out : list raw_row)
    (report : list report_entry) :
  clean_dataframe text_dtype df true = Ret (out, report) →
  detect_potential_issues (texts out) !! "duplicate_texts" = Some 0%Z ∧
  detect_potential_issues (texts out) !! "very_short_texts" = Some 0%Z ∧
  detect_potential_issues (texts out) !! "potential_noise" = Some 0%Z.
Proof.
  rewrite clean_dataframe_run. cbv zeta.
  destruct text_dtype; cbn [str_accessor]; [|done]. intros [= <- _].
  pose proof (training_frame_rows (filter keeps_text df)) as Hrows.
  destruct (detect_potential_issues_lookup
    (texts (filter long_enough (drop_duplicates (cleaned_row <$> filter keeps_text df)))))
    as (-> & -> & ->).
  repeat split; f_equal.
  - apply duplicated_go_NoDup; [|by intros s _ ?%elem_of_nil].
    apply (NoDup_fmap_1 Some). rewrite <-texts_present; [apply training_frame_NoDup|].
    eapply list.Forall_impl; [exact Hrows|]. by intros r (t & c & s & -> & _).
  - apply count_true_none. unfold texts. apply Forall_fmap.
    eapply list.Forall_impl; [exact Hrows|].
    intros r (t & c & s & -> & Hlen & _). simpl.
    apply bool_decide_eq_false_2. lia.
  - apply count_true_none. unfold texts. apply Forall_fmap.
    eapply list.Forall_impl; [exact Hrows|].
    intros r (t & c & s & -> & _ & Hplain). simpl. by rewrite Hplain.
Qed.

Lemma cleaned_training_frame_issues_witness :
  ∃ out report,
    clean_dataframe object
      [RawRow (Some "money taken from my bank account") None (Some "UPI");
       RawRow (Some "money taken from my bank account") (Some "Fraud") None;
       RawRow (Some "lost ~5000") (Some "Fraud") (Some "UPI")] true
      = Ret (out, report) ∧
    detect_potential_issues (texts out) !! "duplicate_texts" = Some 0%Z.
Proof.
  eexists _, _. split; [by vm_compute|].
  apply (cleaned_training_frame_issues object
    [RawRow (Some "money taken from my bank account") None (Some "UPI");
     RawRow (Some "money taken from my bank account") (Some "Fraud") None;
     RawRow (Some "lost ~5000") (Some "Fraud") (Some "UPI")] _ _ eq_refl).
Defined.

(** Cleaning is not idempotent: a text of special characters becomes a
    text of spaces, which a second cleaning removes as empty. *)
Example clean_dataframe_twice :
  fst <$> clean_dataframe object
            [RawRow (Some "~~~~~~~~~~~~~~~~~~~~") (Some "Fraud") (Some "UPI")] true
    = Ret [RawRow (Some "                    ") (Some "Fraud") (Some "UPI")] ∧
  fst <$> clean_dataframe object
            [RawRow (Some "                    ") (Some "Fraud") (Some "UPI")] true
    = Ret [].
Proof. split; by vm_compute. Qed.

(** ** Class weights *)

Lemma StronglySorted_seqZ (m : Z) (n : nat) : StronglySorted Z.le (seqZ m (Z.of_nat n)).
Proof.
  induction n as [|n IH]; [constructor|].
  rewrite seqZ_S. apply StronglySorted_app_2; [|done|repeat constructor].
  intros x1 x2 Hx1%elem_of_seqZ ->%list_elem_of_singleton. lia.
Qed.

Lemma np_unique_ids_range (ids : list Z) (k : nat) :
  (∀ i, i ∈ ids ↔ (0 ≤ i < Z.of_nat k)%Z) → np_unique_ids ids = seqZ 0 (Z.of_nat k).
Proof.
  intros Hids. unfold np_unique_ids.
  apply (StronglySorted_unique Z.le).
  - apply StronglySorted_merge_sort; apply _.
  - apply StronglySorted_seqZ.
  - rewrite merge_sort_Permutation.
    apply NoDup_Permutation; [apply NoDup_remove_dups|apply NoDup_seqZ|].
    intros i. rewrite elem_of_remove_dups, elem_of_seqZ, Hids. lia.
Qed.

Lemma foldr_max_bounds (ids : list Z) :
  (∀ i, i ∈ ids → (i ≤ foldr Z.max (-1) ids)%Z) ∧
  (foldr Z.max (-1)%Z ids = (-1)%Z ∨ foldr Z.max (-1)%Z ids ∈ ids).
Proof.
  induction ids as [|a ids [IH1 IH2]]; simpl.
  - split; [by intros i ?%elem_of_nil|by left].
  - split.
    + intros i [->|Hi]%elem_of_cons; [lia|]. specialize (IH1 i Hi). lia.
    + destruct (Z.max_spec a (foldr Z.max (-1)%Z ids)) as [[_ ->]|[_ ->]].
      * destruct IH2 as [->|Hin]; [by left|right; by right].
      * right. by left.
Qed.

Lemma bincount_length (ids : list Z) (k : nat) :
  (∀ i, i ∈ ids ↔ (0 ≤ i < Z.of_nat k)%Z) → (foldr Z.max (-1) ids + 1)%Z = Z.of_nat k.
Proof.
  intros Hids. destruct (foldr_max_bounds ids) as [Hmax Hin].
  destruct Hin as [Hm|Hm%Hids].
  - destruct k as [|k]; [lia|].
    assert (Z.of_nat k ∈ ids) as Hk%Hmax by (apply Hids; lia). lia.
  - destruct k as [|k]; [lia|].
    assert (Z.of_nat k ∈ ids) as Hk%Hmax by (apply Hids; lia). lia.
Qed.

(** The number of records with the id of a class is the number of
    records with its name. *)
Lemma count_encoded (classes y : list string) (ids : list Z) (i : nat) (name : string) :
  NoDup classes → classes !! i = Some name →
  Forall2 (λ name id, encode classes name = Ret id) y ids →
  length (filter (λ j, j = Z.of_nat i) ids) = length (filter (λ l, l = name) y).
Proof.
  intros Hnd Hi. induction 1 as [|name' id y ids Henc Hrest IH]; [done|].
  destruct (decide (name' = name)) as [->|Hne].
  - rewrite (encode_lookup _ _ _ Hnd Hi) in Henc. injection Henc as <-.
    rewrite !filter_cons_True by done. simpl. by rewrite IH.
  - rewrite (filter_cons_False _ name') by done.
    rewrite filter_cons_False; [done|]. intros ->.
    apply encode_Ret_lookup in Henc as (i' & Hi'%Nat2Z.inj & Hname). subst i'.
    rewrite Hi in Hname. by injection Hname.
Qed.

Lemma dict_snoc {V} (pairs : list (Z * V)) (k : Z) (v : V) :
  dict (pairs ++ [(k, v)]) = <[k := v]> (dict pairs).
Proof. unfold dict. by rewrite foldl_app. Qed.

Lemma dict_lookup {V} (pairs : list (Z * V)) (k : Z) (v : V) :
  NoDup pairs.*1 → dict pairs !! k = Some v ↔ (k, v) ∈ pairs.
Proof.
  induction pairs as [|[k' v'] pairs IH] using rev_ind; intros Hnd.
  - unfold dict. simpl. rewrite lookup_empty. split; [done|by intros ?%elem_of_nil].
  - rewrite fmap_app in Hnd. apply list.NoDup_app in Hnd as (Hnd & Hk' & _).
    rewrite dict_snoc, elem_of_app, list_elem_of_singleton.
    destruct (decide (k = k')) as [->|Hne].
    + rewrite lookup_insert_eq. split.
      * intros [= ->]. by right.
      * intros [Hin|[= ->]]; [|done]. exfalso.
        apply (Hk' k'); [|by left]. apply list_elem_of_fmap. by exists (k', v).
    + rewrite lookup_insert_ne by done. rewrite IH by done.
      split; [by left|]. by intros [?|[= -> _]].
Qed.

(** X24: the class weights [build_model] computes from the encoded
    labels of a column are the balanced weights: with n records and k
    classes, the class with id i gets n / (k * n_i), where n_i is the
    number of records of the class that the encoder gave id i. The
    pairing of [np.unique] with [np.bincount] is right because the ids of
    a fitted encoder are 0..k-1 and each of them occurs. With a single
    class, or none, there are no class weights. *)
Theorem build_model_balanced_weights (y : list string) :
  ∃ ids gs,
    transform (fit y) y = Ret ids ∧ build_model ids = Ret gs ∧
    match class_weight gs with
    | None => (length (np_unique y) ≤ 1)%nat
    | Some w =>
        (1 < length (np_unique y))%nat ∧
        (∀ i, is_Some (w !! i) ↔ (0 ≤ i < Z.of_nat (length (np_unique y)))%Z) ∧
        ∀ (i : nat) (name : string), np_unique y !! i = Some name →
          w !! Z.of_nat i =
            Some (true_divide (Z.of_nat (length y))
                    (Z.of_nat (length (np_unique y)) *
                     Z.of_nat (length (filter (λ l, l = name) y))))
    end.
Proof.
  destruct (transform_fit y) as (ids & Hids & Hlen).
  pose proof Hids as HF. unfold transform, fit in HF. simpl in HF.
  apply mapM_encode_Forall2 in HF.
  pose proof (NoDup_np_unique y) as Hnodup.
  pose proof (λ x, elem_of_np_unique x y) as Hclasses.
  set (classes := np_unique y) in *. set (k := length classes).
  assert (∀ i, i ∈ ids ↔ (0 ≤ i < Z.of_nat k)%Z) as Hrange.
  { intros i. split.
    - intros Hi. apply list_elem_of_lookup in Hi as [j Hj].
      destruct (Forall2_lookup_r _ _ _ _ _ HF Hj) as (name & _ & Henc).
      by apply encode_range in Henc.
    - intros Hi.
      destruct (lookup_lt_is_Some_2 classes (Z.to_nat i)) as [name Hname]; [unfold k in Hi; lia|].
      assert (name ∈ y) as Hy.
      { apply Hclasses. by eapply list_elem_of_lookup_2. }
      apply list_elem_of_lookup in Hy as [j Hj].
      destruct (Forall2_lookup_l _ _ _ _ _ HF Hj) as (id & Hid & Henc).
      rewrite (encode_lookup _ _ _ Hnodup Hname) in Henc.
      injection Henc as <-. rewrite Z2Nat.id in Hid by lia.
      by eapply list_elem_of_lookup_2. }
  assert (bincount ids =
    Ret ((λ i, Z.of_nat (length (filter (λ j, j = i) ids))) <$> seqZ 0 (Z.of_nat k)))
    as Hbin.
  { unfold bincount. rewrite bool_decide_eq_false_2.
    - by rewrite (bincount_length ids k Hrange).
    - intros (i & Hi%Hrange & Hneg)%list.Exists_exists. lia. }
  exists ids. unfold build_model. rewrite (np_unique_ids_range ids k Hrange).
  rewrite length_seqZ, Nat2Z.id, Hlen.
  case_bool_decide as Hk.
  - rewrite Hbin. eexists. split; [done|]. split; [reflexivity|].
    cbn [class_weight mbind outcome_bind].
    set (weights := (λ count, true_divide (Z.of_nat (length y)) (Z.of_nat k * count)) <$>
      ((λ i, Z.of_nat (length (filter (λ j, j = i) ids))) <$> seqZ 0 (Z.of_nat k))).
    assert (length weights = k) as Hw.
    { unfold weights. by rewrite !length_fmap, length_seqZ, Nat2Z.id. }
    assert (NoDup (zip (seqZ 0 (Z.of_nat k)) weights).*1) as Hnd.
    { rewrite fst_zip by (rewrite length_seqZ; lia). apply NoDup_seqZ. }
    split; [lia|]. split.
    + intros i. split.
      * intros [v Hv]. apply dict_lookup in Hv; [|done].
        apply elem_of_zip_l, elem_of_seqZ in Hv. lia.
      * intros Hi.
        destruct (lookup_lt_is_Some_2 weights (Z.to_nat i)) as [v Hv]; [lia|].
        exists v. apply dict_lookup; [done|].
        apply list_elem_of_lookup. exists (Z.to_nat i).
        rewrite lookup_zip_with, lookup_seqZ_lt by lia. simpl.
        rewrite Hv. simpl. do 2 f_equal. lia.
    + intros i name Hname.
      assert (i < k)%nat as Hi by (by eapply lookup_lt_Some).
      apply dict_lookup; [done|].
      apply list_elem_of_lookup. exists i.
      rewrite lookup_zip_with, lookup_seqZ_lt by lia. simpl.
      unfold weights. rewrite !list_lookup_fmap, lookup_seqZ_lt by lia. simpl.
      rewrite Z.add_0_l. do 5 f_equal.
      apply (count_encoded classes y ids i name Hnodup Hname HF).
  - eexists. split; [done|]. split; [reflexivity|]. cbn [class_weight]. lia.
Qed.

(** The pairing goes wrong for ids that skip a value, which no fitted
    encoder gives: class 1 gets the weight of the absent class 0, an
    infinity, and class 3 gets the weight computed for class 1. *)
Example build_model_skipped_id :
  class_weight <$> build_model [1; 3; 3; 3]%Z
    = Ret (Some (dict [(1%Z, infinity); (3%Z, 2%float)])).
Proof. by vm_compute. Qed.

(** ** Training *)

(** After the last loop of [prepare_data] the encoded column of a label
    column holds the ids its encoder gives the labels. *)
Lemma encode_labels_columns (df : list prepared_row) self df' self' (c : column) :
  encode_labels df self = (Ret df', self') →
  Forall (λ p, encoded p = []) df →
  encoded_column c df' =
    transform (fit (column_values c (raw_rows df))) (column_values c (raw_rows df)).
Proof.
  unfold encode_labels, label_columns. cbn [py_fold].
  unfold mbind, py_mbind, mret, py_mret.
  destruct (fit_transform_run Category (column_values Category (raw_rows df)) self)
    as (ids1 & Hrun1 & Hlen1).
  set (df1 := assign_encoded Category ids1 df).
  assert (raw_rows df1 = raw_rows df) as Hraw1.
  { apply raw_rows_assign_encoded.
    by rewrite Hlen1; unfold column_values, raw_rows; rewrite !length_fmap. }
  destruct (fit_transform_run SubCategory (column_values SubCategory (raw_rows df1))
              (set_encoder Category (fit (column_values Category (raw_rows df))) self))
    as (ids2 & Hrun2 & Hlen2).
  erewrite py_bind_Ret; [|by erewrite py_bind_Ret; [|exact Hrun1]].
  fold df1.
  erewrite py_bind_Ret; [|by erewrite py_bind_Ret; [|exact Hrun2]].
  intros [= <- <-] Hempty.
  rewrite fit_transform_eq in Hrun1, Hrun2. rewrite Hraw1 in Hrun2, Hlen2.
  injection Hrun1 as Hids1. injection Hrun2 as Hids2.
  unfold column_values, raw_rows in Hlen1, Hlen2. rewrite !length_fmap in Hlen1, Hlen2.
  assert (Forall2 (λ p id, encoded_value c p = Ret id)
            (assign_encoded SubCategory ids2 df1)
            (match c with Category => ids1 | SubCategory => ids2 end)) as HF.
  { apply Forall2_same_length_lookup_2.
    - unfold df1, assign_encoded.
      rewrite !length_zip_with. destruct c; lia.
    - intros k p id Hp Hid.
      apply assign_encoded_lookup in Hp as (p1 & j & Hp1 & Hj & ->).
      apply assign_encoded_lookup in Hp1 as (p0 & i & Hp0 & Hi & ->).
      rewrite (proj1 (Forall_lookup _ _) Hempty k p0 Hp0).
      destruct c; unfold encoded_value; simpl; congruence. }
  unfold encoded_column. rewrite (mapM_outcome_Forall2_2 _ _ _ HF).
  by destruct c.
Qed.

Section TrainingFacts.
Variable word_tokenize : string → outcome (list string).
Variable lemmatize : string → outcome string.
Variable english_stopwords : list string.
Variable train_test_split : list string → list Z → outcome data_split.
Variable GridSearchCV_fit : GridSearchCV → list string → list Z → outcome Model.
Variable predict_all : Model → list string → outcome (list Z).
Variable classification_report : list Z → list Z → list string → outcome unit.

Abbreviation prepare_frame := (prepare_data word_tokenize lemmatize english_stopwords).
Abbreviation train_run := (train word_tokenize lemmatize english_stopwords
  train_test_split GridSearchCV_fit predict_all classification_report).
Abbreviation train_column_run := (train_column GridSearchCV_fit predict_all
  classification_report).

(** The encoded columns of a prepared frame are the labels as the
    encoders of the classifier encode them after the call. *)
Lemma prepare_data_columns df self df' self' (c : column) :
  prepare_frame df self = (Ret df', self') →
  label_encoders self' c = fit (column_values c (raw_rows df')) ∧
  ∃ ids, encoded_column c df' = Ret ids ∧
         transform (label_encoders self' c) (column_values c (raw_rows df')) = Ret ids.
Proof.
  intros Hrun.
  destruct (prepare_data_Ret _ _ _ _ _ _ _ Hrun)
    as (d0 & d1 & pdf & Hd0 & Hd1 & Hpdf & _ & Hraw & Henc & _).
  split; [apply Henc|].
  unfold prepare_data, mbind, py_mbind, py_bind, py_lift, py_get in Hrun.
  rewrite Hd0, Hd1, Hpdf in Hrun.
  destruct (transform_fit (column_values c (raw_rows df'))) as (ids & Hids & _).
  exists ids. split; [|by rewrite Henc].
  rewrite (encode_labels_columns _ _ _ _ c Hrun), <-Hraw; [done|].
  pose proof (add_processed_text_rows _ _ _ _ _ Hpdf) as Hrows.
  apply list.Forall_forall. intros p [_ Hp]%list_elem_of_filter.
  by destruct (proj1 (list.Forall_forall _ _) Hrows p Hp).
Qed.

Lemma train_column_Ret splits c self self' :
  train_column_run splits c self = (Ret tt, self') →
  ∃ s gs m, splits c = Some s ∧ build_model (y_train s) = Ret gs ∧
    GridSearchCV_fit gs (X_train s) (y_train s) = Ret m ∧
    self' = set_model c m (set_model c not_fitted self).
Proof.
  unfold train_column, getitem, mbind, py_mbind, py_bind, py_lift, py_modify, py_get.
  destruct (splits c) as [s|] eqn:Hs; [|done].
  destruct (build_model (y_train s)) as [gs|] eqn:Hgs; [|done].
  destruct (GridSearchCV_fit gs (X_train s) (y_train s)) as [m|] eqn:Hm; [|done].
  destruct (predict_all m (X_val s)) as [y_pred|]; [|done].
  destruct (get_classes _) as [class_names|]; [|done].
  destruct (classification_report _ _ _) as [[]|]; [|done].
  destruct (_perform_error_analysis _ _ _ _ _) as [[]|]; [|done].
  intros [= <-]. by exists s, gs, m.
Qed.

Lemma train_columns_Ret splits self self' :
  py_for label_columns (train_column_run splits) self = (Ret tt, self') →
  label_encoders self' = label_encoders self ∧
  min_samples_per_class self' = min_samples_per_class self ∧
  ∀ c, ∃ s gs m, splits c = Some s ∧ build_model (y_train s) = Ret gs ∧
    GridSearchCV_fit gs (X_train s) (y_train s) = Ret m ∧ models self' c = Some m.
Proof.
  unfold label_columns. cbn [py_for]. unfold mbind, py_mbind, py_bind, py_ret.
  destruct (train_column_run splits Category self) as [[[]|] s1] eqn:H1; [|done].
  destruct (train_column_run splits SubCategory s1) as [[[]|] s2] eqn:H2; [|done].
  intros [= <-].
  apply train_column_Ret in H1 as (sp1 & gs1 & m1 & Hs1 & Hgs1 & Hm1 & ->).
  apply train_column_Ret in H2 as (sp2 & gs2 & m2 & Hs2 & Hgs2 & Hm2 & ->).
  split; [done|]. split; [done|].
  intros [|]; [by exists sp1, gs1, m1|by exists sp2, gs2, m2].
Qed.

(** X25: when [train] returns, it returns [True] and both models are
    fitted. With a validation frame, the encoders the classifier keeps are
    those of the validation frame, which the second [prepare_data] call
    fitted, while each model was fitted on the ids that the encoders of
    the training frame gave the training labels. Without one, the encoders
    are those of the training frame, and each model was fitted on a split
    of the texts and of the ids of these encoders. *)
Theorem train_result (train_df : list row) (test_df : option (list row))
    (self self' : CybercrimeClassifier) (b : bool) :
  train_run train_df test_df self = (Ret b, self') →
  b = true ∧
  ∃ prepared_train_df self1,
    prepare_frame train_df self = (Ret prepared_train_df, self1) ∧
    (min_samples_per_class self * 2 ≤ Z.of_nat (length prepared_train_df))%Z ∧
    let X := processed_text <$> prepared_train_df in
    match test_df with
    | Some test_df =>
        ∃ prepared_test_df self2,
          prepare_frame test_df self1 = (Ret prepared_test_df, self2) ∧
          ∀ c,
            label_encoders self' c = fit (column_values c (raw_rows prepared_test_df)) ∧
            ∃ ids gs m,
              transform (fit (column_values c (raw_rows prepared_train_df)))
                (column_values c (raw_rows prepared_train_df)) = Ret ids ∧
              build_model ids = Ret gs ∧
              GridSearchCV_fit gs X ids = Ret m ∧
              models self' c = Some m
    | None =>
        ∀ c,
          label_encoders self' c = fit (column_values c (raw_rows prepared_train_df)) ∧
          ∃ ids s gs m,
            transform (label_encoders self' c)
              (column_values c (raw_rows prepared_train_df)) = Ret ids ∧
            train_test_split X ids = Ret s ∧
            build_model (y_train s) = Ret gs ∧
            GridSearchCV_fit gs (X_train s) (y_train s) = Ret m ∧
            models self' c = Some m
    end.
Proof.
  unfold train. rewrite py_try_reraise.
  unfold train_body, mbind, py_mbind, py_bind, py_get, py_lift, py_raise, mret, py_mret,
    py_ret.
  destruct (prepare_frame train_df self) as [[ptrain|] self1] eqn:Htrain; [|done].
  pose proof (prepare_data_Ret _ _ _ _ _ _ _ Htrain)
    as (_ & _ & _ & _ & _ & _ & _ & _ & _ & _ & Hmin).
  destruct (prepare_data_columns _ _ _ _ Category Htrain) as (Hf1 & y1 & Hy1 & Ht1).
  destruct (prepare_data_columns _ _ _ _ SubCategory Htrain) as (Hf2 & y2 & Hy2 & Ht2).
  case_bool_decide as Hlen; [done|]. cbv zeta.
  destruct test_df as [test_df|].
  - destruct (prepare_frame test_df self1) as [[ptest|] self2] eqn:Htest; [|done].
    destruct (prepare_data_columns _ _ _ _ Category Htest) as (Hv1 & v1 & Hyv1 & _).
    destruct (prepare_data_columns _ _ _ _ SubCategory Htest) as (Hv2 & v2 & Hyv2 & _).
    rewrite Hy1, Hy2, Hyv1, Hyv2. cbn [outcome_bind].
    destruct (py_for label_columns _ self2) as [[[]|] s3] eqn:Hfor; [|done].
    intros [= <- <-]. split; [done|].
    exists ptrain, self1. split; [done|]. split; [lia|].
    exists ptest, self2. split; [done|].
    apply train_columns_Ret in Hfor as (Henc & _ & Hmodels).
    intros c. rewrite Henc. split; [by destruct c|].
    destruct (Hmodels c) as (s & gs & m & Hs & Hgs & Hm & Hc).
    destruct c; injection Hs as <-; cbn [y_train X_train] in *.
    + exists y1, gs, m. by rewrite <-Hf1.
    + exists y2, gs, m. by rewrite <-Hf2.
  - unfold label_columns. cbn [foldlM]. unfold mbind. rewrite Hy1. cbn [outcome_bind].
    destruct (train_test_split _ y1) as [s1|] eqn:Hs1; [|done].
    cbn [outcome_bind]. rewrite Hy2. cbn [outcome_bind].
    destruct (train_test_split _ y2) as [s2|] eqn:Hs2; [|done].
    cbn [outcome_bind].
    destruct (py_for _ _ self1) as [[[]|] s3] eqn:Hfor; [|done].
    intros [= <- <-]. split; [done|].
    exists ptrain, self1. split; [done|]. split; [lia|].
    apply train_columns_Ret in Hfor as (Henc & _ & Hmodels).
    intros c. rewrite Henc. split; [by destruct c|].
    destruct (Hmodels c) as (s & gs & m & Hs & Hgs & Hm & Hc).
    destruct c; injection Hs as <-.
    + by exists y1, s1, gs, m.
    + by exists y2, s2, gs, m.
Qed.
End TrainingFacts.

Lemma train_result_witness :
  (SampleTraining.train SampleTraining.train_df (Some SampleTraining.val_df) (init 2)).1
    = Ret true.
Proof.
  destruct (SampleTraining.train SampleTraining.train_df (Some SampleTraining.val_df)
              (init 2)) as [o self'] eqn:Hrun.
  assert (∃ b, o = Ret b) as [b ->].
  { replace o with (SampleTraining.train SampleTraining.train_df
      (Some SampleTraining.val_df) (init 2)).1 by by rewrite Hrun.
    eexists. vm_compute. reflexivity. }
  simpl. f_equal.
  exact (proj1 (train_result _ _ _ _ _ _ _ _ _ _ _ _ Hrun)).
Defined.

(** What this means for [predict]. The memorizing model is trained on
    three categories, with "Financial Fraud" as id 0; the validation
    frame has two, and after [train] the category encoder knows only
    these. For the first training text the model answers id 0, surely,
    and [predict] reads it as "Hacking"; for the fifth it answers id 2,
    which the encoder does not have, and [predict] returns "Unknown". *)
Example train_then_predict :
  let self' :=
    (SampleTraining.train SampleTraining.train_df (Some SampleTraining.val_df)
       (init 2)).2 in
  classes_ (label_encoders self' Category) = Some ["Hacking"; "Social Media Crime"] ∧
  (λ results, results !! "category") <$>
    Sample.predict self' (PyStr "bank fraud money transfer")
    = Ret (Some (VStr "Hacking")) ∧
  (λ results, results !! "category_confidence") <$>
    Sample.predict self' (PyStr "bank fraud money transfer")
    = Ret (Some (VFloat 1)) ∧
  (λ results, results !! "category") <$>
    Sample.predict self' (PyStr "fake profile money request")
    = Ret (Some (VStr "Unknown")).
Proof. repeat split; by vm_compute. Qed.
